(** * ISA Plug and Play (src/device/isapnp.c): a shallow embedding

    The controller [isapnp_t], its cards and their logical devices are
    embedded as records; the C linked lists become lists in which a pointer
    is the position of its target (cards are only ever appended and logical
    devices only ever appended during parsing, so positions are stable).
    Unsigned C integers are [Z] values with the wrap-around written out.
    Calls into the host (callbacks registered by the card, the I/O handler
    registry) are recorded as a list of [event]s in call order. *)

From Stdlib Require Import ZArith List Lia Bool.
From stdpp Require Import base tactics option list list_numbers.
Import ListNotations.
Open Scope Z_scope.

(** ** Outcomes

    [Fatal] is a call to [fatal()], which aborts the emulator.  [Undefined]
    is where the C code would dereference a null pointer or index the ROM
    buffer outside what the caller handed over. *)

Inductive result (A : Type) : Type :=
| Ok (a : A)
| Fatal
| Undefined.
Arguments Ok {A} a.
Arguments Fatal {A}.
Arguments Undefined {A}.

#[global] Instance result_bind : MBind result :=
  fun A B (k : A -> result B) (r : result A) =>
    match r with
    | Ok a => k a
    | Fatal => Fatal
    | Undefined => Undefined
    end.

(** ** Fixed-width arithmetic *)

Definition u8 (x : Z) : Z := x mod 256.
Definition u16 (x : Z) : Z := x mod 65536.
Definition u24 (x : Z) : Z := x mod 16777216.
Definition u32 (x : Z) : Z := x mod 4294967296.

(** C truth value of an integer, and [!!x]. *)
Definition truthy (x : Z) : bool := negb (x =? 0).
Definition notnot (x : Z) : Z := if truthy x then 1 else 0.

Definition is_byte (x : Z) : Prop := 0 <= x < 256.

#[global] Instance is_byte_dec (x : Z) : Decision (is_byte x).
Proof. unfold is_byte. apply _. Defined.

(** ** Data model *)

Inductive pnp_state : Type :=
| PNP_STATE_WAIT_FOR_KEY
| PNP_STATE_CONFIG
| PNP_STATE_ISOLATION
| PNP_STATE_SLEEP.

#[global] Instance pnp_state_eq_dec : EqDecision pnp_state.
Proof. solve_decision. Defined.

(** [isapnp_device_t]: one logical device.  [regs] is the 256-entry
    register array; every index used below is below 256. *)
Record isapnp_device_t : Type := {
  number : Z;
  regs : list Z;
  upperlimit : Z
}.

Definition reg_get (rs : list Z) (r : Z) : Z := rs !!! Z.to_nat r.
Definition reg_set (rs : list Z) (r v : Z) : list Z := <[Z.to_nat r := v]> rs.

Definition ld_with_regs (rs : list Z) (ld : isapnp_device_t) : isapnp_device_t :=
  {| number := number ld; regs := rs; upperlimit := upperlimit ld |}.

Definition ld_with_upperlimit (u : Z) (ld : isapnp_device_t) : isapnp_device_t :=
  {| number := number ld; regs := regs ld; upperlimit := u |}.

(** A logical device as the C code can hold it. *)
Definition ld_wf (ld : isapnp_device_t) : Prop :=
  length (regs ld) = 256%nat /\ Forall is_byte (regs ld).

(** Modelled from the spec: [isapnp_device_config_t] is declared in
    86box/isapnp.h, which is not part of the sources at hand.  Following the
    spec's Configuration Record, the memory windows hold 24-bit fields, the
    32-bit memory windows full 32-bit fields, the I/O bases 16-bit fields, and
    the remaining members hold the byte expression the code assigns. *)
Record mem_window : Type := { base : Z; size_ : Z }.
Record irq_line : Type := { irq_number : Z; irq_level : Z; irq_type : Z }.
Record isapnp_device_config_t : Type := {
  activate : Z;
  mem : list mem_window;
  mem32 : list mem_window;
  io : list Z;
  irq : list irq_line;
  dma : list Z
}.

(** Modelled from the spec: [ISAPNP_DMA_DISABLED] comes from the same absent
    header; the spec only calls it a sentinel "disabled" value.  No theorem
    below depends on the number chosen. *)
Definition ISAPNP_DMA_DISABLED : Z := 4.

Definition config_zero : isapnp_device_config_t :=
  {| activate := 0;
     mem := repeat {| base := 0; size_ := 0 |} 4;
     mem32 := repeat {| base := 0; size_ := 0 |} 4;
     io := repeat 0 8;
     irq := repeat {| irq_number := 0; irq_level := 0; irq_type := 0 |} 2;
     dma := repeat 0 2 |}.

(** [isapnp_card_t].  The four callback pointers are modelled by whether
    they are set; [read_vendor_reg], the only one returning a value, carries
    the function of (logical device, register).  The opaque [priv] pointer is
    represented by the card's position in the events. *)
Record isapnp_card_t : Type := {
  state : pnp_state;
  csn : Z;
  id_checksum : Z;
  serial_read : Z;
  serial_read_pair : Z;
  serial_read_pos : Z;
  rom : list Z;
  rom_pos : Z;
  rom_size : Z;
  config : isapnp_device_config_t;
  config_changed : bool;
  csn_changed : bool;
  read_vendor_reg : option (Z -> Z -> Z);
  write_vendor_reg : bool;
  first_ld : list isapnp_device_t
}.

(** [isapnp_t].  [current_ld_card] and [current_ld] are only ever assigned
    together (Select-Logical-Device) and cleared together (reset), so they are
    one optional pair: position of the card, position of the device in it. *)
Record isapnp_t : Type := {
  reg : Z;
  key_pos : Z;
  read_data_addr : Z;
  first_card : list isapnp_card_t;
  isolated_card : option nat;
  current_ld : option (nat * nat)
}.

(** Handlers this unit registers with the I/O substrate. *)
Inductive io_handler : Type :=
| h_read_data
| h_write_addr
| h_write_data
| h_read_rangecheck (card ld : nat).

(** Calls that leave the unit, in the order the code makes them. *)
Inductive event : Type :=
| ev_config_changed (card : nat) (ld : Z) (cfg : isapnp_device_config_t)
| ev_csn_changed (card : nat) (csn : Z)
| ev_write_vendor_reg (card : nat) (ld r val : Z)
| ev_io_sethandler (addr : Z) (h : io_handler)
| ev_io_removehandler (addr : Z) (h : io_handler).

(** *** Field updates *)

Definition card_with_state (s : pnp_state) (c : isapnp_card_t) : isapnp_card_t :=
  {| state := s; csn := csn c; id_checksum := id_checksum c;
     serial_read := serial_read c; serial_read_pair := serial_read_pair c;
     serial_read_pos := serial_read_pos c; rom := rom c; rom_pos := rom_pos c;
     rom_size := rom_size c; config := config c;
     config_changed := config_changed c; csn_changed := csn_changed c;
     read_vendor_reg := read_vendor_reg c; write_vendor_reg := write_vendor_reg c;
     first_ld := first_ld c |}.

Definition card_with_csn (v : Z) (c : isapnp_card_t) : isapnp_card_t :=
  {| state := state c; csn := v; id_checksum := id_checksum c;
     serial_read := serial_read c; serial_read_pair := serial_read_pair c;
     serial_read_pos := serial_read_pos c; rom := rom c; rom_pos := rom_pos c;
     rom_size := rom_size c; config := config c;
     config_changed := config_changed c; csn_changed := csn_changed c;
     read_vendor_reg := read_vendor_reg c; write_vendor_reg := write_vendor_reg c;
     first_ld := first_ld c |}.

Definition card_with_id_checksum (v : Z) (c : isapnp_card_t) : isapnp_card_t :=
  {| state := state c; csn := csn c; id_checksum := v;
     serial_read := serial_read c; serial_read_pair := serial_read_pair c;
     serial_read_pos := serial_read_pos c; rom := rom c; rom_pos := rom_pos c;
     rom_size := rom_size c; config := config c;
     config_changed := config_changed c; csn_changed := csn_changed c;
     read_vendor_reg := read_vendor_reg c; write_vendor_reg := write_vendor_reg c;
     first_ld := first_ld c |}.

Definition card_with_serial (sr pair pos : Z) (c : isapnp_card_t) : isapnp_card_t :=
  {| state := state c; csn := csn c; id_checksum := id_checksum c;
     serial_read := sr; serial_read_pair := pair;
     serial_read_pos := pos; rom := rom c; rom_pos := rom_pos c;
     rom_size := rom_size c; config := config c;
     config_changed := config_changed c; csn_changed := csn_changed c;
     read_vendor_reg := read_vendor_reg c; write_vendor_reg := write_vendor_reg c;
     first_ld := first_ld c |}.

Definition card_with_rom (r : list Z) (c : isapnp_card_t) : isapnp_card_t :=
  {| state := state c; csn := csn c; id_checksum := id_checksum c;
     serial_read := serial_read c; serial_read_pair := serial_read_pair c;
     serial_read_pos := serial_read_pos c; rom := r; rom_pos := rom_pos c;
     rom_size := rom_size c; config := config c;
     config_changed := config_changed c; csn_changed := csn_changed c;
     read_vendor_reg := read_vendor_reg c; write_vendor_reg := write_vendor_reg c;
     first_ld := first_ld c |}.

Definition card_with_rom_pos (p : Z) (c : isapnp_card_t) : isapnp_card_t :=
  {| state := state c; csn := csn c; id_checksum := id_checksum c;
     serial_read := serial_read c; serial_read_pair := serial_read_pair c;
     serial_read_pos := serial_read_pos c; rom := rom c; rom_pos := p;
     rom_size := rom_size c; config := config c;
     config_changed := config_changed c; csn_changed := csn_changed c;
     read_vendor_reg := read_vendor_reg c; write_vendor_reg := write_vendor_reg c;
     first_ld := first_ld c |}.

Definition card_with_config (cfg : isapnp_device_config_t) (c : isapnp_card_t)
  : isapnp_card_t :=
  {| state := state c; csn := csn c; id_checksum := id_checksum c;
     serial_read := serial_read c; serial_read_pair := serial_read_pair c;
     serial_read_pos := serial_read_pos c; rom := rom c; rom_pos := rom_pos c;
     rom_size := rom_size c; config := cfg;
     config_changed := config_changed c; csn_changed := csn_changed c;
     read_vendor_reg := read_vendor_reg c; write_vendor_reg := write_vendor_reg c;
     first_ld := first_ld c |}.

Definition card_with_first_ld (lds : list isapnp_device_t) (c : isapnp_card_t)
  : isapnp_card_t :=
  {| state := state c; csn := csn c; id_checksum := id_checksum c;
     serial_read := serial_read c; serial_read_pair := serial_read_pair c;
     serial_read_pos := serial_read_pos c; rom := rom c; rom_pos := rom_pos c;
     rom_size := rom_size c; config := config c;
     config_changed := config_changed c; csn_changed := csn_changed c;
     read_vendor_reg := read_vendor_reg c; write_vendor_reg := write_vendor_reg c;
     first_ld := lds |}.

Definition dev_with_reg (v : Z) (dev : isapnp_t) : isapnp_t :=
  {| reg := v; key_pos := key_pos dev; read_data_addr := read_data_addr dev;
     first_card := first_card dev; isolated_card := isolated_card dev;
     current_ld := current_ld dev |}.

Definition dev_with_key_pos (v : Z) (dev : isapnp_t) : isapnp_t :=
  {| reg := reg dev; key_pos := v; read_data_addr := read_data_addr dev;
     first_card := first_card dev; isolated_card := isolated_card dev;
     current_ld := current_ld dev |}.

Definition dev_with_read_data_addr (v : Z) (dev : isapnp_t) : isapnp_t :=
  {| reg := reg dev; key_pos := key_pos dev; read_data_addr := v;
     first_card := first_card dev; isolated_card := isolated_card dev;
     current_ld := current_ld dev |}.

Definition dev_with_first_card (cs : list isapnp_card_t) (dev : isapnp_t) : isapnp_t :=
  {| reg := reg dev; key_pos := key_pos dev; read_data_addr := read_data_addr dev;
     first_card := cs; isolated_card := isolated_card dev;
     current_ld := current_ld dev |}.

Definition dev_with_isolated_card (o : option nat) (dev : isapnp_t) : isapnp_t :=
  {| reg := reg dev; key_pos := key_pos dev; read_data_addr := read_data_addr dev;
     first_card := first_card dev; isolated_card := o;
     current_ld := current_ld dev |}.

Definition dev_with_current_ld (o : option (nat * nat)) (dev : isapnp_t) : isapnp_t :=
  {| reg := reg dev; key_pos := key_pos dev; read_data_addr := read_data_addr dev;
     first_card := first_card dev; isolated_card := isolated_card dev;
     current_ld := o |}.

(** ** Constants *)

Definition pnp_init_key : list Z :=
  [ 0x6A; 0xB5; 0xDA; 0xED; 0xF6; 0xFB; 0x7D; 0xBE;
    0xDF; 0x6F; 0x37; 0x1B; 0x0D; 0x86; 0xC3; 0x61;
    0xB0; 0x58; 0x2C; 0x16; 0x8B; 0x45; 0xA2; 0xD1;
    0xE8; 0x74; 0x3A; 0x9D; 0xCE; 0xE7; 0x73; 0x39 ].

(** ** Register file and configuration translator *)

(** The body of the first loop of [isapnp_device_config_changed]. *)
Definition config_mem (rs : list Z) (i : Z) : mem_window :=
  let reg_base := 0x40 + 8 * i in
  let b := u24 (Z.lor (Z.shiftl (reg_get rs reg_base) 16)
                      (Z.shiftl (reg_get rs (reg_base + 1)) 8)) in
  let s := u24 (Z.lor (Z.shiftl (reg_get rs (reg_base + 3)) 16)
                      (Z.shiftl (reg_get rs (reg_base + 4)) 8)) in
  {| base := b;
     size_ := if truthy (Z.land (reg_get rs (reg_base + 2)) 0x01)
              then u24 (s - b) else s |}.

(** The body of the second loop. *)
Definition config_mem32 (rs : list Z) (i : Z) : mem_window :=
  let reg_base := if i =? 0 then 0x76 else 0x80 + 16 * i in
  let b := u32 (Z.lor (Z.lor (Z.lor (Z.shiftl (reg_get rs reg_base) 24)
                                    (Z.shiftl (reg_get rs (reg_base + 1)) 16))
                             (Z.shiftl (reg_get rs (reg_base + 2)) 8))
                      (reg_get rs (reg_base + 3))) in
  let s := u32 (Z.lor (Z.lor (Z.lor (Z.shiftl (reg_get rs (reg_base + 5)) 24)
                                    (Z.shiftl (reg_get rs (reg_base + 6)) 16))
                             (Z.shiftl (reg_get rs (reg_base + 7)) 8))
                      (reg_get rs (reg_base + 8))) in
  {| base := b;
     size_ := if truthy (Z.land (reg_get rs (reg_base + 4)) 0x01)
              then u32 (s - b) else s |}.

Definition config_io (rs : list Z) (i : Z) : Z :=
  let reg_base := 0x60 + 2 * i in
  u16 (Z.lor (Z.shiftl (reg_get rs reg_base) 8) (reg_get rs (reg_base + 1))).

Definition config_irq (rs : list Z) (i : Z) : irq_line :=
  let reg_base := 0x70 + 2 * i in
  {| irq_number := reg_get rs reg_base;
     irq_level := Z.land (reg_get rs (reg_base + 1)) 0x02;
     irq_type := Z.land (reg_get rs (reg_base + 1)) 0x01 |}.

Definition config_dma (rs : list Z) (i : Z) : Z := reg_get rs (0x74 + i).

(** The configuration record the function populates from [ld]. *)
Definition device_config (ld : isapnp_device_t) : isapnp_device_config_t :=
  let rs := regs ld in
  {| activate := Z.land (reg_get rs 0x30) 0x01;
     mem := map (config_mem rs) [0; 1; 2; 3];
     mem32 := map (config_mem32 rs) [0; 1; 2; 3];
     io := map (config_io rs) [0; 1; 2; 3; 4; 5; 6; 7];
     irq := map (config_irq rs) [0; 1];
     dma := map (config_dma rs) [0; 1] |}.

(** [isapnp_device_config_changed(card, ld)]; [ci] is the card's position,
    standing for its [priv]. *)
Definition isapnp_device_config_changed (ci : nat) (card : isapnp_card_t)
    (ld : isapnp_device_t) : isapnp_card_t * list event :=
  if negb (config_changed card) then (card, [])
  else
    let cfg := device_config ld in
    (card_with_config cfg card, [ev_config_changed ci (number ld) cfg]).

(** [isapnp_reset_ld_regs]. *)
Definition isapnp_reset_ld_regs (ld : isapnp_device_t) : isapnp_device_t :=
  let set_flag (rs : list Z) (r bit : Z) : list Z :=
    reg_set rs r (Z.lor (reg_get rs r)
                        (notnot (Z.land (upperlimit ld) (Z.shiftl 1 bit)))) in
  let rs0 := repeat 0 256 in
  let rs1 := reg_set (reg_set rs0 0x75 ISAPNP_DMA_DISABLED) 0x74 ISAPNP_DMA_DISABLED in
  let rs2 := fold_left (fun rs i => set_flag rs (0x42 + 8 * i) i) [0; 1; 2; 3] rs1 in
  let rs3 := set_flag rs2 0x7a 4 in
  let rs4 := fold_left (fun rs i => set_flag rs (0x84 + 16 * i) (4 + i)) [1; 2; 3] rs3 in
  ld_with_regs rs4 ld.

(** [isapnp_read_rangecheck], the handler installed on the I/O bases while
    range checking is on. *)
Definition isapnp_read_rangecheck (ld : isapnp_device_t) : Z :=
  if truthy (Z.land (reg_get (regs ld) 0x31) 0x01) then 0x55 else 0xaa.

(** ** Shared lookups *)

(** [card->rom[i]] as a read and as a write; outside the buffer the C code
    is undefined. *)
Definition rom_at (r : list Z) (i : Z) : result Z :=
  match r !! Z.to_nat i with
  | Some b => Ok b
  | None => Undefined
  end.

Definition rom_store (r : list Z) (i v : Z) : result (list Z) :=
  if decide (Z.to_nat i < length r)%nat then Ok (<[Z.to_nat i := v]> r)
  else Undefined.

(** The scanning loops ([CHECK_CURRENT_CARD] and the one of Serial
    Isolation): position and value of the first card in state [s]. *)
Definition find_card (s : pnp_state) (cs : list isapnp_card_t)
  : option (nat * isapnp_card_t) :=
  list_find (fun c => state c = s) cs.

(** Dereferencing [dev->current_ld_card] and [dev->current_ld]. *)
Definition deref_ld (dev : isapnp_t) (p : nat * nat)
  : result (isapnp_card_t * isapnp_device_t) :=
  match first_card dev !! p.1 with
  | Some card =>
      match first_ld card !! p.2 with
      | Some ld => Ok (card, ld)
      | None => Undefined
      end
  | None => Undefined
  end.

(** Writing a card and one of its logical devices back in place. *)
Definition store_ld (p : nat * nat) (card : isapnp_card_t) (ld : isapnp_device_t)
    (dev : isapnp_t) : isapnp_t :=
  dev_with_first_card
    (<[p.1 := card_with_first_ld (<[p.2 := ld]> (first_ld card)) card]> (first_card dev))
    dev.

(** ** Serial isolation engine and the read-data port *)

(** The body of [case 0x01] once a card in ISOLATION has been found. *)
Definition serial_isolation_read (card : isapnp_card_t) : result (Z * isapnp_card_t) :=
  let pos := serial_read_pos card in
  if truthy (serial_read_pair card) then
    (* second byte (aa/00) *)
    let sr := u8 (Z.shiftl (serial_read card) 1) in
    let card1 := if negb (truthy pos) then card_with_rom_pos 0x09 card else card in
    Ok (sr, card_with_serial sr (Z.lxor (serial_read_pair card) 1) pos card1)
  else
    (* first byte (55/00) *)
    r ← (if pos <? 64 then
           b ← rom_at (rom card) (Z.shiftr pos 3);
           let bit := Z.land (Z.shiftr b (Z.land pos 0x7)) 0x01 in
           let next_shift :=
             Z.land (Z.lxor (Z.lxor (notnot (Z.land (id_checksum card) 0x02))
                                    (notnot (Z.land (id_checksum card) 0x01)))
                            bit) 0x01 in
           let cks := Z.shiftr (id_checksum card) 1 in
           Ok (bit, card_with_id_checksum (u8 (Z.lor cks (Z.shiftl next_shift 7))) card)
         else
           card1 ← (if pos =? 64 then
                      r' ← rom_store (rom card) 0x08 (id_checksum card);
                      Ok (card_with_rom r' card)
                    else Ok card);
           Ok (Z.land (Z.shiftr (id_checksum card1) (Z.land pos 0x7)) 0x01, card1));
    let sr := if truthy r.1 then 0x55 else 0x00 in
    Ok (sr, card_with_serial sr (Z.lxor (serial_read_pair card) 1) ((pos + 1) mod 72) r.2).

Definition is_card_vendor_reg (r : Z) : bool := (0x20 <=? r) && (r <=? 0x2f).
Definition is_ld_vendor_reg (r : Z) : bool :=
  ((0x38 <=? r) && (r <=? 0x3f)) || ((0xf0 <=? r) && (r <=? 0xfe)).

(** [isapnp_read_data]: the byte returned and the controller afterwards. *)
Definition isapnp_read_data (dev : isapnp_t) : result (Z * isapnp_t) :=
  let r := reg dev in
  if r =? 0x01 then (* Serial Isolation *)
    let found := find_card PNP_STATE_ISOLATION (first_card dev) in
    let dev1 := dev_with_isolated_card (fst <$> found) dev in
    match found with
    | Some (ci, card) =>
        p ← serial_isolation_read card;
        Ok (p.1, dev_with_first_card (<[ci := p.2]> (first_card dev1)) dev1)
    | None => Ok (0xff, dev1)
    end
  else if r =? 0x04 then (* Resource Data *)
    match find_card PNP_STATE_CONFIG (first_card dev) with
    | Some (ci, card) =>
        if rom_size card <=? rom_pos card then Ok (0xff, dev)
        else
          b ← rom_at (rom card) (rom_pos card);
          Ok (b, dev_with_first_card
                   (<[ci := card_with_rom_pos (u16 (rom_pos card + 1)) card]>
                      (first_card dev)) dev)
    | None => Ok (0xff, dev)
    end
  else if r =? 0x05 then (* Status *)
    match find_card PNP_STATE_CONFIG (first_card dev) with
    | Some _ => Ok (0x01, dev)
    | None => Ok (0x00, dev)
    end
  else if r =? 0x06 then (* Card Select Number *)
    match find_card PNP_STATE_CONFIG (first_card dev) with
    | Some (_, card) => Ok (csn card, dev)
    | None => Ok (0x00, dev)
    end
  else if r =? 0x07 then (* Logical Device Number *)
    match current_ld dev with
    | Some p => cl ← deref_ld dev p; Ok (number cl.2, dev)
    | None => Ok (0x00, dev)
    end
  else if is_card_vendor_reg r then
    match find_card PNP_STATE_CONFIG (first_card dev) with
    | Some (_, card) =>
        match read_vendor_reg card with
        | Some f => Ok (u8 (f 0 r), dev)
        | None => Ok (0xff, dev)
        end
    | None => Ok (0xff, dev)
    end
  else if is_ld_vendor_reg r then
    match current_ld dev with
    | Some p =>
        cl ← deref_ld dev p;
        match read_vendor_reg cl.1 with
        | Some f => Ok (u8 (f (number cl.2) r), dev)
        | None => Ok (0xff, dev)
        end
    | None => Ok (0xff, dev)
    end
  else if 0x30 <=? r then
    match current_ld dev with
    | Some p => cl ← deref_ld dev p; Ok (reg_get (regs cl.2) r, dev)
    | None => Ok (0xff, dev)
    end
  else Ok (0xff, dev).

(** ** The address port *)

(** [isapnp_set_read_data]. *)
Definition isapnp_set_read_data (addr : Z) (dev : isapnp_t) : isapnp_t * list event :=
  let old := read_data_addr dev in
  let dev1 := if truthy old then dev_with_read_data_addr 0 dev else dev in
  let ev1 := if truthy old then [ev_io_removehandler old h_read_data] else [] in
  if (0x203 <=? addr) && (addr <=? 0x3ff)
  then (dev_with_read_data_addr addr dev1, ev1 ++ [ev_io_sethandler addr h_read_data])
  else (dev1, ev1).

(** The loop run once the key is complete. *)
Definition unlock_card (card : isapnp_card_t) : isapnp_card_t :=
  if decide (state card = PNP_STATE_WAIT_FOR_KEY)
  then card_with_state PNP_STATE_SLEEP card else card.

(** [isapnp_write_addr].  [key_pos] is a 5-bit field: incrementing it wraps
    at 32. *)
Definition isapnp_write_addr (val : Z) (dev : isapnp_t) : isapnp_t :=
  match first_card dev with
  | [] => dev (* don't do anything if we have no PnP cards *)
  | card :: _ =>
      if decide (state card = PNP_STATE_WAIT_FOR_KEY) then
        if val =? pnp_init_key !!! Z.to_nat (key_pos dev) then
          let kp := (key_pos dev + 1) mod 32 in
          let dev1 := dev_with_key_pos kp dev in
          if kp =? 0
          then dev_with_first_card (unlock_card <$> first_card dev1) dev1
          else dev1
        else dev_with_key_pos 0 dev
      else dev_with_reg val dev
  end.

(** ** The write-data port *)

(** Config Control bit 0, inner loop: every logical device of [card] is
    reset and announced, in list order. *)
Fixpoint reset_lds (ci : nat) (card : isapnp_card_t) (lds : list isapnp_device_t)
  : isapnp_card_t * list isapnp_device_t * list event :=
  match lds with
  | [] => (card, [], [])
  | ld :: rest =>
      let ld1 := isapnp_reset_ld_regs ld in
      let c1 := isapnp_device_config_changed ci card ld1 in
      let r := reset_lds ci c1.1 rest in
      (r.1.1, ld1 :: r.1.2, c1.2 ++ r.2)
  end.

(** Config Control bit 0, outer loop, from position [ci] on. *)
Fixpoint reset_cards (ci : nat) (cs : list isapnp_card_t)
  : list isapnp_card_t * list event :=
  match cs with
  | [] => ([], [])
  | card :: rest =>
      let r := reset_lds ci card (first_ld card) in
      let rs := reset_cards (S ci) rest in
      (card_with_first_ld r.1.2 r.1.1 :: rs.1, r.2 ++ rs.2)
  end.

(** Config Control bit 2, from position [ci] on. *)
Fixpoint reset_csns (ci : nat) (cs : list isapnp_card_t)
  : list isapnp_card_t * list event :=
  match cs with
  | [] => ([], [])
  | card :: rest =>
      let rs := reset_csns (S ci) rest in
      (card_with_csn 0 card :: rs.1,
       (if csn_changed card then [ev_csn_changed ci 0] else []) ++ rs.2)
  end.

(** [case 0x02]. *)
Definition config_control (val : Z) (dev : isapnp_t) : isapnp_t * list event :=
  let s1 :=
    if truthy (Z.land val 0x01) then
      let a := isapnp_set_read_data 0 dev in
      let b := reset_cards 0 (first_card a.1) in
      (dev_with_isolated_card None
         (dev_with_current_ld None (dev_with_first_card b.1 a.1)),
       a.2 ++ b.2)
    else (dev, []) in
  let s2 :=
    if truthy (Z.land val 0x02) then
      dev_with_first_card
        (card_with_state PNP_STATE_WAIT_FOR_KEY <$> first_card s1.1) s1.1
    else s1.1 in
  if truthy (Z.land val 0x04) then
    let c := reset_csns 0 (first_card s2) in
    (dev_with_first_card c.1 s2, s1.2 ++ c.2)
  else (s2, s1.2).

(** [case 0x03], the body of the loop for one card. *)
Definition wake_card (val : Z) (card : isapnp_card_t) : isapnp_card_t :=
  if csn card =? val then
    let c1 := card_with_id_checksum (pnp_init_key !!! 0%nat) (card_with_rom_pos 0 card) in
    if decide (state card = PNP_STATE_SLEEP)
    then card_with_state (if val =? 0 then PNP_STATE_ISOLATION else PNP_STATE_CONFIG) c1
    else c1
  else card_with_state PNP_STATE_SLEEP card.

(** [case 0x31], the handler calls of the loop over the eight I/O bases. *)
Definition range_check_events (p : nat * nat) (rs : list Z) (val : Z) : list event :=
  flat_map
    (fun r =>
       let io_addr := Z.lor (Z.shiftl (reg_get rs r) 8) (reg_get rs (r + 1)) in
       (if truthy (Z.land (reg_get rs 0x31) 0x02)
        then [ev_io_removehandler io_addr (h_read_rangecheck p.1 p.2)] else [])
       ++ (if truthy (Z.land val 0x02)
           then [ev_io_sethandler io_addr (h_read_rangecheck p.1 p.2)] else []))
    [0x60; 0x62; 0x64; 0x66; 0x68; 0x6a; 0x6c; 0x6e].

(** The inner [switch] of the default case: the memory range length /
    upper limit registers whose low bit is read-only. *)
Definition is_upper_limit_reg (r : Z) : bool :=
  (r =? 0x42) || (r =? 0x4a) || (r =? 0x52) || (r =? 0x5a)
  || (r =? 0x7a) || (r =? 0x84) || (r =? 0x94) || (r =? 0xa4).

(** The byte the default case stores in register [r]. *)
Definition stored_value (r val old : Z) : Z :=
  if is_upper_limit_reg r
  then Z.lor (Z.land val 0xfe) (Z.land old 0x01)
  else val.

(** [isapnp_write_data]: the controller afterwards and the calls made. *)
Definition isapnp_write_data (val : Z) (dev : isapnp_t) : result (isapnp_t * list event) :=
  let r := reg dev in
  if r =? 0x00 then (* Set RD_DATA Port *)
    Ok (isapnp_set_read_data (Z.lor (Z.shiftl val 2) 3) dev)
  else if r =? 0x02 then (* Config Control *)
    Ok (config_control val dev)
  else if r =? 0x03 then (* Wake[CSN] *)
    Ok (dev_with_first_card (wake_card val <$> first_card dev) dev, [])
  else if r =? 0x06 then (* Card Select Number *)
    match isolated_card dev with
    | Some ci =>
        match first_card dev !! ci with
        | Some card =>
            let card1 := card_with_state PNP_STATE_CONFIG (card_with_csn val card) in
            Ok (dev_with_isolated_card None
                  (dev_with_first_card (<[ci := card1]> (first_card dev)) dev),
                if csn_changed card then [ev_csn_changed ci val] else [])
        | None => Undefined
        end
    | None => Ok (dev, [])
    end
  else if r =? 0x07 then (* Logical Device Number *)
    match find_card PNP_STATE_CONFIG (first_card dev) with
    | Some (ci, card) =>
        match list_find (fun ld => number ld = val) (first_ld card) with
        | Some (li, _) => Ok (dev_with_current_ld (Some (ci, li)) dev, [])
        | None => Fatal
        end
    | None => Ok (dev, [])
    end
  else if r =? 0x30 then (* Activate *)
    match current_ld dev with
    | Some p =>
        cl ← deref_ld dev p;
        let ld1 := ld_with_regs (reg_set (regs cl.2) r (Z.land val 0x01)) cl.2 in
        let c := isapnp_device_config_changed p.1 cl.1 ld1 in
        Ok (store_ld p c.1 ld1 dev, c.2)
    | None => Ok (dev, [])
    end
  else if r =? 0x31 then (* I/O Range Check *)
    match current_ld dev with
    | Some p =>
        cl ← deref_ld dev p;
        let ld1 := ld_with_regs (reg_set (regs cl.2) r (Z.land val 0x03)) cl.2 in
        Ok (store_ld p cl.1 ld1 dev, range_check_events p (regs cl.2) val)
    | None => Ok (dev, [])
    end
  else if is_card_vendor_reg r then
    match find_card PNP_STATE_CONFIG (first_card dev) with
    | Some (ci, card) =>
        Ok (dev, if write_vendor_reg card then [ev_write_vendor_reg ci 0 r val] else [])
    | None => Ok (dev, [])
    end
  else if is_ld_vendor_reg r then
    match current_ld dev with
    | Some p =>
        cl ← deref_ld dev p;
        Ok (dev, if write_vendor_reg cl.1
                 then [ev_write_vendor_reg p.1 (number cl.2) r val] else [])
    | None => Ok (dev, [])
    end
  else if 0x40 <=? r then
    match current_ld dev with
    | Some p =>
        cl ← deref_ld dev p;
        let v := stored_value r val (reg_get (regs cl.2) r) in
        let ld1 := ld_with_regs (reg_set (regs cl.2) r v) cl.2 in
        let c := isapnp_device_config_changed p.1 cl.1 ld1 in
        Ok (store_ld p c.1 ld1 dev, c.2)
    | None => Ok (dev, [])
    end
  else Ok (dev, []).

(** [isapnp_init]: the zeroed controller and its two fixed ports. *)
Definition isapnp_init : isapnp_t * list event :=
  ({| reg := 0; key_pos := 0; read_data_addr := 0; first_card := [];
      isolated_card := None; current_ld := None |},
   [ev_io_sethandler 0x279 h_write_addr; ev_io_sethandler 0xa79 h_write_data]).

(** ** Attaching a card: ROM checksum and resource parser *)

(** One round of the checksum loop: [rom[checksum_offset] += rom[i]].  Both
    indices are inside the buffer once the store that precedes the loop has
    succeeded. *)
Definition checksum_add (co : Z) (r : list Z) (i : Z) : list Z :=
  <[Z.to_nat co := u8 (r !!! Z.to_nat co + r !!! Z.to_nat i)]> r.

(** "Populate descriptor checksum in ROM": [rom_size] is a [uint16_t], so
    is [checksum_offset]. *)
Definition populate_checksum (r : list Z) (rom_size : Z) : result (list Z) :=
  let checksum_offset := u16 (rom_size - 1) in
  r0 ← rom_store r checksum_offset 0x00;
  let r1 := fold_left (checksum_add checksum_offset) (seqZ 9 (checksum_offset - 9)) r0 in
  Ok (<[Z.to_nat checksum_offset := u8 (- (r1 !!! Z.to_nat checksum_offset))]> r1).

(** The locals of the parsing loop.  [p_ld] is [ld]; [p_done] holds the
    logical devices before it in the card's list, so [prev_ld] is the last
    of [p_done]. *)
Record parse_state : Type := {
  p_i : Z;
  p_ldn : Z;
  p_in_df : Z;
  p_mem_range : Z;
  p_mem_range_32 : Z;
  p_mem_range_df : Z;
  p_mem_range_32_df : Z;
  p_done : list isapnp_device_t;
  p_ld : option isapnp_device_t
}.

Definition parse_start : parse_state :=
  {| p_i := 9; p_ldn := 0; p_in_df := 0;
     p_mem_range := 0; p_mem_range_32 := 0;
     p_mem_range_df := 0; p_mem_range_32_df := 0;
     p_done := []; p_ld := None |}.

Definition new_ld (n : Z) : isapnp_device_t :=
  {| number := n; regs := repeat 0 256; upperlimit := 0 |}.

(** Large resources 0x01 and 0x05: take the next slot and record whether it
    uses an upper limit.  [res] is the item kind on entry. *)
Definition memory_descriptor (r : list Z) (res : Z) (st : parse_state)
  : result parse_state :=
  slot ← (if res =? 0x01 then
            if 3 <? p_mem_range st then Fatal else Ok (p_mem_range st)
          else
            if 3 <? p_mem_range_32 st then Fatal else Ok (4 + p_mem_range_32 st));
  let res1 := u8 (Z.shiftl 1 slot) in
  let bump (x : Z) := u8 (x + 1) in
  let bump_df (x : Z) := if truthy (p_in_df st) then x else u8 (x + 1) in
  flags ← rom_at r (p_i st + 3);
  match p_ld st with
  | None => Undefined
  | Some ld =>
      let ul := if truthy (Z.land flags 0x4)
                then Z.lor (upperlimit ld) res1
                else Z.land (upperlimit ld) (Z.lnot res1) in
      Ok {| p_i := p_i st; p_ldn := p_ldn st; p_in_df := p_in_df st;
            p_mem_range :=
              if res =? 0x01 then bump (p_mem_range st) else p_mem_range st;
            p_mem_range_32 :=
              if res =? 0x01 then p_mem_range_32 st else bump (p_mem_range_32 st);
            p_mem_range_df :=
              if res =? 0x01 then bump_df (p_mem_range_df st) else p_mem_range_df st;
            p_mem_range_32_df :=
              if res =? 0x01 then p_mem_range_32_df st
              else bump_df (p_mem_range_32_df st);
            p_done := p_done st;
            p_ld := Some (ld_with_upperlimit ul ld) |}
  end.

(** Small resource 0x02: close the previous logical device and open the
    next one. *)
Definition logical_device_start (st : parse_state) : parse_state :=
  {| p_i := p_i st; p_ldn := u8 (p_ldn st + 1); p_in_df := p_in_df st;
     p_mem_range := 0; p_mem_range_32 := 0;
     p_mem_range_df := 0; p_mem_range_32_df := 0;
     p_done := match p_ld st with
               | Some ld => p_done st ++ [isapnp_reset_ld_regs ld]
               | None => p_done st
               end;
     p_ld := Some (new_ld (p_ldn st)) |}.

(** Small resource 0x06. *)
Definition start_dependent_functions (st : parse_state) : parse_state :=
  if truthy (p_in_df st) then
    {| p_i := p_i st; p_ldn := p_ldn st; p_in_df := p_in_df st;
       p_mem_range := p_mem_range_df st; p_mem_range_32 := p_mem_range_32_df st;
       p_mem_range_df := p_mem_range_df st;
       p_mem_range_32_df := p_mem_range_32_df st;
       p_done := p_done st; p_ld := p_ld st |}
  else
    {| p_i := p_i st; p_ldn := p_ldn st; p_in_df := 1;
       p_mem_range := p_mem_range st; p_mem_range_32 := p_mem_range_32 st;
       p_mem_range_df := p_mem_range st;
       p_mem_range_32_df := p_mem_range_32 st;
       p_done := p_done st; p_ld := p_ld st |}.

(** Small resource 0x07. *)
Definition end_dependent_functions (st : parse_state) : parse_state :=
  {| p_i := p_i st; p_ldn := p_ldn st; p_in_df := 0;
     p_mem_range := p_mem_range st; p_mem_range_32 := p_mem_range_32 st;
     p_mem_range_df := p_mem_range_df st;
     p_mem_range_32_df := p_mem_range_32_df st;
     p_done := p_done st; p_ld := p_ld st |}.

Definition advance (n : Z) (st : parse_state) : parse_state :=
  {| p_i := u16 (p_i st + n); p_ldn := p_ldn st; p_in_df := p_in_df st;
     p_mem_range := p_mem_range st; p_mem_range_32 := p_mem_range_32 st;
     p_mem_range_df := p_mem_range_df st;
     p_mem_range_32_df := p_mem_range_32_df st;
     p_done := p_done st; p_ld := p_ld st |}.

(** How the tag byte at the cursor is read. *)
Definition is_large (tag : Z) : bool := truthy (Z.land tag 0x80).
Definition large_kind (tag : Z) : Z := Z.land tag 0x7f.
Definition small_kind (tag : Z) : Z := Z.land (Z.shiftr tag 3) 0x0f.
Definition small_len (tag : Z) : Z := Z.land tag 0x07.

(** One round of the [while (i < card->rom_size)] loop. *)
Definition parse_item (r : list Z) (st : parse_state) : result parse_state :=
  tag ← rom_at r (p_i st);
  if is_large tag then
    let res := large_kind tag in
    hi ← rom_at r (p_i st + 2);
    lo ← rom_at r (p_i st + 1);
    let len := Z.lor (Z.shiftl hi 8) lo in
    st1 ← (if (res =? 0x01) || (res =? 0x05) then memory_descriptor r res st
           else Ok st);
    Ok (advance len (advance 3 st1))
  else
    let res := small_kind tag in
    let len := small_len tag in
    let st1 := if res =? 0x02 then logical_device_start st
               else if res =? 0x06 then start_dependent_functions st
               else if res =? 0x07 then end_dependent_functions st
               else st in
    Ok (advance len (advance 1 st1)).

(** The loop, cut off after [fuel] rounds ([None]): the 16-bit cursor can
    wrap, so the C loop need not end on every buffer. *)
Fixpoint parse_rom (fuel : nat) (r : list Z) (rom_size : Z) (st : parse_state)
  : option (result parse_state) :=
  if p_i st <? rom_size then
    match fuel with
    | O => None
    | S fuel' =>
        match parse_item r st with
        | Ok st1 => parse_rom fuel' r rom_size st1
        | Fatal => Some Fatal
        | Undefined => Some Undefined
        end
    end
  else Some (Ok st).

(** "We're done with the last logical device": the card's final list. *)
Definition parsed_devices (st : parse_state) : list isapnp_device_t :=
  match p_ld st with
  | Some ld => p_done st ++ [isapnp_reset_ld_regs ld]
  | None => p_done st
  end.

(** [isapnp_add_card] on an existing controller: the controller with the new
    card at the end of its list, and the card's position (its handle). *)
Definition isapnp_add_card (fuel : nat) (r : list Z) (rom_size : Z)
    (config_changed' csn_changed' : bool) (read_vendor_reg' : option (Z -> Z -> Z))
    (write_vendor_reg' : bool) (dev : isapnp_t)
  : option (result (isapnp_t * nat)) :=
  match populate_checksum r rom_size with
  | Ok r1 =>
      match parse_rom fuel r1 rom_size parse_start with
      | Some (Ok st) =>
          let card :=
            {| state := PNP_STATE_WAIT_FOR_KEY; csn := 0; id_checksum := 0;
               serial_read := 0; serial_read_pair := 0; serial_read_pos := 0;
               rom := r1; rom_pos := 0; rom_size := rom_size;
               config := config_zero;
               config_changed := config_changed'; csn_changed := csn_changed';
               read_vendor_reg := read_vendor_reg';
               write_vendor_reg := write_vendor_reg';
               first_ld := parsed_devices st |} in
          Some (Ok (dev_with_first_card (first_card dev ++ [card]) dev,
                    length (first_card dev)))
      | Some Fatal => Some Fatal
      | Some Undefined => Some Undefined
      | None => None
      end
  | Fatal => Some Fatal
  | Undefined => Some Undefined
  end.

(** [isapnp_set_csn] on the card at position [ci]. *)
Definition isapnp_set_csn (ci : nat) (v : Z) (dev : isapnp_t)
  : result (isapnp_t * list event) :=
  match first_card dev !! ci with
  | Some card =>
      Ok (dev_with_first_card (<[ci := card_with_csn v card]> (first_card dev)) dev,
          if csn_changed card then [ev_csn_changed ci v] else [])
  | None => Undefined
  end.

(** * Vocabulary of the properties *)

(** Sum of a list of bytes. *)
Definition Zsum (l : list Z) : Z := foldr Z.add 0 l.

(** The card at position [ci] is the one the scanning loops stop at: the
    first card of the list in state [s]. *)
Definition first_in_state (s : pnp_state) (cs : list isapnp_card_t)
    (ci : nat) (card : isapnp_card_t) : Prop :=
  cs !! ci = Some card /\ state card = s
  /\ forall (j : nat) (c : isapnp_card_t),
       cs !! j = Some c -> (j < ci)%nat -> state c <> s.

(** The 64-bit vendor/serial identifier held in ROM bytes 0..7, byte 0
    least significant. *)
Definition little_endian (bs : list Z) : Z :=
  foldr (fun b acc => b + 256 * acc) 0 bs.

Definition vendor_serial_id (r : list Z) : Z := little_endian (take 8 r).

(** The linear-feedback step of the spec:
    new_bit = bit 1 xor bit 0 xor data bit; (checksum >> 1) | (new_bit << 7). *)
Definition lfsr_step (cks : Z) (data : bool) : Z :=
  Z.lor (Z.shiftr cks 1)
        (Z.shiftl (Z.b2z (xorb (xorb (Z.testbit cks 1) (Z.testbit cks 0)) data)) 7).

(** ** Stored registers *)

(** The byte a data-port write of [val] leaves in register [r] of the
    addressed logical device, for the registers that are stored. *)
Definition written_byte (r val old : Z) : Z :=
  if r =? 0x30 then Z.land val 0x01 else stored_value r val old.

(** The registers after such a write. *)
Definition ld_after_write (r val : Z) (ld : isapnp_device_t) : isapnp_device_t :=
  ld_with_regs (reg_set (regs ld) r (written_byte r val (reg_get (regs ld) r))) ld.

(** The wire registers of memory range [i] and of 32-bit memory range [i],
    as numbers: base, second field, and the register holding the flag. *)
Definition mem_reg_base (i : Z) : Z := 0x40 + 8 * i.
Definition mem32_reg_base (i : Z) : Z := if i =? 0 then 0x76 else 0x80 + 16 * i.

Definition wire24 (rs : list Z) (r : Z) : Z :=
  reg_get rs r * 65536 + reg_get rs (r + 1) * 256.

Definition wire32 (rs : list Z) (r : Z) : Z :=
  reg_get rs r * 16777216 + reg_get rs (r + 1) * 65536
  + reg_get rs (r + 2) * 256 + reg_get rs (r + 3).

(** In each of the registers picked out by [is_upper_limit_reg] the low bit
    is the one [isapnp_reset_ld_regs] derives from the parser's mask. *)
Definition flag_bits_derived (ld : isapnp_device_t) : Prop :=
  length (regs ld) = 256%nat
  /\ forall r, is_upper_limit_reg r = true ->
       Z.testbit (reg_get (regs ld) r) 0
       = Z.testbit (reg_get (regs (isapnp_reset_ld_regs ld)) r) 0.

Definition bus_flag_bits_derived (dev : isapnp_t) : Prop :=
  Forall (Forall flag_bits_derived) (first_ld <$> first_card dev).

(** ** Items of the resource stream, as the parser meets them *)

(** The cursor of [st] is on a small item of kind [kind]. *)
Definition small_item_at (r : list Z) (st : parse_state) (kind : Z) : Prop :=
  exists tag, r !! Z.to_nat (p_i st) = Some tag
    /\ is_large tag = false /\ small_kind tag = kind.

(** The cursor of [st] is on a large item of kind [kind]. *)
Definition large_item_at (r : list Z) (st : parse_state) (kind : Z) : Prop :=
  exists tag, r !! Z.to_nat (p_i st) = Some tag
    /\ is_large tag = true /\ large_kind tag = kind.

(** The cursor is on an item that is neither a memory descriptor nor one of
    the three small items that open a device or open or close a group. *)
Definition plain_item_at (r : list Z) (st : parse_state) : Prop :=
  exists tag, r !! Z.to_nat (p_i st) = Some tag
    /\ if is_large tag
       then large_kind tag <> 0x01 /\ large_kind tag <> 0x05
       else small_kind tag <> 0x02 /\ small_kind tag <> 0x06
            /\ small_kind tag <> 0x07.

(** Where the parser stands in the stream: outside any dependent-function
    group, or inside an open one whose restore point is the slot counters
    [m] and [m32], [a] memory descriptors and [b] 32-bit memory descriptors
    after the last item that set the counters to the restore point. *)
Inductive position : Type :=
| outside
| inside (m m32 : Z) (a b : nat).

(** The position after the item under the cursor of [st], decided by the
    item's tag.  A group is opened by a start-dependent-function item met
    outside, and its restore point is the pair of slot counters [st] has
    there; it stays open up to the next end-dependent-functions item.
    Inside, a start-dependent-function item begins the next alternative; a
    logical-device item does not close the group, and the restore point it
    leaves is 0 and 0. *)
Definition next_position (r : list Z) (pos : position) (st : parse_state)
  : position :=
  match r !! Z.to_nat (p_i st) with
  | None => pos
  | Some tag =>
      if is_large tag then
        match pos with
        | outside => outside
        | inside m m32 a b =>
            if large_kind tag =? 0x01 then inside m m32 (S a) b
            else if large_kind tag =? 0x05 then inside m m32 a (S b)
            else pos
        end
      else if small_kind tag =? 0x02 then
        match pos with
        | outside => outside
        | inside _ _ _ _ => inside 0 0 0 0
        end
      else if small_kind tag =? 0x06 then
        match pos with
        | outside => inside (p_mem_range st) (p_mem_range_32 st) 0 0
        | inside m m32 _ _ => inside m m32 0 0
        end
      else if small_kind tag =? 0x07 then outside
      else pos
  end.

(** [parser_at r pos st]: the parsing loop on [r], run from its start for
    any number of rounds, is in state [st], at position [pos].  Every round
    the loop can make is a step of this relation, whatever the item; the
    loop's exit test is left out, so the relation holds of every state the
    loop reaches on [r] for any ROM size. *)
Inductive parser_at (r : list Z) : position -> parse_state -> Prop :=
| at_start : parser_at r outside parse_start
| at_step pos st st1 :
    parser_at r pos st ->
    parse_item r st = Ok st1 ->
    parser_at r (next_position r pos st) st1.

(** The counters a state carries besides its cursor: [in_df], [mem_range],
    [mem_range_32], [mem_range_df], [mem_range_32_df]. *)
Definition counters (st : parse_state) : Z * Z * Z * Z * Z :=
  (p_in_df st, p_mem_range st, p_mem_range_32 st,
   p_mem_range_df st, p_mem_range_32_df st).

(** The slot a memory descriptor of kind [kind] takes in state [st]: bit of
    the upper-limit mask it decides. *)
Definition next_slot (kind : Z) (st : parse_state) : Z :=
  if kind =? 0x01 then p_mem_range st else 4 + p_mem_range_32 st.

(** What the counters are at each position. *)
Definition counters_at (pos : position) (st : parse_state) : Prop :=
  match pos with
  | outside =>
      p_in_df st = 0 /\ 0 <= p_mem_range st /\ 0 <= p_mem_range_32 st
  | inside m m32 a b =>
      0 <= m /\ 0 <= m32
      /\ counters st = (1, m + Z.of_nat a, m32 + Z.of_nat b, m, m32)
  end.

(** ** Bus sessions *)

(** One guest access to one of the three ports. *)
Inductive access : Type :=
| write_addr (val : Z)
| write_data (val : Z)
| read_data.

(** What a session makes visible: the calls into the host and the bytes
    read back. *)
Inductive observation : Type :=
| called (e : event)
| returned (v : Z).

Fixpoint run (accesses : list access) (dev : isapnp_t)
  : result (isapnp_t * list observation) :=
  match accesses with
  | [] => Ok (dev, [])
  | a :: rest =>
      s ← match a with
          | write_addr v => Ok (isapnp_write_addr v dev, [])
          | write_data v =>
              w ← isapnp_write_data v dev; Ok (w.1, map called w.2)
          | read_data =>
              w ← isapnp_read_data dev; Ok (w.2, [returned w.1])
          end;
      t ← run rest s.1;
      Ok (t.1, s.2 ++ t.2)
  end.

(** A card ROM: 9-byte header, one logical device with one 8-bit memory
    range that uses an upper limit, end tag, checksum byte. *)
Definition sample_rom : list Z :=
  [ 0x04; 0x96; 0x80; 0x01; 0x11; 0x22; 0x33; 0x44; 0x00;
    0x15; 0x04; 0x96; 0x80; 0x01; 0x00;
    0x81; 0x09; 0x00; 0x04; 0x00; 0x00; 0x00; 0x00; 0x00; 0x00; 0x00; 0x00;
    0x79; 0x00 ].

(** Attaching [sample_rom] with configuration-changed and CSN-changed
    callbacks and no vendor-register callbacks. *)
Definition attach_sample (dev : isapnp_t) : option (result (isapnp_t * nat)) :=
  isapnp_add_card 4 sample_rom 29 true true None false dev.

Definition unlock : list access := map write_addr pnp_init_key.

(** Key, Wake[0], one isolation read, Set-CSN[1], Select-Logical-Device[0]. *)
Definition configure : list access :=
  unlock ++ [ write_addr 0x03; write_data 0x00;
              write_addr 0x01; read_data;
              write_addr 0x06; write_data 0x01;
              write_addr 0x07; write_data 0x00 ].

(** The bus with the sample card attached; the same after the key; the
    same after a second sample card is attached to the unlocked bus. *)
Definition bus_of (r : option (result (isapnp_t * nat))) (dev : isapnp_t) : isapnp_t :=
  match r with
  | Some (Ok (d, _)) => d
  | _ => dev
  end.

Definition after (accesses : list access) (dev : isapnp_t) : isapnp_t :=
  match run accesses dev with
  | Ok (d, _) => d
  | _ => dev
  end.

Definition sample_bus : isapnp_t := bus_of (attach_sample isapnp_init.1) isapnp_init.1.
Definition unlocked_bus : isapnp_t := after unlock sample_bus.
Definition late_attach_bus : isapnp_t := bus_of (attach_sample unlocked_bus) unlocked_bus.

(** ** Buses whose cards wait for the key together *)

(** Every card waits for the key, and the register index is one a guest can
    have left there (never written, or Config Control). *)
Definition bus_locked (dev : isapnp_t) : Prop :=
  Forall (fun c => state c = PNP_STATE_WAIT_FOR_KEY) (first_card dev)
  /\ (reg dev = 0x00 \/ reg dev = 0x02).

(** No card waits for the key. *)
Definition bus_unlocked (dev : isapnp_t) : Prop :=
  Forall (fun c => state c <> PNP_STATE_WAIT_FOR_KEY) (first_card dev).

Definition bus_uniform (dev : isapnp_t) : Prop := bus_locked dev \/ bus_unlocked dev.

(** ** Concrete states used to exercise the theorems *)

(** A logical device whose first memory range has base 0x001000, second
    field 0x002000 and the upper-limit bit set. *)
Definition window_ld : isapnp_device_t :=
  {| number := 0;
     regs := reg_set (reg_set (reg_set (repeat 0 256) 0x41 0x10) 0x42 0x01) 0x44 0x20;
     upperlimit := 1 |}.

(** A card carrying [sample_rom] in state [s], with CSN [n], isolation
    position [pos] and ROM cursor [cur]. *)
Definition sample_card (s : pnp_state) (n pos cur : Z) : isapnp_card_t :=
  {| state := s; csn := n; id_checksum := 0x6A;
     serial_read := 0; serial_read_pair := 0; serial_read_pos := pos;
     rom := sample_rom; rom_pos := cur; rom_size := 29;
     config := config_zero;
     config_changed := true; csn_changed := true;
     read_vendor_reg := None; write_vendor_reg := false;
     first_ld := [window_ld] |}.

(** A controller with one card. *)
Definition one_card_bus (r k : Z) (card : isapnp_card_t)
    (iso : option nat) (cur : option (nat * nat)) : isapnp_t :=
  {| reg := r; key_pos := k; read_data_addr := 0; first_card := [card];
     isolated_card := iso; current_ld := cur |}.

(** A ROM whose logical device has a dependent-function group with two
    alternatives, each holding one memory range: the first with an upper
    limit, the second with a length. *)
Definition df_rom : list Z :=
  [ 0x04; 0x96; 0x80; 0x01; 0x11; 0x22; 0x33; 0x44; 0x00;
    0x15; 0x04; 0x96; 0x80; 0x01; 0x00;
    0x30;
    0x81; 0x09; 0x00; 0x04; 0x00; 0x00; 0x00; 0x00; 0x00; 0x00; 0x00; 0x00;
    0x30;
    0x81; 0x09; 0x00; 0x00; 0x00; 0x00; 0x00; 0x00; 0x00; 0x00; 0x00; 0x00;
    0x38;
    0x79; 0x00 ].

(** The parser on [df_rom]: at the first start-dependent-function item, after
    it, after the first alternative's descriptor, and after the second
    start-dependent-function item. *)
Definition df_state (i in_df mem_range : Z) (ul : Z) : parse_state :=
  {| p_i := i; p_ldn := 1; p_in_df := in_df;
     p_mem_range := mem_range; p_mem_range_32 := 0;
     p_mem_range_df := 0; p_mem_range_32_df := 0;
     p_done := []; p_ld := Some (ld_with_upperlimit ul (new_ld 0)) |}.

(** A ROM with two logical devices.  The first opens a dependent-function
    group and never closes it.  The second holds a memory range with a
    length, then a group of its own with one alternative, a memory range
    with an upper limit. *)
Definition open_group_rom : list Z :=
  [ 0x04; 0x96; 0x80; 0x01; 0x11; 0x22; 0x33; 0x44; 0x00;
    0x15; 0x04; 0x96; 0x80; 0x01; 0x00;
    0x30;
    0x15; 0x04; 0x96; 0x80; 0x02; 0x00;
    0x81; 0x09; 0x00; 0x00; 0x00; 0x00; 0x00; 0x00; 0x00; 0x00; 0x00; 0x00;
    0x30;
    0x81; 0x09; 0x00; 0x04; 0x00; 0x00; 0x00; 0x00; 0x00; 0x00; 0x00; 0x00;
    0x38;
    0x79; 0x00 ].

(** The parser on [open_group_rom], in the second logical device after its
    first memory range, with the cursor at [i]. *)
Definition open_group_state (i mem_range : Z) : parse_state :=
  {| p_i := i; p_ldn := 2; p_in_df := 1;
     p_mem_range := mem_range; p_mem_range_32 := 0;
     p_mem_range_df := 0; p_mem_range_32_df := 0;
     p_done := [isapnp_reset_ld_regs (new_ld 0)];
     p_ld := Some (new_ld 1) |}.

(** ** Vocabulary of the further properties *)

(** The CSN-changed calls of Config Control bit 2: one per card that
    registered the callback, in list order, each with CSN 0. *)
Definition csn_reset_calls (cs : list isapnp_card_t) : list event :=
  concat (imap (fun i c => if csn_changed c then [ev_csn_changed i 0] else []) cs).

(** The registers of a logical device that a data-port write stores and a
    read-data access returns. *)
Definition is_plain_reg (r : Z) : Prop :=
  r = 0x30 \/ r = 0x31 \/ (0x40 <= r < 256 /\ ~ (0xf0 <= r <= 0xfe)).

(** The byte such a write leaves behind. *)
Definition kept_byte (r val old : Z) : Z :=
  if r =? 0x30 then Z.land val 0x01
  else if r =? 0x31 then Z.land val 0x03
  else stored_value r val old.

(** The configuration record of a logical device straight after reset. *)
Definition config_default : isapnp_device_config_t :=
  {| activate := 0;
     mem := repeat {| base := 0; size_ := 0 |} 4;
     mem32 := repeat {| base := 0; size_ := 0 |} 4;
     io := repeat 0 8;
     irq := repeat {| irq_number := 0; irq_level := 0; irq_type := 0 |} 2;
     dma := repeat ISAPNP_DMA_DISABLED 2 |}.

(** The configuration-changed calls of a reset: one per logical device of
    each card that registered the callback, cards and devices in list
    order. *)
Definition reset_calls (cs : list isapnp_card_t) : list event :=
  concat (imap (fun ci c =>
                  if config_changed c
                  then (fun ld => ev_config_changed ci (number ld) config_default)
                         <$> first_ld c
                  else []) cs).

(** A card after the reset loop has gone over its logical devices. *)
Definition reset_card (c : isapnp_card_t) : isapnp_card_t :=
  card_with_first_ld (isapnp_reset_ld_regs <$> first_ld c)
    (match first_ld c with
     | [] => c
     | _ :: _ => if config_changed c then card_with_config config_default c else c
     end).

(** The controller after a Config-Control command [val]: bit 0 resets,
    bit 1 returns the cards to WAIT_FOR_KEY, bit 2 clears the CSNs. *)
Definition after_config_control (val : Z) (dev : isapnp_t) : isapnp_t :=
  let cs1 := if Z.testbit val 0 then reset_card <$> first_card dev else first_card dev in
  let cs2 := if Z.testbit val 1 then card_with_state PNP_STATE_WAIT_FOR_KEY <$> cs1
             else cs1 in
  let cs3 := if Z.testbit val 2 then card_with_csn 0 <$> cs2 else cs2 in
  {| reg := reg dev; key_pos := key_pos dev;
     read_data_addr := if Z.testbit val 0 then 0 else read_data_addr dev;
     first_card := cs3;
     isolated_card := if Z.testbit val 0 then None else isolated_card dev;
     current_ld := if Z.testbit val 0 then None else current_ld dev |}.

(** The calls a Config-Control command repeats each time it is given. *)
Definition config_control_calls (val : Z) (cs : list isapnp_card_t) : list event :=
  (if Z.testbit val 0 then reset_calls cs else [])
  ++ (if Z.testbit val 2 then csn_reset_calls cs else []).

(** A controller as the C code can hold it: its two references point into
    the lists, and every ROM buffer covers the offsets the ports touch. *)
Definition card_safe (c : isapnp_card_t) : Prop :=
  (9 <= length (rom c))%nat /\ (Z.to_nat (rom_size c) <= length (rom c))%nat.

Definition bus_safe (dev : isapnp_t) : Prop :=
  Forall card_safe (first_card dev)
  /\ (forall ci, isolated_card dev = Some ci -> is_Some (first_card dev !! ci))
  /\ (forall p, current_ld dev = Some p ->
        exists card ld, deref_ld dev p = Ok (card, ld)).

(** What no port access changes about a card: its ROM size, its four
    callbacks, the numbers and upper-limit masks of its logical devices, and
    its ROM outside the ID-checksum byte at offset 8. *)
Definition card_frame (c c' : isapnp_card_t) : Prop :=
  rom_size c' = rom_size c
  /\ config_changed c' = config_changed c
  /\ csn_changed c' = csn_changed c
  /\ read_vendor_reg c' = read_vendor_reg c
  /\ write_vendor_reg c' = write_vendor_reg c
  /\ number <$> first_ld c' = number <$> first_ld c
  /\ upperlimit <$> first_ld c' = upperlimit <$> first_ld c
  /\ length (rom c') = length (rom c)
  /\ forall i : nat, i <> 8%nat -> rom c' !! i = rom c !! i.

(** One step of the controller: the cards keep their frame, and each of
    the two references is kept, cleared, or set to something that exists. *)
Definition bus_frame (dev dev' : isapnp_t) : Prop :=
  Forall2 card_frame (first_card dev) (first_card dev')
  /\ (isolated_card dev' = isolated_card dev \/ isolated_card dev' = None
      \/ exists ci, isolated_card dev' = Some ci /\ is_Some (first_card dev !! ci))
  /\ (current_ld dev' = current_ld dev \/ current_ld dev' = None
      \/ exists p c l, current_ld dev' = Some p /\ deref_ld dev p = Ok (c, l)).

(** The logical devices the parser has created so far, in list order: the
    closed ones and the one being described. *)
Definition devices_so_far (st : parse_state) : list isapnp_device_t :=
  p_done st ++ match p_ld st with Some ld => [ld] | None => [] end.

(** Devices are numbered in creation order by the 8-bit counter [ldn]. *)
Definition numbered (st : parse_state) : Prop :=
  number <$> devices_so_far st
  = (fun k : nat => Z.of_nat k mod 256) <$> seq 0 (length (devices_so_far st))
  /\ p_ldn st = Z.of_nat (length (devices_so_far st)) mod 256.

(** An item of a resource stream: its kind and its payload bytes. *)
Inductive item : Type :=
| small_item (kind : Z) (payload : list Z)
| large_item (kind : Z) (payload : list Z).

(** The bytes of an item: a small item's tag holds its kind and the length
    of its payload; a large item's tag has bit 7 set and is followed by the
    16-bit length of the payload, low byte first. *)
Definition encode (it : item) : list Z :=
  match it with
  | small_item kind payload =>
      (kind * 8 + Z.of_nat (length payload)) :: payload
  | large_item kind payload =>
      (0x80 + kind) :: Z.of_nat (length payload) mod 256
        :: Z.of_nat (length payload) / 256 :: payload
  end.

(** Kinds and payload lengths that fit their fields. *)
Definition item_ok (it : item) : Prop :=
  match it with
  | small_item kind payload => 0 <= kind <= 15 /\ Z.of_nat (length payload) <= 7
  | large_item kind payload => 0 <= kind <= 127 /\ Z.of_nat (length payload) < 65536
  end.

(** A ROM: the nine header bytes, the items, and the end tag with its
    checksum byte. *)
Definition stream_rom (header : list Z) (its : list item) (c : Z) : list Z :=
  header ++ concat (encode <$> its) ++ [0x79; c].

Definition is_device_item (it : item) : bool :=
  match it with
  | small_item kind _ => kind =? 0x02
  | large_item _ _ => false
  end.

(** No memory descriptor comes before the first logical-device item, and no
    logical device has more than four memory range descriptors or more than
    four 32-bit memory range descriptors.  [have] tells whether a
    logical-device item was met; [m] and [m32] count the descriptors since
    the last one. *)
Fixpoint memory_fits (have : bool) (m m32 : nat) (its : list item) : bool :=
  match its with
  | [] => true
  | small_item kind _ :: its' =>
      if kind =? 0x02 then memory_fits true 0 0 its'
      else memory_fits have m m32 its'
  | large_item kind _ :: its' =>
      if kind =? 0x01 then
        have && (m <? 4)%nat && memory_fits have (S m) m32 its'
      else if kind =? 0x05 then
        have && (m32 <? 4)%nat && memory_fits have m (S m32) its'
      else memory_fits have m m32 its'
  end.

(** The parser's slot counters are within the numbers of descriptors met
    since the last logical-device item. *)
Definition slots_within (have : bool) (m m32 : nat) (st : parse_state) : Prop :=
  (have = true -> is_Some (p_ld st))
  /\ 0 <= p_mem_range st <= Z.of_nat m
  /\ 0 <= p_mem_range_df st <= Z.of_nat m
  /\ 0 <= p_mem_range_32 st <= Z.of_nat m32
  /\ 0 <= p_mem_range_32_df st <= Z.of_nat m32.

(** Bit [k] of the 64-bit identifier, and the checksum register after the
    first [k] identifier bits have gone through the linear-feedback step,
    starting from the seed 0x6A. *)
Definition id_bit (r : list Z) (k : nat) : bool :=
  Z.testbit (vendor_serial_id r) (Z.of_nat k).

Definition id_checksum_after (r : list Z) (k : nat) : Z :=
  fold_left lfsr_step (id_bit r <$> seq 0 k) 0x6A.

(** The 72 bits of one isolation round: the identifier, then its checksum,
    least significant bit first; and the bytes they are read as. *)
Definition isolation_bit (r : list Z) (k : nat) : bool :=
  if (k <? 64)%nat then id_bit r k
  else Z.testbit (id_checksum_after r 64) (Z.of_nat (k - 64)).

Definition isolation_pair (b : bool) : list Z :=
  if b then [0x55; 0xAA] else [0x00; 0x00].

Definition isolation_stream (r : list Z) (k : nat) : list Z :=
  flat_map isolation_pair (isolation_bit r <$> seq 0 k).

(** The card [card] after [k] bit pairs of a round started from position 0
    with the seeded checksum. *)
Definition isolating (card : isapnp_card_t) (k : nat) (c' : isapnp_card_t) : Prop :=
  state c' = state card
  /\ serial_read_pair c' = 0
  /\ serial_read_pos c' = Z.of_nat k mod 72
  /\ id_checksum c' = id_checksum_after (rom card) (k `min` 64)
  /\ rom c' = (if (64 <? k)%nat
               then <[8%nat := id_checksum_after (rom card) 64]> (rom card)
               else rom card)
  /\ rom_pos c' = (if (k =? 72)%nat then 9 else rom_pos card)
  /\ csn c' = csn card /\ first_ld c' = first_ld card.

(** The initiation key occurs in [vs] as a block of consecutive bytes. *)
Definition contains_key (vs : list Z) : Prop :=
  exists l1 l2, vs = l1 ++ pnp_init_key ++ l2.

(** The controllers an emulated machine can get to: the one [isapnp_init]
    makes, with cards attached (the ROM holding at least its nine header
    bytes), CSNs assigned by the host, and guest sessions on the ports, in
    any order. *)
Inductive reachable : isapnp_t -> Prop :=
| reach_init : reachable isapnp_init.1
| reach_attach dev fuel r n cc sc rv wv dev' h :
    reachable dev ->
    9 <= n < 65536 ->
    isapnp_add_card fuel r n cc sc rv wv dev = Some (Ok (dev', h)) ->
    reachable dev'
| reach_set_csn dev ci v dev' evs :
    reachable dev ->
    isapnp_set_csn ci v dev = Ok (dev', evs) ->
    reachable dev'
| reach_run dev accesses dev' obs :
    reachable dev ->
    run accesses dev = Ok (dev', obs) ->
    reachable dev'.

(** One step of the enumeration a PnP BIOS performs: Wake[0], a round of
    144 isolation reads, and the assignment of CSN [n]. *)
Definition enumerate (n : Z) : list access :=
  [write_addr 0x03; write_data 0x00; write_addr 0x01]
  ++ replicate 144 read_data
  ++ [write_addr 0x06; write_data n].

(** ** Closing the controller *)

(** [isapnp_close], as far as it leaves the unit: the two fixed ports are
    released.  The cards, their logical devices and the controller are
    freed; nothing of them is used afterwards. *)
Definition isapnp_close (dev : isapnp_t) : list event :=
  [ev_io_removehandler 0x279 h_write_addr; ev_io_removehandler 0xa79 h_write_data].

(** ** Handlers installed on I/O ports *)

#[global] Instance io_handler_eq_dec : EqDecision io_handler.
Proof. solve_decision. Defined.

(** [io_removehandler] takes one registration of the port away, if there
    is one. *)
Fixpoint remove_port (a : Z) (l : list Z) : list Z :=
  match l with
  | [] => []
  | x :: l' => if x =? a then l' else x :: remove_port a l'
  end.

(** The ports on which handler [h] is installed after one more call. *)
Definition handler_step (h : io_handler) (l : list Z) (o : observation) : list Z :=
  match o with
  | called (ev_io_sethandler a h') => if decide (h' = h) then a :: l else l
  | called (ev_io_removehandler a h') => if decide (h' = h) then remove_port a l else l
  | _ => l
  end.

(** ... and after the calls of a whole trace, starting from [l]. *)
Definition installed (h : io_handler) (trace : list observation) (l : list Z) : list Z :=
  fold_left (handler_step h) trace l.

(** Where the controller believes its read-data port to be. *)
Definition read_data_ports (dev : isapnp_t) : list Z :=
  if read_data_addr dev =? 0 then [] else [read_data_addr dev].

(** A call that installs or removes no handler of the three ports. *)
Definition port_neutral (e : event) : Prop :=
  match e with
  | ev_io_sethandler _ (h_read_rangecheck _ _) => True
  | ev_io_removehandler _ (h_read_rangecheck _ _) => True
  | ev_io_sethandler _ _ => False
  | ev_io_removehandler _ _ => False
  | _ => True
  end.

(** ** Further concrete states *)

(** A ROM whose first item is an identifier string with declared length
    0xFFFD, and one that opens with a memory range descriptor. *)
Definition wrapping_rom : list Z :=
  [ 0x04; 0x96; 0x80; 0x01; 0x11; 0x22; 0x33; 0x44; 0x00;
    0x82; 0xFD; 0xFF; 0x79; 0x00 ].

Definition orphan_memory_rom : list Z :=
  [ 0x04; 0x96; 0x80; 0x01; 0x11; 0x22; 0x33; 0x44; 0x00;
    0x81; 0x09; 0x00; 0x04; 0x00; 0x00; 0x00; 0x00; 0x00; 0x00; 0x00; 0x00;
    0x79; 0x00 ].

(** * Properties *)

(** ** The ROM checksum *)

Lemma u8_add_l (x y : Z) : u8 (u8 x + y) = u8 (x + y).
Proof. unfold u8. apply Zplus_mod_idemp_l. Qed.

Lemma u8_opp (x : Z) : u8 (- u8 x) = u8 (- x).
Proof.
  unfold u8.
  rewrite <- (Z.sub_0_l (x mod 256)), <- (Z.sub_0_l x).
  apply Zminus_mod_idemp_r.
Qed.

Lemma accumulate_insert (co : nat) (v : Z) (idx : list Z) (r : list Z) (acc : Z) :
  Forall (fun i => Z.to_nat i <> co) idx ->
  fold_left (fun a i => u8 (a + <[co := v]> r !!! Z.to_nat i)) idx acc
  = fold_left (fun a i => u8 (a + r !!! Z.to_nat i)) idx acc.
Proof.
  intros Hidx. revert acc.
  induction Hidx as [|j idx Hj _ IH]; intros acc; simpl; [done|].
  rewrite list_lookup_total_insert_ne by done. apply IH.
Qed.

(** The loop adds the bytes at the visited offsets into the checksum cell,
    modulo 256, and touches no other cell. *)
Lemma checksum_loop (co : Z) (idx : list Z) (r : list Z) :
  (Z.to_nat co < length r)%nat ->
  Forall (fun i => Z.to_nat i <> Z.to_nat co) idx ->
  fold_left (checksum_add co) idx r
  = <[Z.to_nat co :=
        fold_left (fun acc i => u8 (acc + r !!! Z.to_nat i)) idx (r !!! Z.to_nat co)]> r.
Proof.
  intros Hco Hidx. revert r Hco.
  induction Hidx as [|i idx Hi Hrest IH]; intros r Hco; simpl.
  - symmetry. apply list_insert_id. by apply list_lookup_lookup_total_lt.
  - rewrite IH by (unfold checksum_add; by rewrite length_insert).
    unfold checksum_add.
    rewrite list_insert_insert_eq, list_lookup_total_insert_eq by done.
    f_equal. by apply accumulate_insert.
Qed.

Lemma accumulate_sum (idx : list Z) (r : list Z) (acc : Z) :
  fold_left (fun a i => u8 (a + r !!! Z.to_nat i)) idx (u8 acc)
  = u8 (acc + Zsum (map (fun i => r !!! Z.to_nat i) idx)).
Proof.
  revert acc. induction idx as [|i idx IH]; intros acc; simpl.
  - by rewrite Z.add_0_r.
  - rewrite u8_add_l, IH. f_equal. lia.
Qed.

Lemma Zsum_range (r : list Z) (len a : nat) :
  (a + len <= length r)%nat ->
  Zsum (map (fun i => r !!! Z.to_nat i) (seqZ (Z.of_nat a) (Z.of_nat len)))
  = Zsum (take len (drop a r)).
Proof.
  revert a. induction len as [|len IH]; intros a Hlen.
  - by rewrite seqZ_nil.
  - rewrite seqZ_cons by lia.
    replace (Z.succ (Z.of_nat a)) with (Z.of_nat (S a)) by lia.
    replace (Z.pred (Z.of_nat (S len))) with (Z.of_nat len) by lia.
    assert (Ha : r !! a = Some (r !!! a))
      by (apply list_lookup_lookup_total_lt; lia).
    rewrite (drop_S _ _ _ Ha). simpl.
    rewrite Nat2Z.id, IH by lia. done.
Qed.

(** C6: for a ROM of length n >= 10 handed over with rom_size = n, the
    checksum step of the attach operation stores at offset n-1 the two's
    complement modulo 256 of the sum of the bytes at offsets 9 .. n-2, and
    leaves every other byte of the ROM as it was; the card that the attach
    operation links into the controller carries exactly this ROM. *)
Theorem attach_populates_rom_checksum (r : list Z) (n : Z) :
  10 <= n < 65536 ->
  length r = Z.to_nat n ->
  let sum := Zsum (take (Z.to_nat (n - 10)) (drop 9 r)) in
  let r' := <[Z.to_nat (n - 1) := (- sum) mod 256]> r in
  populate_checksum r n = Ok r'
  /\ r' !! Z.to_nat (n - 1) = Some ((- sum) mod 256)
  /\ (forall j : nat, j <> Z.to_nat (n - 1) -> r' !! j = r !! j)
  /\ forall fuel cc sc rv wv dev dev' h,
       isapnp_add_card fuel r n cc sc rv wv dev = Some (Ok (dev', h)) ->
       exists card, first_card dev' !! h = Some card /\ rom card = r'.
Proof.
  intros Hn Hlen sum r'.
  assert (Hpop : populate_checksum r n = Ok r').
  { unfold populate_checksum, rom_store, u16.
    rewrite (Z.mod_small (n - 1)) by lia.
    destruct (decide _) as [_|Hbad]; [|lia]. simpl.
    rewrite checksum_loop.
    2: { rewrite length_insert. lia. }
    2: { apply Forall_seqZ. intros i Hi. lia. }
    rewrite list_insert_insert_eq, !list_lookup_total_insert_eq.
    2: lia.
    2: { rewrite length_insert. lia. }
    pose proof (accumulate_sum (seqZ 9 (n - 1 - 9)) (<[Z.to_nat (n - 1) := 0]> r) 0)
      as Hacc.
    change (u8 0) with 0 in Hacc. rewrite Hacc, u8_opp. clear Hacc.
    rewrite list_insert_insert_eq. unfold r'. f_equal. unfold u8. f_equal.
    f_equal. simpl.
    rewrite (map_ext_in _ (fun i => r !!! Z.to_nat i)).
    2: { intros i Hi%list_elem_of_In%elem_of_seqZ.
         apply list_lookup_total_insert_ne. lia. }
    change 9 with (Z.of_nat 9).
    replace (n - 1 - Z.of_nat 9) with (Z.of_nat (Z.to_nat (n - 10))) by lia.
    rewrite Zsum_range by lia. done. }
  split; [exact Hpop|]. split; [|split].
  - apply list_lookup_insert_eq. lia.
  - intros j Hj. by apply list_lookup_insert_ne.
  - intros fuel cc sc rv wv dev dev' h Hadd.
    unfold isapnp_add_card in Hadd. rewrite Hpop in Hadd.
    destruct (parse_rom fuel r' n parse_start) as [[st| |]|]; try discriminate.
    injection Hadd as <- <-. eexists. split.
    + simpl. apply list_lookup_middle. done.
    + done.
Qed.

(** ** Serial isolation and resource data *)

Lemma find_card_first (s : pnp_state) (cs : list isapnp_card_t) ci card :
  first_in_state s cs ci card -> find_card s cs = Some (ci, card).
Proof. intros H. unfold find_card. by apply list_find_Some. Qed.

(** *** Bit-level facts *)

Lemma lor_pow2_add (k hi lo : Z) :
  0 <= k -> 0 <= lo < 2 ^ k -> Z.lor (hi * 2 ^ k) lo = hi * 2 ^ k + lo.
Proof.
  intros Hk Hlo. symmetry. apply Z.add_nocarry_lor.
  apply Z.bits_inj'. intros n Hn.
  rewrite Z.land_spec, Z.bits_0.
  destruct (Z.lt_ge_cases n k) as [Hlt|Hge].
  - rewrite Z.mul_pow2_bits_low by lia. done.
  - apply andb_false_intro2. apply Z.testbit_false; [done|].
    rewrite Z.div_small; [done|].
    split; [lia|]. apply Z.lt_le_trans with (2 ^ k); [lia|].
    apply Z.pow_le_mono_r; lia.
Qed.

Lemma byte_testbit_high (b n : Z) : is_byte b -> 8 <= n -> Z.testbit b n = false.
Proof.
  intros Hb Hn. apply Z.testbit_false; [lia|].
  rewrite Z.div_small; [done|]. unfold is_byte in Hb.
  split; [lia|]. apply Z.lt_le_trans with (2 ^ 8); [lia|].
  apply Z.pow_le_mono_r; lia.
Qed.

Lemma land_shiftr_bit (b k : Z) :
  0 <= k -> Z.land (Z.shiftr b k) 0x01 = Z.b2z (Z.testbit b k).
Proof.
  intros Hk. change 1 with (Z.ones 1). rewrite Z.land_ones by lia.
  change (2 ^ 1) with 2. rewrite <- Z.bit0_mod, Z.shiftr_spec by lia.
  by rewrite Z.add_0_l.
Qed.

Lemma truthy_b2z (b : bool) : truthy (Z.b2z b) = b.
Proof. by destruct b. Qed.

Lemma little_endian_testbit (bs : list Z) (p : Z) :
  Forall is_byte bs -> 0 <= p < 8 * Z.of_nat (length bs) ->
  Z.testbit (little_endian bs) p
  = Z.testbit (bs !!! Z.to_nat (p / 8)) (p mod 8).
Proof.
  intros Hbs. revert p. induction Hbs as [|b bs Hb _ IH]; intros p Hp.
  - simpl in Hp. lia.
  - simpl. rewrite Z.add_comm, Z.mul_comm.
    change 256 with (2 ^ 8).
    rewrite <- lor_pow2_add by (unfold is_byte in Hb; simpl; lia).
    rewrite Z.lor_spec, <- Z.shiftl_mul_pow2, Z.shiftl_spec by lia.
    destruct (Z.lt_ge_cases p 8) as [Hlt|Hge].
    + rewrite Z.testbit_neg_r by lia. simpl.
      rewrite Z.div_small, Z.mod_small by lia. done.
    + rewrite (byte_testbit_high b p) by done. rewrite orb_false_r.
      rewrite IH by (simpl in Hp; lia).
      replace p with ((p - 8) + 1 * 8) at 3 4 by lia.
      rewrite Z.div_add, Z.mod_add by lia.
      replace (Z.to_nat ((p - 8) / 8 + 1)) with (S (Z.to_nat ((p - 8) / 8))).
      * done.
      * assert (0 <= (p - 8) / 8) by (apply Z.div_pos; lia). lia.
Qed.

Lemma vendor_serial_id_bit (r : list Z) (p : Z) :
  Forall is_byte r -> (8 <= length r)%nat -> 0 <= p < 64 ->
  Z.testbit (vendor_serial_id r) p
  = Z.testbit (r !!! Z.to_nat (p / 8)) (p mod 8).
Proof.
  intros Hr Hlen Hp. unfold vendor_serial_id.
  rewrite little_endian_testbit.
  - assert (0 <= p / 8 < 8)
      by (split; [apply Z.div_pos|apply Z.div_lt_upper_bound]; lia).
    rewrite !list_lookup_total_alt, lookup_take_lt by lia. done.
  - by apply Forall_take.
  - rewrite length_take. lia.
Qed.

(** The code's checksum update is the spec's linear-feedback step. *)
Lemma code_lfsr_step (cks : Z) (data : bool) :
  is_byte cks ->
  u8 (Z.lor (Z.shiftr cks 1)
        (Z.shiftl
           (Z.land (Z.lxor (Z.lxor (notnot (Z.land cks 0x02)) (notnot (Z.land cks 0x01)))
                           (Z.b2z data)) 0x01) 7))
  = lfsr_step cks data.
Proof.
  intros Hb.
  assert (Hall : forallb (fun c =>
            forallb (fun d =>
              u8 (Z.lor (Z.shiftr c 1)
                   (Z.shiftl
                      (Z.land (Z.lxor (Z.lxor (notnot (Z.land c 0x02))
                                              (notnot (Z.land c 0x01)))
                                      (Z.b2z d)) 0x01) 7))
              =? lfsr_step c d) [false; true]) (seqZ 0 256) = true)
    by (vm_compute; reflexivity).
  rewrite forallb_forall in Hall.
  specialize (Hall cks). rewrite forallb_forall in Hall.
  apply Z.eqb_eq, Hall.
  - apply list_elem_of_In, elem_of_seqZ. unfold is_byte in Hb. lia.
  - destruct data; simpl; auto.
Qed.

Lemma wake_card_seeds_checksum (val : Z) (c : isapnp_card_t) :
  csn c = val -> id_checksum (wake_card val c) = 0x6A.
Proof.
  intros H. unfold wake_card. rewrite H, Z.eqb_refl.
  by destruct (decide _).
Qed.

(** C1: a serial-isolation read served in the first half of a bit pair by
    the card found in ISOLATION, at position p.  For p < 64 the byte is 0x55
    or 0x00 according to bit p of the 64-bit identifier in ROM bytes 0..7 and
    the checksum register takes the linear-feedback step; for 64 <= p < 72
    the byte encodes bit (p mod 8) of the checksum register, which is written
    to ROM byte 8 at p = 64 and at no other position; the position becomes
    (p + 1) mod 72.  The Wake command seeds the checksum register of each
    card it addresses with 0x6A. *)
Theorem serial_isolation_first_half (dev : isapnp_t) (ci : nat) (card : isapnp_card_t) :
  reg dev = 0x01 ->
  first_in_state PNP_STATE_ISOLATION (first_card dev) ci card ->
  serial_read_pair card = 0 ->
  0 <= serial_read_pos card < 72 ->
  is_byte (id_checksum card) ->
  (9 <= length (rom card))%nat ->
  Forall is_byte (rom card) ->
  let p := serial_read_pos card in
  let cks := id_checksum card in
  let bit := if p <? 64 then Z.testbit (vendor_serial_id (rom card)) p
             else Z.testbit cks (p mod 8) in
  let ret := if bit then 0x55 else 0x00 in
  let cks' := if p <? 64 then lfsr_step cks bit else cks in
  let rom' := if p =? 64 then <[8%nat := cks]> (rom card) else rom card in
  let card' :=
    card_with_serial ret 1 ((p + 1) mod 72)
      (card_with_id_checksum cks' (card_with_rom rom' card)) in
  isapnp_read_data dev
  = Ok (ret, dev_with_first_card (<[ci := card']> (first_card dev))
               (dev_with_isolated_card (Some ci) dev))
  /\ forall dev0 val, reg dev0 = 0x03 ->
       exists dev1, isapnp_write_data val dev0 = Ok (dev1, [])
         /\ forall i c, first_card dev0 !! i = Some c -> csn c = val ->
              exists c1, first_card dev1 !! i = Some c1 /\ id_checksum c1 = 0x6A.
Proof.
  intros Hreg Hfirst Hpair Hpos Hcks Hlen Hrom p cks bit ret cks' rom' card'.
  split.
  - unfold isapnp_read_data. rewrite Hreg. simpl.
    rewrite (find_card_first _ _ _ _ Hfirst). simpl.
    unfold serial_isolation_read. rewrite Hpair. simpl.
    fold p cks.
    assert (Hshift : Z.shiftr p 3 = p / 8) by (by rewrite Z.shiftr_div_pow2).
    assert (Hland : Z.land p 0x7 = p mod 8)
      by (change 7 with (Z.ones 3); by rewrite Z.land_ones).
    assert (Hmod : 0 <= p mod 8 < 8) by (apply Z.mod_pos_bound; lia).
    rewrite Hshift, Hland.
    subst ret cks' rom' card' bit.
    destruct (p <? 64) eqn:Hlt.
    + apply Z.ltb_lt in Hlt.
      assert (Hne : (p =? 64) = false) by (apply Z.eqb_neq; lia).
      rewrite Hne.
      assert (Hdiv : 0 <= p / 8 < 8)
        by (split; [apply Z.div_pos|apply Z.div_lt_upper_bound]; lia).
      unfold rom_at.
      rewrite (list_lookup_lookup_total_lt (rom card)) by lia. simpl.
      rewrite land_shiftr_bit by lia.
      rewrite truthy_b2z, code_lfsr_step by done.
      rewrite vendor_serial_id_bit by (done || lia).
      destruct card; reflexivity.
    + apply Z.ltb_ge in Hlt.
      destruct (p =? 64) eqn:Heq.
      * unfold rom_store. destruct (decide _) as [_|Hbad]; [|simpl in Hbad; lia].
        simpl. rewrite land_shiftr_bit, truthy_b2z by lia.
        destruct card; reflexivity.
      * simpl. rewrite land_shiftr_bit, truthy_b2z by lia.
        destruct card; reflexivity.
  - intros dev0 val Hreg0. unfold isapnp_write_data. rewrite Hreg0. simpl.
    eexists. split; [reflexivity|]. simpl.
    intros i c Hi Hcsn. exists (wake_card val c). split.
    + by rewrite list_lookup_fmap, Hi.
    + by apply wake_card_seeds_checksum.
Qed.

(** C10: a read of the Resource Data register served by the card found in
    CONFIG returns 0xFF and changes nothing when the ROM cursor is at or past
    the ROM size, and otherwise returns the ROM byte under the cursor and
    moves the cursor on by one. *)
Theorem resource_data_read (dev : isapnp_t) (ci : nat) (card : isapnp_card_t) :
  reg dev = 0x04 ->
  first_in_state PNP_STATE_CONFIG (first_card dev) ci card ->
  0 <= rom_pos card ->
  rom_size card < 65536 ->
  (Z.to_nat (rom_size card) <= length (rom card))%nat ->
  (rom_size card <= rom_pos card -> isapnp_read_data dev = Ok (0xff, dev))
  /\ (rom_pos card < rom_size card ->
      exists b, rom card !! Z.to_nat (rom_pos card) = Some b
        /\ isapnp_read_data dev
           = Ok (b, dev_with_first_card
                      (<[ci := card_with_rom_pos (rom_pos card + 1) card]>
                         (first_card dev)) dev)).
Proof.
  intros Hreg Hfirst Hpos Hsize Hlen.
  unfold isapnp_read_data. rewrite Hreg. simpl.
  rewrite (find_card_first _ _ _ _ Hfirst).
  split; intros Hcmp.
  - apply Z.leb_le in Hcmp. by rewrite Hcmp.
  - assert (Hleb : (rom_size card <=? rom_pos card) = false) by (apply Z.leb_gt; lia).
    rewrite Hleb. exists (rom card !!! Z.to_nat (rom_pos card)).
    assert (Hlook : rom card !! Z.to_nat (rom_pos card)
                    = Some (rom card !!! Z.to_nat (rom_pos card)))
      by (apply list_lookup_lookup_total_lt; lia).
    split; [done|]. unfold rom_at. rewrite Hlook. simpl.
    unfold u16. rewrite Z.mod_small by lia. done.
Qed.

(** ** The sample bus *)

(** The sample card attaches, and is the only card of the bus. *)
Lemma attach_sample_ok :
  attach_sample isapnp_init.1 = Some (Ok (sample_bus, 0%nat))
  /\ map state (first_card sample_bus) = [PNP_STATE_WAIT_FOR_KEY]
  /\ map (fun c => map upperlimit (first_ld c)) (first_card sample_bus) = [[1]].
Proof. split; [vm_compute; reflexivity|]. split; vm_compute; reflexivity. Qed.

(** *** Tactics for the port dispatch *)

(** Settle every comparison of the goal that the context decides. *)
Ltac decide_cmp :=
  repeat match goal with
    | |- context [?a =? ?b] =>
        first [ replace (a =? b) with true by (symmetry; apply Z.eqb_eq; lia)
              | replace (a =? b) with false by (symmetry; apply Z.eqb_neq; lia) ]
    | |- context [?a <=? ?b] =>
        first [ replace (a <=? b) with true by (symmetry; apply Z.leb_le; lia)
              | replace (a <=? b) with false by (symmetry; apply Z.leb_gt; lia) ]
    | |- context [?a <? ?b] =>
        first [ replace (a <? b) with true by (symmetry; apply Z.ltb_lt; lia)
              | replace (a <? b) with false by (symmetry; apply Z.ltb_ge; lia) ]
    end.

(** ** The address port and the initiation key *)

Lemma write_addr_unlocked_first (val : Z) (dev : isapnp_t) card rest :
  first_card dev = card :: rest ->
  state card <> PNP_STATE_WAIT_FOR_KEY ->
  isapnp_write_addr val dev = dev_with_reg val dev.
Proof.
  intros Hc Hs. unfold isapnp_write_addr. rewrite Hc.
  by destruct (decide _).
Qed.

Lemma write_addr_mismatch (val : Z) (dev : isapnp_t) card rest :
  first_card dev = card :: rest ->
  state card = PNP_STATE_WAIT_FOR_KEY ->
  val <> pnp_init_key !!! Z.to_nat (key_pos dev) ->
  isapnp_write_addr val dev = dev_with_key_pos 0 dev.
Proof.
  intros Hc Hs Hv. unfold isapnp_write_addr. rewrite Hc.
  destruct (decide _); [|done].
  by apply Z.eqb_neq in Hv as ->.
Qed.

Lemma write_addr_match (dev : isapnp_t) card rest :
  first_card dev = card :: rest ->
  state card = PNP_STATE_WAIT_FOR_KEY ->
  0 <= key_pos dev < 31 ->
  isapnp_write_addr (pnp_init_key !!! Z.to_nat (key_pos dev)) dev
  = dev_with_key_pos (key_pos dev + 1) dev.
Proof.
  intros Hc Hs Hk. unfold isapnp_write_addr. rewrite Hc.
  destruct (decide _); [|done].
  rewrite Z.eqb_refl, Z.mod_small by lia.
  by decide_cmp.
Qed.

Lemma write_addr_last_match (dev : isapnp_t) card rest :
  first_card dev = card :: rest ->
  state card = PNP_STATE_WAIT_FOR_KEY ->
  key_pos dev = 31 ->
  isapnp_write_addr (pnp_init_key !!! Z.to_nat (key_pos dev)) dev
  = dev_with_first_card (unlock_card <$> first_card dev) (dev_with_key_pos 0 dev).
Proof.
  intros Hc Hs Hk. unfold isapnp_write_addr. rewrite Hc.
  destruct (decide _); [|done].
  rewrite Z.eqb_refl, Hk. change ((31 + 1) mod 32) with 0. simpl.
  by rewrite Hc.
Qed.

(** Feeding the rest of the key from cursor position [32 - n]. *)
Lemma feed_key_suffix (n : nat) (dev : isapnp_t) card rest :
  (1 <= n <= 32)%nat ->
  first_card dev = card :: rest ->
  state card = PNP_STATE_WAIT_FOR_KEY ->
  key_pos dev = 32 - Z.of_nat n ->
  fold_left (fun d v => isapnp_write_addr v d) (drop (32 - n) pnp_init_key) dev
  = dev_with_first_card (unlock_card <$> first_card dev) (dev_with_key_pos 0 dev).
Proof.
  revert dev. induction n as [|n IH]; intros dev Hn Hc Hs Hk; [lia|].
  assert (Hlook : pnp_init_key !! (32 - S n)%nat
                  = Some (pnp_init_key !!! Z.to_nat (key_pos dev))).
  { rewrite Hk. replace (Z.to_nat (32 - Z.of_nat (S n))) with (32 - S n)%nat by lia.
    apply list_lookup_lookup_total_lt. simpl. lia. }
  rewrite (drop_S _ _ _ Hlook). cbn [fold_left].
  destruct (decide (n = 0%nat)) as [->|Hn0].
  - by apply (write_addr_last_match _ card rest).
  - rewrite (write_addr_match _ card rest) by (done || lia).
    replace (S (32 - S n)) with (32 - n)%nat by lia.
    rewrite (IH (dev_with_key_pos (key_pos dev + 1) dev));
      [reflexivity | lia | exact Hc | exact Hs | simpl; lia].
Qed.

Lemma unlock_card_spec (c : isapnp_card_t) :
  (state c = PNP_STATE_WAIT_FOR_KEY -> unlock_card c = card_with_state PNP_STATE_SLEEP c)
  /\ (state c <> PNP_STATE_WAIT_FOR_KEY -> unlock_card c = c).
Proof. unfold unlock_card. split; intros H; by destruct (decide _). Qed.

(** C3, as the code has it: the address port looks at the first card of the
    bus only.  While that card is in WAIT_FOR_KEY the byte is compared with
    the key byte under the cursor: a mismatch resets the cursor to zero, a
    match advances it, the 32nd match in a row puts every WAIT_FOR_KEY card
    to SLEEP and wraps the cursor to zero, so the whole key written from
    cursor zero unlocks the bus.  While the first card is not in WAIT_FOR_KEY
    the byte becomes the active register index.  Without cards the write is
    ignored. *)
Theorem write_addr_follows_first_card (dev : isapnp_t) (val : Z) :
  0 <= key_pos dev < 32 ->
  match first_card dev with
  | [] => isapnp_write_addr val dev = dev
  | card :: _ =>
      let k := pnp_init_key !!! Z.to_nat (key_pos dev) in
      let unlocked :=
        dev_with_first_card (unlock_card <$> first_card dev) (dev_with_key_pos 0 dev) in
      (state card = PNP_STATE_WAIT_FOR_KEY ->
         (val <> k -> isapnp_write_addr val dev = dev_with_key_pos 0 dev)
         /\ (val = k -> key_pos dev < 31 ->
             isapnp_write_addr val dev = dev_with_key_pos (key_pos dev + 1) dev)
         /\ (val = k -> key_pos dev = 31 -> isapnp_write_addr val dev = unlocked)
         /\ (key_pos dev = 0 ->
             fold_left (fun d v => isapnp_write_addr v d) pnp_init_key dev = unlocked))
      /\ (state card <> PNP_STATE_WAIT_FOR_KEY ->
          isapnp_write_addr val dev = dev_with_reg val dev)
      /\ (forall (i : nat) c, first_card dev !! i = Some c ->
          first_card unlocked !! i
          = Some (if decide (state c = PNP_STATE_WAIT_FOR_KEY)
                  then card_with_state PNP_STATE_SLEEP c else c))
  end.
Proof.
  intros Hk. destruct (first_card dev) as [|card rest] eqn:Hc.
  - unfold isapnp_write_addr. by rewrite Hc.
  - intros k unlocked. split; [|split].
    + intros Hs. repeat split.
      * intros Hv. by apply (write_addr_mismatch _ _ card rest).
      * intros -> Hlt. apply (write_addr_match _ card rest); (done || lia).
      * intros -> H31. subst unlocked. rewrite <- Hc.
        by apply (write_addr_last_match _ card rest).
      * intros H0. subst unlocked. rewrite <- Hc.
        apply (feed_key_suffix 32 dev card rest); (done || lia).
    + intros Hs. by apply (write_addr_unlocked_first _ _ card rest).
    + intros i c Hi. subst unlocked. cbn [first_card dev_with_first_card].
      rewrite list_lookup_fmap, Hi. reflexivity.
Qed.

(** The claim as written fails when a card is attached after the bus has
    been unlocked: the second card waits for the key, 0x6A is the key byte
    under the cursor, and yet the write sets the register index and leaves
    the cursor alone. *)
Lemma write_addr_ignores_later_card :
  attach_sample unlocked_bus = Some (Ok (late_attach_bus, 1%nat))
  /\ map state (first_card late_attach_bus)
     = [PNP_STATE_SLEEP; PNP_STATE_WAIT_FOR_KEY]
  /\ reg late_attach_bus = 0
  /\ pnp_init_key !! Z.to_nat (key_pos late_attach_bus) = Some 0x6A
  /\ isapnp_write_addr 0x6A late_attach_bus = dev_with_reg 0x6A late_attach_bus.
Proof.
  split; [vm_compute; reflexivity|].
  split; [vm_compute; reflexivity|].
  split; [vm_compute; reflexivity|].
  split; vm_compute; reflexivity.
Qed.

(** ** Commands on the write-data port *)

Lemma reset_csns_states (ci : nat) (cs : list isapnp_card_t) :
  state <$> (reset_csns ci cs).1 = state <$> cs.
Proof.
  revert ci. induction cs as [|c cs IH]; intros ci; simpl; [done|].
  by rewrite IH.
Qed.

Lemma reset_cards_length (ci : nat) (cs : list isapnp_card_t) :
  length (reset_cards ci cs).1 = length cs.
Proof.
  revert ci. induction cs as [|c cs IH]; intros ci; simpl; [done|].
  by rewrite IH.
Qed.

Lemma truthy_true (x : Z) : x <> 0 -> truthy x = true.
Proof. intros H. unfold truthy. by apply Z.eqb_neq in H as ->. Qed.

Lemma reset_lds_state ci card lds : state (reset_lds ci card lds).1.1 = state card.
Proof.
  revert card. induction lds as [|ld lds IH]; intros card; simpl; [done|].
  rewrite IH. unfold isapnp_device_config_changed.
  by destruct (config_changed card).
Qed.

Lemma reset_cards_states (ci : nat) (cs : list isapnp_card_t) :
  state <$> (reset_cards ci cs).1 = state <$> cs.
Proof.
  revert ci. induction cs as [|c cs IH]; intros ci; simpl; [done|].
  by rewrite IH, reset_lds_state.
Qed.

(** Config Control touches neither the register index nor the key cursor,
    and the card states only through bit 1. *)
Lemma config_control_states (val : Z) (dev : isapnp_t) :
  reg (config_control val dev).1 = reg dev
  /\ key_pos (config_control val dev).1 = key_pos dev
  /\ state <$> first_card (config_control val dev).1
     = if truthy (Z.land val 0x02)
       then (fun _ => PNP_STATE_WAIT_FOR_KEY) <$> first_card dev
       else state <$> first_card dev.
Proof.
  unfold config_control, isapnp_set_read_data.
  destruct (truthy (Z.land val 1)), (truthy (Z.land val 2)),
    (truthy (Z.land val 4)), (truthy (read_data_addr dev)); simpl.
  all: split; [done|]; split; [done|].
  all: rewrite ?reset_csns_states, <- ?list_fmap_compose, ?reset_cards_states.
  all: try done.
  all: rewrite !(const_fmap _ _ PNP_STATE_WAIT_FOR_KEY) by done.
  all: by rewrite ?reset_cards_length.
Qed.

(** C7, as the code has it: a Config-Control command with bit 1 set puts
    every card of the bus in WAIT_FOR_KEY and leaves the key cursor where it
    was. *)
Theorem config_control_wait_for_key (dev : isapnp_t) (val : Z) :
  reg dev = 0x02 ->
  Z.land val 0x02 <> 0 ->
  exists dev' evs,
    isapnp_write_data val dev = Ok (dev', evs)
    /\ state <$> first_card dev'
       = (fun _ => PNP_STATE_WAIT_FOR_KEY) <$> first_card dev
    /\ key_pos dev' = key_pos dev.
Proof.
  intros Hreg Hbit. unfold isapnp_write_data. rewrite Hreg. simpl.
  exists (config_control val dev).1, (config_control val dev).2.
  split; [by destruct (config_control val dev)|].
  destruct (config_control_states val dev) as (_ & Hk & Hs).
  rewrite (truthy_true _ Hbit) in Hs. done.
Qed.

(** The claim as written fails: after the key a guest selects Config
    Control and returns the bus to WAIT_FOR_KEY, writes the first key byte
    (cursor 1) and repeats the command; the cursor is still 1. *)
Lemma config_control_keeps_key_cursor :
  exists dev,
    run (unlock ++ [write_addr 0x02; write_data 0x02; write_addr 0x6A]) sample_bus
    = Ok (dev, [])
    /\ reg dev = 0x02
    /\ key_pos dev = 1
    /\ exists dev',
         isapnp_write_data 0x02 dev = Ok (dev', [])
         /\ state <$> first_card dev' = [PNP_STATE_WAIT_FOR_KEY]
         /\ key_pos dev' = 1.
Proof.
  eexists. split; [vm_compute; reflexivity|].
  split; [reflexivity|]. split; [reflexivity|].
  eexists. split; [vm_compute; reflexivity|].
  split; reflexivity.
Qed.

(** C9: Set-CSN acts on the card the controller holds as isolated, and on
    nothing when it holds none.  With such a card, the written value becomes
    its CSN, its CSN-changed callback (when it registered one) is called
    with that value, it goes to CONFIG, the reference is cleared and every
    other card is left alone.  Without one, whatever the states of the
    cards, the controller is unchanged and no call is made. *)
Theorem set_csn_isolated_card_only (dev : isapnp_t) (val : Z) :
  reg dev = 0x06 ->
  (forall ci card,
      isolated_card dev = Some ci ->
      first_card dev !! ci = Some card ->
      let card' := card_with_state PNP_STATE_CONFIG (card_with_csn val card) in
      let dev' :=
        dev_with_isolated_card None
          (dev_with_first_card (<[ci := card']> (first_card dev)) dev) in
      isapnp_write_data val dev
      = Ok (dev', if csn_changed card then [ev_csn_changed ci val] else [])
      /\ first_card dev' !! ci = Some card'
      /\ csn card' = val /\ state card' = PNP_STATE_CONFIG
      /\ (forall j, j <> ci -> first_card dev' !! j = first_card dev !! j)
      /\ isolated_card dev' = None)
  /\ (isolated_card dev = None -> isapnp_write_data val dev = Ok (dev, [])).
Proof.
  intros Hreg. unfold isapnp_write_data. rewrite Hreg. simpl. split.
  - intros ci card Hiso Hcard. rewrite Hiso, Hcard.
    split; [reflexivity|]. simpl.
    split; [apply list_lookup_insert_eq; by eapply lookup_lt_Some|].
    split; [done|]. split; [done|].
    split; [intros j Hj; by apply list_lookup_insert_ne|].
    done.
  - by intros ->.
Qed.

(** ** Register writes *)

(** What the data port does with a register that is stored in the
    addressed logical device. *)
Lemma stored_register_write (dev : isapnp_t) (val : Z)
    (p : nat * nat) (card : isapnp_card_t) (ld : isapnp_device_t) :
  current_ld dev = Some p ->
  deref_ld dev p = Ok (card, ld) ->
  reg dev = 0x30 \/ (0x40 <= reg dev /\ ~ (0xf0 <= reg dev <= 0xfe)) ->
  let ld' := ld_after_write (reg dev) val ld in
  let cfg := device_config ld' in
  isapnp_write_data val dev
  = Ok (if config_changed card
        then (store_ld p (card_with_config cfg card) ld' dev,
              [ev_config_changed p.1 (number ld) cfg])
        else (store_ld p card ld' dev, [])).
Proof.
  intros Hcur Hderef Hreg ld' cfg. subst cfg ld'.
  unfold isapnp_write_data, ld_after_write, written_byte.
  destruct Hreg as [Hreg|[Hlo Hhi]].
  - rewrite Hreg. simpl. rewrite Hcur, Hderef. simpl.
    unfold isapnp_device_config_changed. simpl.
    by destruct (config_changed card).
  - unfold is_card_vendor_reg, is_ld_vendor_reg. decide_cmp.
    destruct (Z_le_gt_dec (reg dev) 0xfe) as [Hle|Hgt].
    + decide_cmp. simpl. rewrite Hcur, Hderef. simpl.
      unfold isapnp_device_config_changed. simpl.
      by destruct (config_changed card).
    + decide_cmp. simpl. rewrite Hcur, Hderef. simpl.
      unfold isapnp_device_config_changed. simpl.
      by destruct (config_changed card).
Qed.

(** What the data port does with a vendor-defined register of the addressed
    logical device: the controller is left as it is, and the byte is handed
    to the card's vendor-register write callback when it registered one. *)
Lemma vendor_register_write (dev : isapnp_t) (val : Z)
    (p : nat * nat) (card : isapnp_card_t) (ld : isapnp_device_t) :
  current_ld dev = Some p ->
  deref_ld dev p = Ok (card, ld) ->
  0x38 <= reg dev <= 0x3f \/ 0xf0 <= reg dev <= 0xfe ->
  isapnp_write_data val dev
  = Ok (dev, if write_vendor_reg card
             then [ev_write_vendor_reg p.1 (number ld) (reg dev) val] else []).
Proof.
  intros Hcur Hderef Hreg.
  unfold isapnp_write_data, is_card_vendor_reg, is_ld_vendor_reg.
  destruct Hreg as [Hreg|Hreg]; decide_cmp; simpl; by rewrite Hcur, Hderef.
Qed.

(** C2, as the code has it: with a logical device addressed, a data-port
    write to register 0x30, or to a register index from 0x40 up that is not
    one of the vendor-defined registers 0xF0..0xFE, stores the byte in the
    device and, when the card registered a configuration-changed callback,
    recomputes the card's configuration record from the device's registers
    and calls the callback with it before returning; when the card
    registered none, the byte is stored and nothing else happens.  A write
    to one of the registers 0xF0..0xFE leaves the controller, and so every
    stored register and configuration record, as it is: the byte goes to the
    card's vendor-register write callback with the device's number and the
    register index when the card registered one, and nowhere otherwise; the
    configuration-changed callback is not called. *)
Theorem register_write_signals_config (dev : isapnp_t) (val : Z)
    (p : nat * nat) (card : isapnp_card_t) (ld : isapnp_device_t) :
  current_ld dev = Some p ->
  deref_ld dev p = Ok (card, ld) ->
  reg dev = 0x30 \/ 0x40 <= reg dev ->
  let ld' := ld_after_write (reg dev) val ld in
  let cfg := device_config ld' in
  (~ (0xf0 <= reg dev <= 0xfe) ->
   isapnp_write_data val dev
   = Ok (if config_changed card
         then (store_ld p (card_with_config cfg card) ld' dev,
               [ev_config_changed p.1 (number ld) cfg])
         else (store_ld p card ld' dev, []))
   /\ (config_changed card = true ->
       exists dev', isapnp_write_data val dev
                    = Ok (dev', [ev_config_changed p.1 (number ld) cfg])
         /\ (exists card', first_card dev' !! p.1 = Some card' /\ config card' = cfg))
   /\ (config_changed card = false ->
       exists dev', isapnp_write_data val dev = Ok (dev', [])))
  /\ (0xf0 <= reg dev <= 0xfe ->
      isapnp_write_data val dev
      = Ok (dev, if write_vendor_reg card
                 then [ev_write_vendor_reg p.1 (number ld) (reg dev) val]
                 else [])).
Proof.
  intros Hcur Hderef Hreg ld' cfg. split.
  - intros Hplain.
    assert (reg dev = 0x30 \/ (0x40 <= reg dev /\ ~ (0xf0 <= reg dev <= 0xfe)))
      as Hreg' by (destruct Hreg; [by left|by right]).
    pose proof (stored_register_write dev val p card ld Hcur Hderef Hreg') as Hw.
    simpl in Hw. fold ld' cfg in Hw.
    split; [exact Hw|]. split; intros Hcb; rewrite Hcb in Hw.
    + eexists. split; [exact Hw|].
      exists (card_with_first_ld (<[p.2 := ld']> (first_ld (card_with_config cfg card)))
                (card_with_config cfg card)).
      split; [|reflexivity].
      unfold store_ld. simpl. apply list_lookup_insert_eq.
      unfold deref_ld in Hderef.
      destruct (first_card dev !! p.1) eqn:Hc; [|done].
      by eapply lookup_lt_Some.
    + eexists. exact Hw.
  - intros Hvendor. apply vendor_register_write; [done|done|by right].
Qed.

(** The claim as written fails on the vendor-defined registers above 0x40:
    on the configured sample card, whose configuration-changed callback is
    registered, a write to register 0xF0 changes nothing and calls nothing. *)
Lemma vendor_register_write_is_silent :
  exists dev,
    run (configure ++ [write_addr 0xf0]) sample_bus
    = Ok (dev, [returned 0x00; called (ev_csn_changed 0 0x01)])
    /\ reg dev = 0xf0
    /\ current_ld dev = Some (0%nat, 0%nat)
    /\ config_changed <$> first_card dev = [true]
    /\ isapnp_write_data 0x55 dev = Ok (dev, []).
Proof.
  eexists. split; [vm_compute; reflexivity|].
  split; [reflexivity|]. split; [reflexivity|]. split; [reflexivity|].
  vm_compute. reflexivity.
Qed.

(** ** The read-only upper-limit bit *)

Lemma reg_get_set_eq (rs : list Z) (r v : Z) :
  (Z.to_nat r < length rs)%nat -> reg_get (reg_set rs r v) r = v.
Proof. intros H. unfold reg_get, reg_set. by apply list_lookup_total_insert_eq. Qed.

Lemma reg_get_set_ne (rs : list Z) (r r' v : Z) :
  Z.to_nat r <> Z.to_nat r' -> reg_get (reg_set rs r v) r' = reg_get rs r'.
Proof. intros H. unfold reg_get, reg_set. by apply list_lookup_total_insert_ne. Qed.

Lemma reg_set_length (rs : list Z) (r v : Z) : length (reg_set rs r v) = length rs.
Proof. apply length_insert. Qed.

Lemma is_upper_limit_reg_range (r : Z) :
  is_upper_limit_reg r = true -> 0x40 <= r < 256.
Proof.
  unfold is_upper_limit_reg. rewrite !orb_true_iff, !Z.eqb_eq. lia.
Qed.

(** Bit 0 of [(val & 0xfe) | (old & 0x01)] is bit 0 of [old]. *)
Lemma stored_low_bit (val old : Z) :
  Z.testbit (Z.lor (Z.land val 0xfe) (Z.land old 0x01)) 0 = Z.testbit old 0.
Proof. rewrite Z.lor_spec, !Z.land_spec. simpl. by rewrite andb_false_r, andb_true_r. Qed.

Lemma reset_length (ld : isapnp_device_t) :
  length (regs (isapnp_reset_ld_regs ld)) = 256%nat.
Proof.
  unfold isapnp_reset_ld_regs. cbn [regs ld_with_regs fold_left].
  unfold reg_set. rewrite !length_insert. apply repeat_length.
Qed.

Lemma reset_ignores_regs (rs : list Z) (ld : isapnp_device_t) :
  regs (isapnp_reset_ld_regs (ld_with_regs rs ld)) = regs (isapnp_reset_ld_regs ld).
Proof. reflexivity. Qed.

Lemma reset_flag_bits (ld : isapnp_device_t) :
  flag_bits_derived (isapnp_reset_ld_regs ld).
Proof. split; [apply reset_length|]. intros r _. reflexivity. Qed.

(** A store that keeps bit 0 of the registers that carry a flag. *)
Lemma write_keeps_flag_bits (ld : isapnp_device_t) (r v : Z) :
  flag_bits_derived ld ->
  (is_upper_limit_reg r = true ->
   Z.testbit v 0 = Z.testbit (reg_get (regs ld) r) 0) ->
  flag_bits_derived (ld_with_regs (reg_set (regs ld) r v) ld).
Proof.
  intros [Hlen Hbits] Hv. split.
  - simpl. by rewrite reg_set_length.
  - intros r' Hr'. rewrite reset_ignores_regs, <- Hbits by done. simpl.
    destruct (decide (r = r')) as [<-|Hne].
    + rewrite reg_get_set_eq; [by apply Hv|].
      apply is_upper_limit_reg_range in Hr'. lia.
    + rewrite reg_get_set_ne; [done|].
      apply is_upper_limit_reg_range in Hr'. lia.
Qed.

Lemma reset_lds_devices (ci : nat) (card : isapnp_card_t) (lds : list isapnp_device_t) :
  (reset_lds ci card lds).1.2 = isapnp_reset_ld_regs <$> lds.
Proof.
  revert card. induction lds as [|ld lds IH]; intros card; simpl; [done|].
  by rewrite IH.
Qed.

Lemma config_changed_first_ld ci card ld :
  first_ld (isapnp_device_config_changed ci card ld).1 = first_ld card.
Proof. unfold isapnp_device_config_changed. by destruct (config_changed card). Qed.

Lemma reset_cards_devices (ci : nat) (cs : list isapnp_card_t) :
  first_ld <$> (reset_cards ci cs).1
  = (fun c => isapnp_reset_ld_regs <$> first_ld c) <$> cs.
Proof.
  revert ci. induction cs as [|c cs IH]; intros ci; simpl; [done|].
  by rewrite IH, reset_lds_devices.
Qed.

Lemma reset_csns_devices (ci : nat) (cs : list isapnp_card_t) :
  first_ld <$> (reset_csns ci cs).1 = first_ld <$> cs.
Proof.
  revert ci. induction cs as [|c cs IH]; intros ci; simpl; [done|].
  by rewrite IH.
Qed.

Lemma fmap_keeps_devices (f : isapnp_card_t -> isapnp_card_t) (cs : list isapnp_card_t) :
  (forall c, first_ld (f c) = first_ld c) ->
  first_ld <$> (f <$> cs) = first_ld <$> cs.
Proof.
  intros Hf. rewrite <- list_fmap_compose. apply list_fmap_ext.
  intros i c _. apply Hf.
Qed.

Lemma insert_keeps_devices (cs : list isapnp_card_t) (ci : nat) (c c' : isapnp_card_t) :
  cs !! ci = Some c -> first_ld c' = first_ld c ->
  first_ld <$> <[ci := c']> cs = first_ld <$> cs.
Proof.
  intros Hc Hld. rewrite list_fmap_insert, Hld.
  apply list_insert_id. by rewrite list_lookup_fmap, Hc.
Qed.

Lemma wake_card_first_ld val c : first_ld (wake_card val c) = first_ld c.
Proof.
  unfold wake_card. destruct (csn c =? val); [|done].
  by destruct (decide _).
Qed.

Lemma unlock_card_first_ld c : first_ld (unlock_card c) = first_ld c.
Proof. unfold unlock_card. by destruct (decide _). Qed.

Lemma config_control_flag_bits (val : Z) (dev : isapnp_t) :
  bus_flag_bits_derived dev -> bus_flag_bits_derived (config_control val dev).1.
Proof.
  unfold bus_flag_bits_derived, config_control. intros Hinv.
  set (s1 := if truthy (Z.land val 1) then _ else _).
  assert (H1 : Forall (Forall flag_bits_derived) (first_ld <$> first_card s1.1)).
  { subst s1. destruct (truthy (Z.land val 1)); [|done]. simpl.
    rewrite reset_cards_devices. apply Forall_fmap, Forall_true.
    intros c. simpl. apply Forall_fmap, Forall_true. intros ld. simpl.
    apply reset_flag_bits. }
  set (s2 := if truthy (Z.land val 2) then _ else _).
  assert (H2 : Forall (Forall flag_bits_derived) (first_ld <$> first_card s2)).
  { subst s2. destruct (truthy (Z.land val 2)); [|done]. simpl.
    by rewrite fmap_keeps_devices. }
  destruct (truthy (Z.land val 4)); [|done]. simpl.
  by rewrite reset_csns_devices.
Qed.

Lemma deref_ld_lookup (dev : isapnp_t) p card ld :
  deref_ld dev p = Ok (card, ld) ->
  first_card dev !! p.1 = Some card /\ first_ld card !! p.2 = Some ld.
Proof.
  unfold deref_ld. intros H.
  destruct (first_card dev !! p.1) as [c|] eqn:Hc; [|done].
  destruct (first_ld c !! p.2) as [l|] eqn:Hl; [|done].
  injection H as -> ->. done.
Qed.

Lemma store_ld_flag_bits (dev : isapnp_t) p card card' ld ld' :
  bus_flag_bits_derived dev ->
  deref_ld dev p = Ok (card, ld) ->
  first_ld card' = first_ld card ->
  (flag_bits_derived ld -> flag_bits_derived ld') ->
  bus_flag_bits_derived (store_ld p card' ld' dev).
Proof.
  unfold bus_flag_bits_derived. intros Hinv [Hc Hl]%deref_ld_lookup Hsame Hld.
  unfold store_ld. simpl. rewrite list_fmap_insert. simpl.
  assert (Hcard : Forall flag_bits_derived (first_ld card)).
  { rewrite Forall_lookup in Hinv. apply (Hinv p.1).
    by rewrite list_lookup_fmap, Hc. }
  apply Forall_insert; [done|]. rewrite Hsame.
  apply Forall_insert; [done|]. apply Hld.
  rewrite Forall_lookup in Hcard. by apply (Hcard p.2).
Qed.

Lemma stored_value_keeps_flag (r val old : Z) :
  is_upper_limit_reg r = true ->
  Z.testbit (stored_value r val old) 0 = Z.testbit old 0.
Proof. intros Hr. unfold stored_value. rewrite Hr. apply stored_low_bit. Qed.

Lemma write_data_flag_bits (val : Z) (dev dev' : isapnp_t) (evs : list event) :
  bus_flag_bits_derived dev ->
  isapnp_write_data val dev = Ok (dev', evs) ->
  bus_flag_bits_derived dev'.
Proof.
  intros Hinv. unfold isapnp_write_data.
  destruct (reg dev =? 0) eqn:E0.
  { intros [= H]. apply (f_equal fst) in H. simpl in H. subst dev'.
    unfold isapnp_set_read_data, bus_flag_bits_derived.
    by destruct (truthy (read_data_addr dev)), (_ && _). }
  destruct (reg dev =? 2) eqn:E2.
  { intros [= H]. apply (f_equal fst) in H. simpl in H. subst dev'.
    by apply config_control_flag_bits. }
  destruct (reg dev =? 3) eqn:E3.
  { intros [= <- _]. unfold bus_flag_bits_derived. simpl.
    rewrite fmap_keeps_devices; [done|]. apply wake_card_first_ld. }
  destruct (reg dev =? 6) eqn:E6.
  { destruct (isolated_card dev) as [ci|]; [|by intros [= <- _]].
    destruct (first_card dev !! ci) as [card|] eqn:Hc; [|done].
    intros [= <- _]. unfold bus_flag_bits_derived. simpl.
    by rewrite (insert_keeps_devices _ _ card). }
  destruct (reg dev =? 7) eqn:E7.
  { destruct (find_card _ _) as [[ci card]|]; [|by intros [= <- _]].
    destruct (list_find _ _) as [[li l]|]; [|done].
    by intros [= <- _]. }
  destruct (reg dev =? 0x30) eqn:E30.
  { destruct (current_ld dev) as [p|]; [|by intros [= <- _]].
    destruct (deref_ld dev p) as [[card ld]| |] eqn:Hd; [|done|done].
    simpl. intros [= <- _].
    apply (store_ld_flag_bits dev p card _ ld); [done|done| |].
    - apply config_changed_first_ld.
    - intros Hld. apply write_keeps_flag_bits; [done|].
      apply Z.eqb_eq in E30. rewrite E30. discriminate. }
  destruct (reg dev =? 0x31) eqn:E31.
  { destruct (current_ld dev) as [p|]; [|by intros [= <- _]].
    destruct (deref_ld dev p) as [[card ld]| |] eqn:Hd; [|done|done].
    simpl. intros [= <- _].
    apply (store_ld_flag_bits dev p card _ ld); [done|done|done|].
    intros Hld. apply write_keeps_flag_bits; [done|].
    apply Z.eqb_eq in E31. rewrite E31. discriminate. }
  destruct (is_card_vendor_reg (reg dev)).
  { destruct (find_card _ _) as [[ci card]|]; by intros [= <- _]. }
  destruct (is_ld_vendor_reg (reg dev)).
  { destruct (current_ld dev) as [p|]; [|by intros [= <- _]].
    destruct (deref_ld dev p) as [[card ld]| |]; [|done|done].
    by intros [= <- _]. }
  destruct (0x40 <=? reg dev); [|by intros [= <- _]].
  destruct (current_ld dev) as [p|]; [|by intros [= <- _]].
  destruct (deref_ld dev p) as [[card ld]| |] eqn:Hd; [|done|done].
  simpl. intros [= <- _].
  apply (store_ld_flag_bits dev p card _ ld); [done|done| |].
  - apply config_changed_first_ld.
  - intros Hld. apply write_keeps_flag_bits; [done|].
    apply stored_value_keeps_flag.
Qed.

Lemma serial_isolation_read_first_ld card v card' :
  serial_isolation_read card = Ok (v, card') -> first_ld card' = first_ld card.
Proof.
  unfold serial_isolation_read.
  destruct (truthy (serial_read_pair card)).
  { intros [= _ <-]. by destruct (negb _). }
  destruct (serial_read_pos card <? 64).
  { destruct (rom_at _ _); [|done|done]. simpl. by intros [= _ <-]. }
  destruct (serial_read_pos card =? 64).
  - destruct (rom_store _ _ _); [|done|done]. simpl. by intros [= _ <-].
  - simpl. by intros [= _ <-].
Qed.

Lemma find_card_lookup s cs ci card :
  find_card s cs = Some (ci, card) -> cs !! ci = Some card.
Proof. unfold find_card. by intros [? _]%list_find_Some. Qed.

Lemma read_data_flag_bits (dev dev' : isapnp_t) (v : Z) :
  bus_flag_bits_derived dev ->
  isapnp_read_data dev = Ok (v, dev') ->
  bus_flag_bits_derived dev'.
Proof.
  intros Hinv. unfold isapnp_read_data.
  destruct (reg dev =? 1).
  { destruct (find_card _ _) as [[ci card]|] eqn:Hf; [|by intros [= _ <-]].
    destruct (serial_isolation_read card) as [[b card']| |] eqn:Hs; [|done|done].
    simpl. intros [= _ <-]. unfold bus_flag_bits_derived. simpl.
    rewrite (insert_keeps_devices _ _ card); [done| |].
    - by apply find_card_lookup in Hf.
    - by apply serial_isolation_read_first_ld in Hs. }
  destruct (reg dev =? 4).
  { destruct (find_card _ _) as [[ci card]|] eqn:Hf; [|by intros [= _ <-]].
    destruct (_ <=? _); [by intros [= _ <-]|].
    destruct (rom_at _ _); [|done|done]. simpl. intros [= _ <-].
    unfold bus_flag_bits_derived. simpl.
    rewrite (insert_keeps_devices _ _ card); [done| |done].
    by apply find_card_lookup in Hf. }
  destruct (reg dev =? 5).
  { destruct (find_card _ _); by intros [= _ <-]. }
  destruct (reg dev =? 6).
  { destruct (find_card _ _) as [[ci card]|]; by intros [= _ <-]. }
  destruct (reg dev =? 7).
  { destruct (current_ld dev) as [p|]; [|by intros [= _ <-]].
    destruct (deref_ld dev p); [|done|done]. by intros [= _ <-]. }
  destruct (is_card_vendor_reg (reg dev)).
  { destruct (find_card _ _) as [[ci card]|]; [|by intros [= _ <-]].
    destruct (read_vendor_reg card); by intros [= _ <-]. }
  destruct (is_ld_vendor_reg (reg dev)).
  { destruct (current_ld dev) as [p|]; [|by intros [= _ <-]].
    destruct (deref_ld dev p) as [[card ld]| |]; [|done|done]. simpl.
    destruct (read_vendor_reg card); by intros [= _ <-]. }
  destruct (0x30 <=? reg dev); [|by intros [= _ <-]].
  destruct (current_ld dev) as [p|]; [|by intros [= _ <-]].
  destruct (deref_ld dev p); [|done|done]. by intros [= _ <-].
Qed.

Lemma write_addr_flag_bits (val : Z) (dev : isapnp_t) :
  bus_flag_bits_derived dev -> bus_flag_bits_derived (isapnp_write_addr val dev).
Proof.
  intros Hinv. unfold isapnp_write_addr.
  destruct (first_card dev) as [|card rest] eqn:Hc; [done|].
  destruct (decide _); [|done].
  destruct (val =? _); [|done].
  destruct (_ =? 0); [|done].
  unfold bus_flag_bits_derived. simpl. rewrite Hc.
  rewrite fmap_keeps_devices; [|apply unlock_card_first_ld].
  unfold bus_flag_bits_derived in Hinv. by rewrite Hc in Hinv.
Qed.

(** No sequence of port accesses disturbs the derived flag bits. *)
Lemma run_flag_bits (accesses : list access) (dev dev' : isapnp_t) obs :
  bus_flag_bits_derived dev ->
  run accesses dev = Ok (dev', obs) ->
  bus_flag_bits_derived dev'.
Proof.
  revert dev obs. induction accesses as [|a rest IH]; intros dev obs Hinv; simpl.
  - by intros [= <- _].
  - destruct a as [v|v|]; simpl.
    + destruct (run rest _) as [[d o]| |] eqn:Hr; [|done|done].
      simpl. intros [= <- _]. eapply IH; [|exact Hr].
      by apply write_addr_flag_bits.
    + destruct (isapnp_write_data v dev) as [[d e]| |] eqn:Hw; [|done|done].
      simpl. destruct (run rest d) as [[d1 o]| |] eqn:Hr; [|done|done].
      simpl. intros [= <- _]. eapply IH; [|exact Hr].
      by eapply write_data_flag_bits.
    + destruct (isapnp_read_data dev) as [[b d]| |] eqn:Hw; [|done|done].
      simpl. destruct (run rest d) as [[d1 o]| |] eqn:Hr; [|done|done].
      simpl. intros [= <- _]. eapply IH; [|exact Hr].
      by eapply read_data_flag_bits.
Qed.

(** The parser hands over reset devices only. *)
Lemma memory_descriptor_done (r : list Z) (res : Z) (st st' : parse_state) :
  memory_descriptor r res st = Ok st' -> p_done st' = p_done st.
Proof.
  unfold memory_descriptor.
  destruct (res =? 1).
  - destruct (3 <? p_mem_range st); simpl; try done.
    destruct (rom_at r (p_i st + 3)); simpl; try done.
    destruct (p_ld st); simpl; try done. by intros [= <-].
  - destruct (3 <? p_mem_range_32 st); simpl; try done.
    destruct (rom_at r (p_i st + 3)); simpl; try done.
    destruct (p_ld st); simpl; try done. by intros [= <-].
Qed.

Lemma parse_item_done (r : list Z) (st st' : parse_state) :
  Forall flag_bits_derived (p_done st) ->
  parse_item r st = Ok st' ->
  Forall flag_bits_derived (p_done st').
Proof.
  intros Hinv. unfold parse_item.
  destruct (rom_at r (p_i st)) as [tag| |]; simpl; try done.
  destruct (is_large tag).
  - destruct (rom_at r (p_i st + 2)); simpl; try done.
    destruct (rom_at r (p_i st + 1)); simpl; try done.
    destruct (_ || _).
    + destruct (memory_descriptor r (large_kind tag) st) as [st1| |] eqn:Hm;
        simpl; try done.
      intros [= <-]. simpl. by rewrite (memory_descriptor_done _ _ _ _ Hm).
    + simpl. by intros [= <-].
  - intros [= <-]. simpl.
    destruct (small_kind tag =? 2).
    { simpl. destruct (p_ld st); [|done].
      apply Forall_app. split; [done|]. apply Forall_singleton, reset_flag_bits. }
    destruct (small_kind tag =? 6).
    { unfold start_dependent_functions. by destruct (truthy (p_in_df st)). }
    by destruct (small_kind tag =? 7).
Qed.

Lemma parse_rom_done (fuel : nat) (r : list Z) (n : Z) (st st' : parse_state) :
  Forall flag_bits_derived (p_done st) ->
  parse_rom fuel r n st = Some (Ok st') ->
  Forall flag_bits_derived (parsed_devices st').
Proof.
  revert st. induction fuel as [|fuel IH]; intros st Hinv; simpl.
  - destruct (p_i st <? n); [done|]. intros [= <-].
    unfold parsed_devices. destruct (p_ld st); [|done].
    apply Forall_app. split; [done|]. apply Forall_singleton, reset_flag_bits.
  - destruct (p_i st <? n).
    + destruct (parse_item r st) as [st1| |] eqn:Hstep; [|done|done].
      apply IH. by eapply parse_item_done.
    + intros [= <-].
      unfold parsed_devices. destruct (p_ld st); [|done].
      apply Forall_app. split; [done|]. apply Forall_singleton, reset_flag_bits.
Qed.

Lemma add_card_flag_bits fuel r n cc sc rv wv (dev dev' : isapnp_t) h :
  bus_flag_bits_derived dev ->
  isapnp_add_card fuel r n cc sc rv wv dev = Some (Ok (dev', h)) ->
  bus_flag_bits_derived dev'.
Proof.
  intros Hinv. unfold isapnp_add_card.
  destruct (populate_checksum r n) as [r1| |]; [|done|done].
  destruct (parse_rom fuel r1 n parse_start) as [[st| |]|] eqn:Hp; [|done|done|done].
  intros [= <- _]. unfold bus_flag_bits_derived. simpl.
  rewrite fmap_app. apply Forall_app. split; [done|].
  apply Forall_singleton. simpl. eapply parse_rom_done; [|exact Hp]. done.
Qed.

Lemma init_flag_bits : bus_flag_bits_derived isapnp_init.1.
Proof. unfold bus_flag_bits_derived. simpl. done. Qed.

Lemma deref_ld_store (dev : isapnp_t) p card card' ld ld' :
  deref_ld dev p = Ok (card, ld) ->
  first_ld card' = first_ld card ->
  deref_ld (store_ld p card' ld' dev) p
  = Ok (card_with_first_ld (<[p.2 := ld']> (first_ld card')) card', ld').
Proof.
  intros [Hc Hl]%deref_ld_lookup Hsame. unfold deref_ld, store_ld. simpl.
  rewrite list_lookup_insert_eq by (by eapply lookup_lt_Some). simpl.
  rewrite Hsame, list_lookup_insert_eq by (by eapply lookup_lt_Some). done.
Qed.

(** C8: with a logical device addressed, a data-port write to one of the
    registers 0x42, 0x4A, 0x52, 0x5A, 0x7A, 0x84, 0x94, 0xA4 stores the
    written byte with its low bit replaced by the low bit already stored,
    and touches no other register; and the low bit of each of these
    registers of every logical device stays the one derived from the
    parser's mask across every port access: it holds for the devices a card
    is attached with and every write to the data port, and so every session,
    maintains it. *)
Theorem upper_limit_bit_is_read_only (dev : isapnp_t) (val : Z)
    (p : nat * nat) (card : isapnp_card_t) (ld : isapnp_device_t) :
  current_ld dev = Some p ->
  deref_ld dev p = Ok (card, ld) ->
  length (regs ld) = 256%nat ->
  is_upper_limit_reg (reg dev) = true ->
  (exists dev' evs card' ld',
      isapnp_write_data val dev = Ok (dev', evs)
      /\ deref_ld dev' p = Ok (card', ld')
      /\ reg_get (regs ld') (reg dev)
         = Z.lor (Z.land val 0xfe) (Z.land (reg_get (regs ld) (reg dev)) 0x01)
      /\ Z.testbit (reg_get (regs ld') (reg dev)) 0
         = Z.testbit (reg_get (regs ld) (reg dev)) 0
      /\ (forall r, Z.to_nat r <> Z.to_nat (reg dev) ->
                    reg_get (regs ld') r = reg_get (regs ld) r)
      /\ upperlimit ld' = upperlimit ld)
  /\ (forall fuel r n cc sc rv wv d d' h,
        bus_flag_bits_derived d ->
        isapnp_add_card fuel r n cc sc rv wv d = Some (Ok (d', h)) ->
        bus_flag_bits_derived d')
  /\ (forall v d d' evs,
        bus_flag_bits_derived d ->
        isapnp_write_data v d = Ok (d', evs) ->
        bus_flag_bits_derived d')
  /\ (forall accesses d d' obs,
        bus_flag_bits_derived d ->
        run accesses d = Ok (d', obs) ->
        bus_flag_bits_derived d').
Proof.
  intros Hcur Hderef Hlen Hflag.
  split; [|split; [|split]].
  - pose proof (is_upper_limit_reg_range _ Hflag) as Hrange.
    pose proof (stored_register_write dev val p card ld Hcur Hderef) as Hw.
    assert (Hne : ~ (0xf0 <= reg dev <= 0xfe)).
    { revert Hflag. unfold is_upper_limit_reg.
      rewrite !orb_true_iff, !Z.eqb_eq. lia. }
    specialize (Hw (or_intror (conj (proj1 Hrange) Hne))). simpl in Hw.
    set (ld' := ld_after_write (reg dev) val ld) in *.
    assert (Hget : reg_get (regs ld') (reg dev)
                   = Z.lor (Z.land val 0xfe) (Z.land (reg_get (regs ld) (reg dev)) 0x01)).
    { subst ld'. unfold ld_after_write, written_byte, stored_value. simpl.
      rewrite reg_get_set_eq by lia. rewrite Hflag.
      replace (reg dev =? 0x30) with false; [done|].
      symmetry. apply Z.eqb_neq. intros H30. rewrite H30 in Hflag. discriminate. }
    destruct (config_changed card).
    + eexists _, _, _, ld'. split; [exact Hw|].
      split; [by apply (deref_ld_store dev p card _ ld)|].
      split; [exact Hget|]. split; [rewrite Hget; apply stored_low_bit|].
      split; [|done]. intros r Hr. subst ld'. simpl. by apply reg_get_set_ne.
    + eexists _, _, _, ld'. split; [exact Hw|].
      split; [by apply (deref_ld_store dev p card _ ld)|].
      split; [exact Hget|]. split; [rewrite Hget; apply stored_low_bit|].
      split; [|done]. intros r Hr. subst ld'. simpl. by apply reg_get_set_ne.
  - intros *. apply add_card_flag_bits.
  - intros *. apply write_data_flag_bits.
  - intros *. apply run_flag_bits.
Qed.

(** ** When the first card speaks for the bus *)

Lemma states_keep_locked (dev dev' : isapnp_t) :
  state <$> first_card dev' = state <$> first_card dev ->
  reg dev' = reg dev ->
  bus_uniform dev -> bus_uniform dev'.
Proof.
  intros Hst Hreg [[Hall Hr]|Hnone].
  - left. split; [|by rewrite Hreg].
    apply (Forall_fmap state (fun s => s = PNP_STATE_WAIT_FOR_KEY)).
    rewrite Hst. by apply Forall_fmap.
  - right. apply (Forall_fmap state (fun s => s <> PNP_STATE_WAIT_FOR_KEY)).
    rewrite Hst. by apply Forall_fmap.
Qed.

Lemma states_keep_unlocked (dev dev' : isapnp_t) :
  state <$> first_card dev' = state <$> first_card dev ->
  bus_unlocked dev -> bus_unlocked dev'.
Proof.
  intros Hst Hnone.
  apply (Forall_fmap state (fun s => s <> PNP_STATE_WAIT_FOR_KEY)).
  rewrite Hst. by apply Forall_fmap.
Qed.

Lemma uniform_other_reg (dev : isapnp_t) :
  bus_uniform dev -> reg dev <> 0x00 -> reg dev <> 0x02 -> bus_unlocked dev.
Proof. intros [[_ Hr]|Hnone] H0 H2; [lia|done]. Qed.

Lemma insert_keeps_states (cs : list isapnp_card_t) (ci : nat) (c c' : isapnp_card_t) :
  cs !! ci = Some c -> state c' = state c ->
  state <$> <[ci := c']> cs = state <$> cs.
Proof.
  intros Hc Hs. rewrite list_fmap_insert, Hs.
  apply list_insert_id. by rewrite list_lookup_fmap, Hc.
Qed.

Lemma store_ld_states (dev : isapnp_t) p card card' ld ld' :
  deref_ld dev p = Ok (card, ld) ->
  state card' = state card ->
  state <$> first_card (store_ld p card' ld' dev) = state <$> first_card dev.
Proof.
  intros [Hc _]%deref_ld_lookup Hs. unfold store_ld. simpl.
  by apply (insert_keeps_states _ _ card).
Qed.

Lemma config_changed_state ci card ld :
  state (isapnp_device_config_changed ci card ld).1 = state card.
Proof. unfold isapnp_device_config_changed. by destruct (config_changed card). Qed.

Lemma wake_card_awake val c :
  state c <> PNP_STATE_WAIT_FOR_KEY -> state (wake_card val c) <> PNP_STATE_WAIT_FOR_KEY.
Proof.
  intros Hs. unfold wake_card. destruct (csn c =? val); [|done].
  destruct (decide _); [|done]. simpl. by destruct (val =? 0).
Qed.

Lemma config_control_uniform (val : Z) (dev : isapnp_t) :
  reg dev = 0x02 -> bus_uniform dev -> bus_uniform (config_control val dev).1.
Proof.
  intros Hreg Huni.
  destruct (config_control_states val dev) as (Hr & _ & Hs).
  destruct (truthy (Z.land val 2)).
  - left. split; [|rewrite Hr; by right].
    apply (Forall_fmap state (fun s => s = PNP_STATE_WAIT_FOR_KEY)).
    rewrite Hs. apply Forall_fmap, Forall_true. done.
  - by apply (states_keep_locked dev).
Qed.

Lemma write_data_uniform (val : Z) (dev dev' : isapnp_t) (evs : list event) :
  bus_uniform dev ->
  isapnp_write_data val dev = Ok (dev', evs) ->
  bus_uniform dev'.
Proof.
  intros Huni. unfold isapnp_write_data.
  destruct (Z.eqb_spec (reg dev) 0) as [E0|E0].
  { intros [= H]. apply (f_equal fst) in H. simpl in H. subst dev'.
    apply (states_keep_locked dev); [| |done];
      unfold isapnp_set_read_data;
      by destruct (truthy (read_data_addr dev)), (_ && _). }
  destruct (Z.eqb_spec (reg dev) 2) as [E2|E2].
  { intros [= H]. apply (f_equal fst) in H. simpl in H. subst dev'.
    by apply config_control_uniform. }
  pose proof (uniform_other_reg _ Huni E0 E2) as Hun.
  destruct (reg dev =? 3).
  { intros [= <- _]. right. unfold bus_unlocked. simpl.
    apply Forall_fmap. eapply Forall_impl; [exact Hun|].
    intros c Hc. by apply wake_card_awake. }
  destruct (reg dev =? 6).
  { destruct (isolated_card dev) as [ci|]; [|by intros [= <- _]].
    destruct (first_card dev !! ci) as [card|] eqn:Hc; [|done].
    intros [= <- _]. right. unfold bus_unlocked. simpl.
    by apply Forall_insert. }
  destruct (reg dev =? 7).
  { destruct (find_card _ _) as [[ci card]|]; [|by intros [= <- _]].
    destruct (list_find _ _) as [[li l]|]; [|done].
    by intros [= <- _]. }
  destruct (reg dev =? 0x30).
  { destruct (current_ld dev) as [p|]; [|by intros [= <- _]].
    destruct (deref_ld dev p) as [[card ld]| |] eqn:Hd; [|done|done].
    simpl. intros [= <- _]. right.
    apply (states_keep_unlocked dev); [|done].
    apply (store_ld_states dev p card _ ld); [done|].
    apply config_changed_state. }
  destruct (reg dev =? 0x31).
  { destruct (current_ld dev) as [p|]; [|by intros [= <- _]].
    destruct (deref_ld dev p) as [[card ld]| |] eqn:Hd; [|done|done].
    simpl. intros [= <- _]. right.
    apply (states_keep_unlocked dev); [|done].
    by apply (store_ld_states dev p card _ ld). }
  destruct (is_card_vendor_reg (reg dev)).
  { destruct (find_card _ _) as [[ci card]|]; by intros [= <- _]. }
  destruct (is_ld_vendor_reg (reg dev)).
  { destruct (current_ld dev) as [p|]; [|by intros [= <- _]].
    destruct (deref_ld dev p) as [[card ld]| |]; [|done|done].
    by intros [= <- _]. }
  destruct (0x40 <=? reg dev); [|by intros [= <- _]].
  destruct (current_ld dev) as [p|]; [|by intros [= <- _]].
  destruct (deref_ld dev p) as [[card ld]| |] eqn:Hd; [|done|done].
  simpl. intros [= <- _]. right.
  apply (states_keep_unlocked dev); [|done].
  apply (store_ld_states dev p card _ ld); [done|].
  apply config_changed_state.
Qed.

Lemma serial_isolation_read_state card v card' :
  serial_isolation_read card = Ok (v, card') -> state card' = state card.
Proof.
  unfold serial_isolation_read.
  destruct (truthy (serial_read_pair card)).
  { intros [= _ <-]. by destruct (negb _). }
  destruct (serial_read_pos card <? 64).
  { destruct (rom_at _ _); [|done|done]. simpl. by intros [= _ <-]. }
  destruct (serial_read_pos card =? 64).
  - destruct (rom_store _ _ _); [|done|done]. simpl. by intros [= _ <-].
  - simpl. by intros [= _ <-].
Qed.

Lemma read_data_uniform (dev dev' : isapnp_t) (v : Z) :
  bus_uniform dev ->
  isapnp_read_data dev = Ok (v, dev') ->
  bus_uniform dev'.
Proof.
  intros Huni. unfold isapnp_read_data.
  destruct (reg dev =? 1).
  { destruct (find_card _ _) as [[ci card]|] eqn:Hf; [|by intros [= _ <-]].
    destruct (serial_isolation_read card) as [[b card']| |] eqn:Hs; [|done|done].
    simpl. intros [= _ <-].
    apply (states_keep_locked dev); [|done|done]. simpl.
    apply (insert_keeps_states _ _ card).
    - by apply find_card_lookup in Hf.
    - by apply serial_isolation_read_state in Hs. }
  destruct (reg dev =? 4).
  { destruct (find_card _ _) as [[ci card]|] eqn:Hf; [|by intros [= _ <-]].
    destruct (_ <=? _); [by intros [= _ <-]|].
    destruct (rom_at _ _); [|done|done]. simpl. intros [= _ <-].
    apply (states_keep_locked dev); [|done|done]. simpl.
    apply (insert_keeps_states _ _ card); [|done].
    by apply find_card_lookup in Hf. }
  destruct (reg dev =? 5).
  { destruct (find_card _ _); by intros [= _ <-]. }
  destruct (reg dev =? 6).
  { destruct (find_card _ _) as [[ci card]|]; by intros [= _ <-]. }
  destruct (reg dev =? 7).
  { destruct (current_ld dev) as [p|]; [|by intros [= _ <-]].
    destruct (deref_ld dev p); [|done|done]. by intros [= _ <-]. }
  destruct (is_card_vendor_reg (reg dev)).
  { destruct (find_card _ _) as [[ci card]|]; [|by intros [= _ <-]].
    destruct (read_vendor_reg card); by intros [= _ <-]. }
  destruct (is_ld_vendor_reg (reg dev)).
  { destruct (current_ld dev) as [p|]; [|by intros [= _ <-]].
    destruct (deref_ld dev p) as [[card ld]| |]; [|done|done]. simpl.
    destruct (read_vendor_reg card); by intros [= _ <-]. }
  destruct (0x30 <=? reg dev); [|by intros [= _ <-]].
  destruct (current_ld dev) as [p|]; [|by intros [= _ <-]].
  destruct (deref_ld dev p); [|done|done]. by intros [= _ <-].
Qed.

Lemma write_addr_uniform (val : Z) (dev : isapnp_t) :
  bus_uniform dev -> bus_uniform (isapnp_write_addr val dev).
Proof.
  intros Huni. unfold isapnp_write_addr.
  destruct (first_card dev) as [|card rest] eqn:Hc; [done|].
  destruct (decide (state card = PNP_STATE_WAIT_FOR_KEY)) as [Hw|Hw].
  - destruct (val =? _).
    + destruct (_ =? 0).
      * right. unfold bus_unlocked. simpl. rewrite Hc.
        apply Forall_fmap, Forall_true. intros c. simpl.
        unfold unlock_card. by destruct (decide _).
      * apply (states_keep_locked dev); [done|done|done].
    + apply (states_keep_locked dev); [done|done|done].
  - right. unfold bus_unlocked. simpl.
    destruct Huni as [[Hall _]|Hnone]; [|done].
    rewrite Hc in Hall. by apply Forall_cons in Hall as [? _].
Qed.

(** On a bus whose cards were all attached before the first port access,
    the cards wait for the key together or not at all, whatever the guest
    does: there the first card speaks for every card. *)
Lemma run_uniform (accesses : list access) (dev dev' : isapnp_t) obs :
  bus_uniform dev ->
  run accesses dev = Ok (dev', obs) ->
  bus_uniform dev'.
Proof.
  revert dev obs. induction accesses as [|a rest IH]; intros dev obs Hinv; simpl.
  - by intros [= <- _].
  - destruct a as [v|v|]; simpl.
    + destruct (run rest _) as [[d o]| |] eqn:Hr; [|done|done].
      simpl. intros [= <- _]. eapply IH; [|exact Hr].
      by apply write_addr_uniform.
    + destruct (isapnp_write_data v dev) as [[d e]| |] eqn:Hw; [|done|done].
      simpl. destruct (run rest d) as [[d1 o]| |] eqn:Hr; [|done|done].
      simpl. intros [= <- _]. eapply IH; [|exact Hr].
      by eapply write_data_uniform.
    + destruct (isapnp_read_data dev) as [[b d]| |] eqn:Hw; [|done|done].
      simpl. destruct (run rest d) as [[d1 o]| |] eqn:Hr; [|done|done].
      simpl. intros [= <- _]. eapply IH; [|exact Hr].
      by eapply read_data_uniform.
Qed.

Lemma add_card_locked fuel r n cc sc rv wv (dev dev' : isapnp_t) h :
  bus_locked dev ->
  isapnp_add_card fuel r n cc sc rv wv dev = Some (Ok (dev', h)) ->
  bus_locked dev'.
Proof.
  intros [Hall Hreg]. unfold isapnp_add_card.
  destruct (populate_checksum r n) as [r1| |]; [|done|done].
  destruct (parse_rom fuel r1 n parse_start) as [[st| |]|]; [|done|done|done].
  intros [= <- _]. split; [|done]. simpl.
  apply Forall_app. split; [done|]. by apply Forall_singleton.
Qed.

Lemma init_locked : bus_locked isapnp_init.1.
Proof. split; [apply Forall_nil_2|by left]. Qed.

Lemma uniform_first_card (dev : isapnp_t) card rest :
  bus_uniform dev ->
  first_card dev = card :: rest ->
  state card = PNP_STATE_WAIT_FOR_KEY
  <-> exists c, c ∈ first_card dev /\ state c = PNP_STATE_WAIT_FOR_KEY.
Proof.
  intros Huni Hc. split.
  - intros Hs. exists card. split; [|done]. rewrite Hc. apply list_elem_of_here.
  - intros (c & Hin & Hs). destruct Huni as [[Hall _]|Hnone].
    + rewrite Hc in Hall. by apply Forall_cons in Hall as [? _].
    + unfold bus_unlocked in Hnone. rewrite Forall_forall in Hnone.
      by destruct (Hnone c Hin).
Qed.

(** ** The configuration translator *)

Lemma reg_get_byte (ld : isapnp_device_t) (r : Z) :
  ld_wf ld -> 0 <= r < 256 -> is_byte (reg_get (regs ld) r).
Proof.
  intros [Hlen Hall] Hr. unfold reg_get.
  rewrite Forall_lookup in Hall. apply (Hall (Z.to_nat r)).
  apply list_lookup_lookup_total_lt. lia.
Qed.

Lemma truthy_land_1 (x : Z) : truthy (Z.land x 0x01) = Z.testbit x 0.
Proof.
  rewrite <- (Z.shiftr_0_r x) at 1. rewrite land_shiftr_bit by lia.
  apply truthy_b2z.
Qed.

(** A 24-bit field assembled from its two wire bytes. *)
Lemma field24 (hi lo : Z) :
  is_byte hi -> is_byte lo ->
  u24 (Z.lor (Z.shiftl hi 16) (Z.shiftl lo 8)) = hi * 65536 + lo * 256.
Proof.
  unfold is_byte, u24. intros Hhi Hlo.
  rewrite !Z.shiftl_mul_pow2 by lia.
  rewrite lor_pow2_add by lia.
  rewrite Z.mod_small by lia. lia.
Qed.

(** A 32-bit field assembled from its four wire bytes. *)
Lemma field32 (b3 b2 b1 b0 : Z) :
  is_byte b3 -> is_byte b2 -> is_byte b1 -> is_byte b0 ->
  u32 (Z.lor (Z.lor (Z.lor (Z.shiftl b3 24) (Z.shiftl b2 16)) (Z.shiftl b1 8)) b0)
  = b3 * 16777216 + b2 * 65536 + b1 * 256 + b0.
Proof.
  unfold is_byte, u32. intros H3 H2 H1 H0.
  rewrite !Z.shiftl_mul_pow2 by lia.
  rewrite (lor_pow2_add 24) by lia.
  replace (b3 * 2 ^ 24 + b2 * 2 ^ 16) with ((b3 * 2 ^ 8 + b2) * 2 ^ 16) by lia.
  rewrite (lor_pow2_add 16) by lia.
  replace ((b3 * 2 ^ 8 + b2) * 2 ^ 16 + b1 * 2 ^ 8)
    with (((b3 * 2 ^ 8 + b2) * 2 ^ 8 + b1) * 2 ^ 8) by lia.
  rewrite (lor_pow2_add 8) by lia.
  rewrite Z.mod_small by lia. lia.
Qed.

(** C5: when the upper-limit bit of a memory range's register group is
    set, the translated window has the group's base and, as size, the second
    field read as an upper bound minus that base (in the width of the field,
    so exactly bound - base whenever the bound is not below the base); the
    32-bit memory ranges are translated the same way.  With base 0x001000
    and a flagged second field 0x002000 the window is base 0x1000, size
    0x1000. *)
Theorem upper_limit_conversion (ld : isapnp_device_t) (i : Z) :
  ld_wf ld ->
  0 <= i < 4 ->
  let rs := regs ld in
  let cfg := device_config ld in
  (Z.testbit (reg_get rs (mem_reg_base i + 2)) 0 = true ->
   let b := wire24 rs (mem_reg_base i) in
   let bound := wire24 rs (mem_reg_base i + 3) in
   mem cfg !! Z.to_nat i = Some {| base := b; size_ := (bound - b) mod 2 ^ 24 |}
   /\ (b <= bound -> (bound - b) mod 2 ^ 24 = bound - b)
   /\ (b = 0x001000 -> bound = 0x002000 ->
       mem cfg !! Z.to_nat i = Some {| base := 0x1000; size_ := 0x1000 |}))
  /\ (Z.testbit (reg_get rs (mem32_reg_base i + 4)) 0 = true ->
      let b := wire32 rs (mem32_reg_base i) in
      let bound := wire32 rs (mem32_reg_base i + 5) in
      mem32 cfg !! Z.to_nat i = Some {| base := b; size_ := (bound - b) mod 2 ^ 32 |}
      /\ (b <= bound -> (bound - b) mod 2 ^ 32 = bound - b)).
Proof.
  intros Hwf Hi rs cfg.
  assert (Hb : forall r, 0 <= r < 256 -> is_byte (reg_get rs r))
    by (intros r Hr; by apply reg_get_byte).
  assert (Hmem : mem cfg !! Z.to_nat i = Some (config_mem rs i)).
  { assert (Hcases : i = 0 \/ i = 1 \/ i = 2 \/ i = 3) by lia.
    destruct Hcases as [->|[->|[->| ->]]]; reflexivity. }
  assert (Hmem32 : mem32 cfg !! Z.to_nat i = Some (config_mem32 rs i)).
  { assert (Hcases : i = 0 \/ i = 1 \/ i = 2 \/ i = 3) by lia.
    destruct Hcases as [->|[->|[->| ->]]]; reflexivity. }
  split.
  - intros Hflag b bound.
    assert (Hwin : config_mem rs i = {| base := b; size_ := (bound - b) mod 2 ^ 24 |}).
    { unfold config_mem. fold (mem_reg_base i).
      rewrite truthy_land_1, Hflag.
      unfold mem_reg_base in *.
      rewrite !field24 by (apply Hb; lia).
      subst b bound. unfold wire24, u24.
      replace (0x40 + 8 * i + 3 + 1) with (0x40 + 8 * i + 4) by lia.
      reflexivity. }
    split; [by rewrite Hmem, Hwin|]. split.
    + intros Hle. apply Z.mod_small.
      assert (0 <= b) by (subst b; unfold wire24, mem_reg_base;
        pose proof (Hb (0x40 + 8 * i) ltac:(lia));
        pose proof (Hb (0x40 + 8 * i + 1) ltac:(lia)); unfold is_byte in *; lia).
      assert (bound < 2 ^ 24) by (subst bound; unfold wire24, mem_reg_base;
        pose proof (Hb (0x40 + 8 * i + 3) ltac:(lia));
        pose proof (Hb (0x40 + 8 * i + 3 + 1) ltac:(lia)); unfold is_byte in *; lia).
      lia.
    + intros Hbase Hbound. rewrite Hmem, Hwin, Hbase, Hbound. reflexivity.
  - intros Hflag b bound.
    assert (Hr : 0x76 <= mem32_reg_base i <= 0xb0)
      by (unfold mem32_reg_base; destruct (Z.eqb_spec i 0); lia).
    assert (Hwin : config_mem32 rs i = {| base := b; size_ := (bound - b) mod 2 ^ 32 |}).
    { unfold config_mem32. fold (mem32_reg_base i).
      rewrite truthy_land_1, Hflag.
      rewrite !field32 by (apply Hb; lia).
      subst b bound. unfold wire32, u32.
      replace (mem32_reg_base i + 5 + 1) with (mem32_reg_base i + 6) by lia.
      replace (mem32_reg_base i + 5 + 2) with (mem32_reg_base i + 7) by lia.
      replace (mem32_reg_base i + 5 + 3) with (mem32_reg_base i + 8) by lia.
      reflexivity. }
    split; [by rewrite Hmem32, Hwin|].
    intros Hle. apply Z.mod_small.
    assert (0 <= b).
    { subst b. unfold wire32.
      pose proof (Hb (mem32_reg_base i) ltac:(lia)).
      pose proof (Hb (mem32_reg_base i + 1) ltac:(lia)).
      pose proof (Hb (mem32_reg_base i + 2) ltac:(lia)).
      pose proof (Hb (mem32_reg_base i + 3) ltac:(lia)).
      unfold is_byte in *; lia. }
    assert (bound < 2 ^ 32).
    { subst bound. unfold wire32.
      pose proof (Hb (mem32_reg_base i + 5) ltac:(lia)).
      pose proof (Hb (mem32_reg_base i + 5 + 1) ltac:(lia)).
      pose proof (Hb (mem32_reg_base i + 5 + 2) ltac:(lia)).
      pose proof (Hb (mem32_reg_base i + 5 + 3) ltac:(lia)).
      unfold is_byte in *; lia. }
    lia.
Qed.

(** ** Dependent functions in the resource parser *)

Section parser.

(** The ROM the parser reads. *)
Variable r : list Z.

(** *** One round of the loop, by item *)

Lemma parse_small_item (st : parse_state) (tag : Z) :
  r !! Z.to_nat (p_i st) = Some tag ->
  is_large tag = false ->
  parse_item r st
  = Ok (advance (small_len tag)
          (advance 1
             (if small_kind tag =? 0x02 then logical_device_start st
              else if small_kind tag =? 0x06 then start_dependent_functions st
              else if small_kind tag =? 0x07 then end_dependent_functions st
              else st))).
Proof.
  intros Htag Hsmall. unfold parse_item, rom_at. rewrite Htag. simpl.
  by rewrite Hsmall.
Qed.

Lemma parse_large_item (st : parse_state) (tag : Z) :
  r !! Z.to_nat (p_i st) = Some tag ->
  is_large tag = true ->
  parse_item r st
  = (hi ← rom_at r (p_i st + 2);
     lo ← rom_at r (p_i st + 1);
     st1 ← (if (large_kind tag =? 0x01) || (large_kind tag =? 0x05)
            then memory_descriptor r (large_kind tag) st else Ok st);
     Ok (advance (Z.lor (Z.shiftl hi 8) lo) (advance 3 st1))).
Proof.
  intros Htag Hlarge.
  assert (Hat : rom_at r (p_i st) = Ok tag) by (unfold rom_at; by rewrite Htag).
  unfold parse_item. rewrite Hat. simpl. by rewrite Hlarge.
Qed.

Lemma parse_item_tag (st st1 : parse_state) :
  parse_item r st = Ok st1 -> exists tag, r !! Z.to_nat (p_i st) = Some tag.
Proof.
  unfold parse_item, rom_at.
  destruct (r !! Z.to_nat (p_i st)) as [tag|]; [|done]. by exists tag.
Qed.

Lemma counters_advance n st : counters (advance n st) = counters st.
Proof. reflexivity. Qed.

Lemma u8_succ_small (x : Z) : 0 <= x <= 3 -> u8 (x + 1) = x + 1.
Proof. intros H. unfold u8. apply Z.mod_small. lia. Qed.

Lemma u8_nonneg (x : Z) : 0 <= u8 x.
Proof. unfold u8. apply Z.mod_pos_bound. lia. Qed.

(** First entry: the counters are saved and otherwise left alone. *)
Lemma first_start_snapshots (st : parse_state) :
  small_item_at r st 0x06 -> p_in_df st = 0 ->
  exists st1, parse_item r st = Ok st1
    /\ counters st1
       = (1, p_mem_range st, p_mem_range_32 st, p_mem_range st, p_mem_range_32 st).
Proof.
  intros (tag & Htag & Hsmall & Hkind) Hdf.
  rewrite (parse_small_item _ _ Htag Hsmall), Hkind. simpl.
  eexists. split; [reflexivity|].
  rewrite !counters_advance. unfold start_dependent_functions, counters.
  rewrite Hdf. reflexivity.
Qed.

(** Later entry: the counters are walked back to the saved values. *)
Lemma next_start_rewinds (st : parse_state) :
  small_item_at r st 0x06 -> truthy (p_in_df st) = true ->
  exists st1, parse_item r st = Ok st1
    /\ counters st1
       = (p_in_df st, p_mem_range_df st, p_mem_range_32_df st,
          p_mem_range_df st, p_mem_range_32_df st).
Proof.
  intros (tag & Htag & Hsmall & Hkind) Hdf.
  rewrite (parse_small_item _ _ Htag Hsmall), Hkind. simpl.
  eexists. split; [reflexivity|].
  rewrite !counters_advance. unfold start_dependent_functions, counters.
  rewrite Hdf. reflexivity.
Qed.

(** The end item clears the flag and nothing else. *)
Lemma end_clears_flag (st st1 : parse_state) :
  small_item_at r st 0x07 -> parse_item r st = Ok st1 ->
  counters st1
  = (0, p_mem_range st, p_mem_range_32 st, p_mem_range_df st, p_mem_range_32_df st).
Proof.
  intros (tag & Htag & Hsmall & Hkind).
  rewrite (parse_small_item _ _ Htag Hsmall), Hkind. simpl.
  by intros [= <-].
Qed.

(** A memory descriptor inside a group moves its own counter by one. *)
Lemma memory_descriptor_counters (res : Z) (st st1 : parse_state) :
  truthy (p_in_df st) = true ->
  0 <= p_mem_range st -> 0 <= p_mem_range_32 st ->
  memory_descriptor r res st = Ok st1 ->
  counters st1
  = (p_in_df st,
     if res =? 0x01 then p_mem_range st + 1 else p_mem_range st,
     if res =? 0x01 then p_mem_range_32 st else p_mem_range_32 st + 1,
     p_mem_range_df st, p_mem_range_32_df st).
Proof.
  intros Hdf Hm Hm32. unfold memory_descriptor. rewrite Hdf.
  destruct (res =? 1).
  - destruct (Z.ltb_spec 3 (p_mem_range st)); simpl; try done.
    destruct (rom_at r (p_i st + 3)); simpl; try done.
    destruct (p_ld st); simpl; try done. intros [= <-].
    unfold counters. simpl. by rewrite u8_succ_small by lia.
  - destruct (Z.ltb_spec 3 (p_mem_range_32 st)); simpl; try done.
    destruct (rom_at r (p_i st + 3)); simpl; try done.
    destruct (p_ld st); simpl; try done. intros [= <-].
    unfold counters. simpl. by rewrite u8_succ_small by lia.
Qed.

(** Anywhere, a memory descriptor leaves the flag alone and the two slot
    counters non-negative. *)
Lemma memory_descriptor_outside (res : Z) (st st1 : parse_state) :
  memory_descriptor r res st = Ok st1 ->
  0 <= p_mem_range st -> 0 <= p_mem_range_32 st ->
  p_in_df st1 = p_in_df st /\ 0 <= p_mem_range st1 /\ 0 <= p_mem_range_32 st1.
Proof.
  unfold memory_descriptor. intros H Hm Hm32.
  destruct (res =? 1).
  - destruct (3 <? p_mem_range st); simpl in H; try done.
    destruct (rom_at r (p_i st + 3)); simpl in H; try done.
    destruct (p_ld st); simpl in H; try done. injection H as <-. simpl.
    split; [done|]. split; [apply u8_nonneg|done].
  - destruct (3 <? p_mem_range_32 st); simpl in H; try done.
    destruct (rom_at r (p_i st + 3)); simpl in H; try done.
    destruct (p_ld st); simpl in H; try done. injection H as <-. simpl.
    split; [done|]. split; [done|apply u8_nonneg].
Qed.

Lemma parse_memory_item (st st1 : parse_state) (kind : Z) :
  kind = 0x01 \/ kind = 0x05 ->
  large_item_at r st kind ->
  parse_item r st = Ok st1 ->
  exists st', memory_descriptor r kind st = Ok st' /\ counters st1 = counters st'.
Proof.
  intros Hkind (tag & Htag & Hlarge & Hk).
  rewrite (parse_large_item _ _ Htag Hlarge), Hk.
  destruct (rom_at r (p_i st + 2)); simpl; try done.
  destruct (rom_at r (p_i st + 1)); simpl; try done.
  replace ((kind =? 1) || (kind =? 5)) with true
    by (destruct Hkind as [-> | ->]; reflexivity).
  destruct (memory_descriptor r kind st) as [st'| |]; simpl; try done.
  intros [= <-]. exists st'. split; [done|]. by rewrite !counters_advance.
Qed.

Lemma parse_plain_item (st st1 : parse_state) :
  plain_item_at r st ->
  parse_item r st = Ok st1 ->
  counters st1 = counters st.
Proof.
  intros (tag & Htag & Hplain).
  destruct (is_large tag) eqn:Hlarge.
  - rewrite (parse_large_item _ _ Htag Hlarge).
    destruct Hplain as [H1%Z.eqb_neq H5%Z.eqb_neq]. rewrite H1, H5. simpl.
    destruct (rom_at r (p_i st + 2)); simpl; try done.
    destruct (rom_at r (p_i st + 1)); simpl; try done.
    by intros [= <-].
  - rewrite (parse_small_item _ _ Htag Hlarge).
    destruct Hplain as (H2%Z.eqb_neq & H6%Z.eqb_neq & H7%Z.eqb_neq).
    rewrite H2, H6, H7. by intros [= <-].
Qed.

(** Outside a group, an item other than a start-dependent-function item
    leaves the parser outside. *)
Lemma outside_step (st st1 : parse_state) :
  counters_at outside st ->
  ~ small_item_at r st 0x06 ->
  parse_item r st = Ok st1 ->
  counters_at outside st1.
Proof.
  intros (Hdf & Hm & Hm32) Hnot Hstep.
  destruct (parse_item_tag _ _ Hstep) as [tag Htag].
  destruct (is_large tag) eqn:Hlarge.
  - rewrite (parse_large_item _ _ Htag Hlarge) in Hstep.
    destruct (rom_at r (p_i st + 2)); simpl in Hstep; try done.
    destruct (rom_at r (p_i st + 1)); simpl in Hstep; try done.
    destruct (_ || _).
    + destruct (memory_descriptor r (large_kind tag) st) as [st'| |] eqn:Hmem;
        simpl in Hstep; try done.
      injection Hstep as <-.
      destruct (memory_descriptor_outside _ _ _ Hmem Hm Hm32) as (H1 & H2 & H3).
      simpl. by rewrite H1.
    + simpl in Hstep. by injection Hstep as <-.
  - rewrite (parse_small_item _ _ Htag Hlarge) in Hstep. injection Hstep as <-.
    destruct (Z.eqb_spec (small_kind tag) 2); [simpl; lia|].
    destruct (Z.eqb_spec (small_kind tag) 6) as [H6|_].
    { exfalso. apply Hnot. by exists tag. }
    destruct (Z.eqb_spec (small_kind tag) 7); simpl; done.
Qed.

(** A logical-device item zeroes the four counters and leaves the flag as
    it is: a group that is open stays open. *)
Lemma logical_device_start_keeps_flag (st : parse_state) :
  counters (logical_device_start st) = (p_in_df st, 0, 0, 0, 0).
Proof. reflexivity. Qed.

Lemma device_start_counters (st st1 : parse_state) :
  small_item_at r st 0x02 -> parse_item r st = Ok st1 ->
  counters st1 = (p_in_df st, 0, 0, 0, 0).
Proof.
  intros (tag & Htag & Hsmall & Hkind).
  rewrite (parse_small_item _ _ Htag Hsmall), Hkind. simpl.
  by intros [= <-].
Qed.

(** One round of the loop takes the counters of one position to those of
    the next. *)
Lemma position_step (pos : position) (st st1 : parse_state) :
  counters_at pos st ->
  parse_item r st = Ok st1 ->
  counters_at (next_position r pos st) st1.
Proof.
  intros Hc Hstep.
  destruct (parse_item_tag _ _ Hstep) as [tag Htag].
  unfold next_position. rewrite Htag.
  destruct pos as [|m m32 a b].
  - (* outside *)
    destruct (is_large tag) eqn:Hlarge.
    { eapply outside_step; [exact Hc| |exact Hstep].
      intros (tag' & Htag' & Hs & _). congruence. }
    destruct (Z.eqb_spec (small_kind tag) 2) as [H2|H2].
    { eapply outside_step; [exact Hc| |exact Hstep].
      intros (tag' & Htag' & _ & Hk). rewrite Htag in Htag'.
      injection Htag' as <-. lia. }
    destruct (Z.eqb_spec (small_kind tag) 6) as [H6|H6].
    + destruct Hc as (Hdf & Hm & Hm32).
      assert (Hitem : small_item_at r st 6) by by exists tag.
      destruct (first_start_snapshots _ Hitem Hdf) as (st' & Hst' & Hc').
      rewrite Hstep in Hst'. injection Hst' as <-.
      simpl. rewrite Hc', !Z.add_0_r. done.
    + assert (Hnot : ~ small_item_at r st 6).
      { intros (tag' & Htag' & _ & Hk). rewrite Htag in Htag'.
        injection Htag' as <-. done. }
      by destruct (small_kind tag =? 7); eapply outside_step.
  - (* inside *)
    destruct Hc as (Hm & Hm32 & Hc).
    unfold counters in Hc. injection Hc as H1 H2 H3 H4 H5.
    destruct (is_large tag) eqn:Hlarge.
    + destruct (Z.eqb_spec (large_kind tag) 1) as [K1|K1];
        [|destruct (Z.eqb_spec (large_kind tag) 5) as [K5|K5]].
      * assert (Hitem : large_item_at r st 1) by by exists tag.
        destruct (parse_memory_item st st1 1 ltac:(by left) Hitem Hstep)
          as (st' & Hmem & Hc').
        rewrite (memory_descriptor_counters _ _ _ ltac:(by rewrite H1)
                   ltac:(lia) ltac:(lia) Hmem) in Hc'.
        simpl in Hc'. simpl. rewrite Hc', H1, H2, H3, H4, H5.
        split; [done|]. split; [done|]. f_equal. f_equal. f_equal. f_equal. lia.
      * assert (Hitem : large_item_at r st 5) by by exists tag.
        destruct (parse_memory_item st st1 5 ltac:(by right) Hitem Hstep)
          as (st' & Hmem & Hc').
        rewrite (memory_descriptor_counters _ _ _ ltac:(by rewrite H1)
                   ltac:(lia) ltac:(lia) Hmem) in Hc'.
        simpl in Hc'. simpl. rewrite Hc', H1, H2, H3, H4, H5.
        split; [done|]. split; [done|]. f_equal. f_equal. f_equal. lia.
      * assert (Hitem : plain_item_at r st).
        { exists tag. split; [done|]. by rewrite Hlarge. }
        simpl. rewrite (parse_plain_item _ _ Hitem Hstep).
        unfold counters. by rewrite H1, H2, H3, H4, H5.
    + destruct (Z.eqb_spec (small_kind tag) 2) as [K2|K2];
        [|destruct (Z.eqb_spec (small_kind tag) 6) as [K6|K6];
          [|destruct (Z.eqb_spec (small_kind tag) 7) as [K7|K7]]].
      * assert (Hitem : small_item_at r st 2) by by exists tag.
        simpl. rewrite (device_start_counters _ _ Hitem Hstep), H1. done.
      * assert (Hitem : small_item_at r st 6) by by exists tag.
        destruct (next_start_rewinds _ Hitem ltac:(by rewrite H1))
          as (st' & Hst' & Hc').
        rewrite Hstep in Hst'. injection Hst' as <-.
        simpl. rewrite Hc', H1, H4, H5, !Z.add_0_r. done.
      * assert (Hitem : small_item_at r st 7) by by exists tag.
        pose proof (end_clears_flag _ _ Hitem Hstep) as Hc'.
        unfold counters in Hc'. injection Hc' as E1 E2 E3 E4 E5.
        simpl. rewrite E1, E2, E3, H2, H3. lia.
      * assert (Hitem : plain_item_at r st).
        { exists tag. split; [done|]. by rewrite Hlarge. }
        simpl. rewrite (parse_plain_item _ _ Hitem Hstep).
        unfold counters. by rewrite H1, H2, H3, H4, H5.
Qed.

(** The counters are what the position says, all along the stream. *)
Lemma parser_at_counters (pos : position) (st : parse_state) :
  parser_at r pos st -> counters_at pos st.
Proof.
  induction 1 as [|pos st st1 _ IH Hstep]; [simpl; done|].
  by eapply position_step.
Qed.

(** Every state the loop goes on to is at some position. *)
Lemma parse_rom_parser_at (fuel : nat) (n : Z) (pos : position)
    (st st' : parse_state) :
  parser_at r pos st ->
  parse_rom fuel r n st = Some (Ok st') ->
  exists pos', parser_at r pos' st'.
Proof.
  revert pos st. induction fuel as [|fuel IH]; intros pos st Hat; simpl.
  - destruct (p_i st <? n); [done|]. intros [= <-]. by exists pos.
  - destruct (p_i st <? n); [|intros [= <-]; by exists pos].
    destruct (parse_item r st) as [st1| |] eqn:Hstep; [|done|done].
    apply (IH (next_position r pos st) st1). by apply at_step.
Qed.

(** The position after an item of each kind. *)
Lemma next_position_small (pos : position) (st : parse_state) (kind : Z) :
  small_item_at r st kind ->
  next_position r pos st
  = if kind =? 0x02 then
      match pos with outside => outside | inside _ _ _ _ => inside 0 0 0 0 end
    else if kind =? 0x06 then
      match pos with
      | outside => inside (p_mem_range st) (p_mem_range_32 st) 0 0
      | inside m m32 _ _ => inside m m32 0 0
      end
    else if kind =? 0x07 then outside
    else pos.
Proof.
  intros (tag & Htag & Hsmall & Hkind). unfold next_position.
  by rewrite Htag, Hsmall, Hkind.
Qed.

Lemma next_position_large (pos : position) (st : parse_state) (kind : Z) :
  large_item_at r st kind ->
  next_position r pos st
  = match pos with
    | outside => outside
    | inside m m32 a b =>
        if kind =? 0x01 then inside m m32 (S a) b
        else if kind =? 0x05 then inside m m32 a (S b)
        else pos
    end.
Proof.
  intros (tag & Htag & Hlarge & Hkind). unfold next_position.
  by rewrite Htag, Hlarge, Hkind.
Qed.

(** *** The mask bit a memory descriptor decides *)

Lemma land_pow2 (x k : Z) :
  0 <= k -> Z.land x (2 ^ k) = if Z.testbit x k then 2 ^ k else 0.
Proof.
  intros Hk. apply Z.bits_inj'. intros n Hn.
  rewrite Z.land_spec, Z.pow2_bits_eqb by done.
  destruct (Z.eqb_spec k n) as [->|Hne].
  - destruct (Z.testbit x n); [|by rewrite Z.bits_0].
    by rewrite Z.pow2_bits_eqb, Z.eqb_refl.
  - rewrite andb_false_r.
    destruct (Z.testbit x k); [|by rewrite Z.bits_0].
    rewrite Z.pow2_bits_eqb by done. symmetry. by apply Z.eqb_neq.
Qed.

Lemma truthy_land_pow2 (x k : Z) :
  0 <= k -> truthy (Z.land x (2 ^ k)) = Z.testbit x k.
Proof.
  intros Hk. rewrite land_pow2 by done. unfold truthy.
  destruct (Z.testbit x k); [|done].
  assert (0 < 2 ^ k) by (apply Z.pow_pos_nonneg; lia).
  apply negb_true_iff, Z.eqb_neq. lia.
Qed.

Lemma mask_bit (ul flags slot n : Z) :
  0 <= slot <= 7 -> 0 <= n ->
  Z.testbit
    (if truthy (Z.land flags 0x4)
     then Z.lor ul (u8 (Z.shiftl 1 slot))
     else Z.land ul (Z.lnot (u8 (Z.shiftl 1 slot)))) n
  = if n =? slot then Z.testbit flags 2 else Z.testbit ul n.
Proof.
  intros Hslot Hn.
  assert (Hpow : u8 (Z.shiftl 1 slot) = 2 ^ slot).
  { rewrite Z.shiftl_mul_pow2, Z.mul_1_l by lia. unfold u8.
    apply Z.mod_small. split; [apply Z.pow_nonneg; lia|].
    apply Z.lt_le_trans with (2 ^ 8); [|done].
    apply Z.pow_lt_mono_r; lia. }
  rewrite Hpow. change 4 with (2 ^ 2). rewrite truthy_land_pow2 by lia.
  destruct (Z.testbit flags 2).
  - rewrite Z.lor_spec, Z.pow2_bits_eqb by lia. rewrite (Z.eqb_sym slot n).
    destruct (n =? slot); [apply orb_true_r|apply orb_false_r].
  - rewrite Z.land_spec, Z.lnot_spec, Z.pow2_bits_eqb by lia.
    rewrite (Z.eqb_sym slot n).
    destruct (n =? slot); [apply andb_false_r|apply andb_true_r].
Qed.

(** A memory descriptor decides the mask bit of the slot its counter names,
    and no other bit. *)
Lemma memory_item_slot (st : parse_state) (kind : Z)
    (ld : isapnp_device_t) (lo hi flags : Z) :
  kind = 0x01 \/ kind = 0x05 ->
  large_item_at r st kind ->
  p_ld st = Some ld ->
  r !! Z.to_nat (p_i st + 1) = Some lo ->
  r !! Z.to_nat (p_i st + 2) = Some hi ->
  r !! Z.to_nat (p_i st + 3) = Some flags ->
  0 <= p_mem_range st -> 0 <= p_mem_range_32 st ->
  (if kind =? 0x01 then p_mem_range st <= 3 else p_mem_range_32 st <= 3) ->
  exists st1 ld1,
    parse_item r st = Ok st1 /\ p_ld st1 = Some ld1
    /\ forall n, 0 <= n ->
         Z.testbit (upperlimit ld1) n
         = if n =? next_slot kind st then Z.testbit flags 2
           else Z.testbit (upperlimit ld) n.
Proof.
  intros Hkind (tag & Htag & Hlarge & Hk) Hld Hlo Hhi Hflags Hm Hm32 Hfree.
  rewrite (parse_large_item _ _ Htag Hlarge), Hk.
  unfold rom_at at 1 2. rewrite Hhi, Hlo. simpl.
  replace ((kind =? 1) || (kind =? 5)) with true
    by (destruct Hkind as [-> | ->]; reflexivity).
  unfold memory_descriptor, rom_at, next_slot. rewrite Hflags, Hld.
  destruct Hkind as [-> | ->]; simpl in *.
  - replace (3 <? p_mem_range st) with false by (symmetry; apply Z.ltb_ge; lia).
    simpl. eexists _, _. split; [reflexivity|]. split; [reflexivity|].
    intros n Hn. simpl. apply mask_bit; lia.
  - replace (3 <? p_mem_range_32 st) with false by (symmetry; apply Z.ltb_ge; lia).
    simpl. eexists _, _. split; [reflexivity|]. split; [reflexivity|].
    intros n Hn. simpl. apply mask_bit; lia.
Qed.

(** C4, as the code has it: a dependent-function group is open from a
    start-dependent-function item met while none is open up to the next
    end-dependent-functions item, and the flag is set exactly while one is
    open.  A start-dependent-function item met while no group is open saves
    the memory and 32-bit memory slot counters and leaves them as they are;
    one met while a group is open sets both counters back to the group's
    restore point.  A logical-device item zeroes the counters and the
    restore point and closes nothing.  Hence, [a] memory and [b] 32-bit
    memory descriptors into any alternative of a group with restore point
    [m] and [m32], the counters are m + a and m32 + b, and the next
    descriptor decides mask bit m + a, or 4 + m32 + b: the bits of the first
    alternative, whichever alternative it is.  This holds at every state of
    every run of the loop: each round is a step from one position to the
    next, and so is every state the loop goes on to. *)
Theorem dependent_functions_share_slots (pos : position) (st : parse_state) :
  parser_at r pos st ->
  (p_in_df st = match pos with outside => 0 | inside _ _ _ _ => 1 end)
  /\ (small_item_at r st 0x06 ->
      exists st1, parse_item r st = Ok st1
        /\ match pos with
           | outside =>
               counters st1 = (1, p_mem_range st, p_mem_range_32 st,
                               p_mem_range st, p_mem_range_32 st)
               /\ parser_at r (inside (p_mem_range st) (p_mem_range_32 st) 0 0) st1
           | inside m m32 _ _ =>
               counters st1 = (1, m, m32, m, m32)
               /\ parser_at r (inside m m32 0 0) st1
           end)
  /\ (forall m m32 a b, pos = inside m m32 a b ->
        counters st = (1, m + Z.of_nat a, m32 + Z.of_nat b, m, m32)
        /\ forall kind ld lo hi flags,
             kind = 0x01 \/ kind = 0x05 ->
             large_item_at r st kind ->
             p_ld st = Some ld ->
             r !! Z.to_nat (p_i st + 1) = Some lo ->
             r !! Z.to_nat (p_i st + 2) = Some hi ->
             r !! Z.to_nat (p_i st + 3) = Some flags ->
             (if kind =? 0x01 then m + Z.of_nat a <= 3
              else m32 + Z.of_nat b <= 3) ->
             exists st1 ld1,
               parse_item r st = Ok st1 /\ p_ld st1 = Some ld1
               /\ parser_at r (if kind =? 0x01 then inside m m32 (S a) b
                               else inside m m32 a (S b)) st1
               /\ forall n, 0 <= n ->
                    Z.testbit (upperlimit ld1) n
                    = if n =? (if kind =? 0x01 then m + Z.of_nat a
                               else 4 + (m32 + Z.of_nat b))
                      then Z.testbit flags 2
                      else Z.testbit (upperlimit ld) n)
  /\ (small_item_at r st 0x07 ->
      exists st1, parse_item r st = Ok st1
        /\ p_in_df st1 = 0 /\ parser_at r outside st1)
  /\ (small_item_at r st 0x02 ->
      exists st1, parse_item r st = Ok st1
        /\ counters st1 = (p_in_df st, 0, 0, 0, 0)
        /\ parser_at r (match pos with
                        | outside => outside
                        | inside _ _ _ _ => inside 0 0 0 0
                        end) st1)
  /\ (forall st1, parse_item r st = Ok st1 ->
        parser_at r (next_position r pos st) st1)
  /\ (forall fuel n st', parse_rom fuel r n st = Some (Ok st') ->
        exists pos', parser_at r pos' st').
Proof.
  intros Hat.
  pose proof (parser_at_counters _ _ Hat) as Hc.
  assert (Hsmall : forall kind, small_item_at r st kind ->
            exists st1, parse_item r st = Ok st1).
  { intros kind (tag & Htag & Hs & _).
    rewrite (parse_small_item _ _ Htag Hs). by eexists. }
  split; [|split; [|split; [|split; [|split; [|split]]]]].
  - destruct pos as [|m m32 a b]; simpl in Hc; [by destruct Hc|].
    destruct Hc as (_ & _ & Hc). unfold counters in Hc. by injection Hc.
  - intros Hitem. destruct (Hsmall _ Hitem) as [st1 Hstep].
    exists st1. split; [done|].
    pose proof (at_step _ _ _ _ Hat Hstep) as Hat1.
    rewrite (next_position_small _ _ _ Hitem) in Hat1. simpl in Hat1.
    destruct pos as [|m m32 a b]; simpl in Hc.
    + destruct Hc as (Hdf & _).
      destruct (first_start_snapshots _ Hitem Hdf) as (st' & Hst' & Hc').
      rewrite Hstep in Hst'. injection Hst' as <-. done.
    + destruct Hc as (_ & _ & Hc). unfold counters in Hc.
      injection Hc as H1 H2 H3 H4 H5.
      destruct (next_start_rewinds _ Hitem ltac:(by rewrite H1))
        as (st' & Hst' & Hc').
      rewrite Hstep in Hst'. injection Hst' as <-.
      split; [|done]. by rewrite Hc', H1, H4, H5.
  - intros m m32 a b ->. simpl in Hc. destruct Hc as (Hm & Hm32 & Hc).
    split; [exact Hc|].
    unfold counters in Hc. injection Hc as H1 H2 H3 H4 H5.
    intros kind ld lo hi flags Hkind Hitem Hld Hlo Hhi Hflags Hfree.
    destruct (memory_item_slot st kind ld lo hi flags)
      as (st1 & ld1 & Hs & Hl & Hbits); try done; try lia.
    { by rewrite H2, H3. }
    exists st1, ld1. split; [done|]. split; [done|]. split.
    + pose proof (at_step _ _ _ _ Hat Hs) as Hat1.
      rewrite (next_position_large _ _ _ Hitem) in Hat1.
      by destruct Hkind as [-> | ->].
    + intros n Hn. rewrite (Hbits n Hn). unfold next_slot. by rewrite H2, H3.
  - intros Hitem. destruct (Hsmall _ Hitem) as [st1 Hstep].
    exists st1. split; [done|].
    pose proof (at_step _ _ _ _ Hat Hstep) as Hat1.
    rewrite (next_position_small _ _ _ Hitem) in Hat1. simpl in Hat1.
    split; [|done].
    pose proof (end_clears_flag _ _ Hitem Hstep) as Hc'.
    unfold counters in Hc'. by injection Hc'.
  - intros Hitem. destruct (Hsmall _ Hitem) as [st1 Hstep].
    exists st1. split; [done|]. split; [by eapply device_start_counters|].
    pose proof (at_step _ _ _ _ Hat Hstep) as Hat1.
    by rewrite (next_position_small _ _ _ Hitem) in Hat1.
  - intros st1 Hstep. by apply at_step.
  - intros fuel n st' Hrun. by eapply parse_rom_parser_at.
Qed.

End parser.

(** The claim as written fails after a group that was left open.  On
    [open_group_rom] the loop, four rounds from the start, stands on the
    start-dependent-function item of the second logical device, the first
    of that device's group, with the memory counter at 1: the device's slot
    0 is taken by the memory range before the group.  The item saves
    nothing and sets the counter back to 0, so the group's memory range
    decides bit 0 of the upper-limit mask, not bit 1, and the card is
    attached with mask 1 on its second device. *)
Lemma open_group_start_rewinds :
  (s1 ← parse_item open_group_rom parse_start;
   s2 ← parse_item open_group_rom s1;
   s3 ← parse_item open_group_rom s2;
   parse_item open_group_rom s3) = Ok (open_group_state 34 1)
  /\ open_group_rom !! 34%nat = Some 0x30
  /\ small_kind 0x30 = 0x06
  /\ counters (open_group_state 34 1) = (1, 1, 0, 0, 0)
  /\ parse_item open_group_rom (open_group_state 34 1)
     = Ok (open_group_state 35 0)
  /\ counters (open_group_state 35 0) = (1, 0, 0, 0, 0)
  /\ (exists st1,
        parse_item open_group_rom (open_group_state 35 0) = Ok st1
        /\ upperlimit <$> p_ld st1 = Some 1)
  /\ exists dev',
       isapnp_add_card 8 open_group_rom 50 false false None false isapnp_init.1
       = Some (Ok (dev', 0%nat))
       /\ (fun card => upperlimit <$> first_ld card) <$> first_card dev'
          = [[0; 1]].
Proof.
  split; [vm_compute; reflexivity|].
  split; [reflexivity|]. split; [reflexivity|]. split; [reflexivity|].
  split; [vm_compute; reflexivity|]. split; [reflexivity|].
  split.
  - eexists. split; [vm_compute; reflexivity|]. reflexivity.
  - eexists. split; [vm_compute; reflexivity|]. vm_compute. reflexivity.
Qed.

(** ** The theorems at work on concrete states *)

(** Every entry of the sample ROM is a byte. *)
Lemma sample_rom_bytes : Forall is_byte sample_rom.
Proof.
  apply (bool_decide_eq_true_1 (Forall is_byte sample_rom)).
  vm_compute. reflexivity.
Defined.

(** The sample logical device is well formed. *)
Lemma window_ld_wf : ld_wf window_ld.
Proof.
  split; [vm_compute; reflexivity|].
  apply (bool_decide_eq_true_1 (Forall is_byte (regs window_ld))).
  vm_compute. reflexivity.
Defined.

(** On a bus with one card, that card is the first in its state. *)
Lemma only_card_first (s : pnp_state) (card : isapnp_card_t) :
  state card = s -> first_in_state s [card] 0 card.
Proof.
  intros Hs. split; [reflexivity|]. split; [exact Hs|].
  intros j c _ Hj. lia.
Defined.

(** Position 2 of the sample identifier (byte 0x04, bit 2) reads 0x55 and
    shifts the checksum 0x6A to 0x35. *)
Lemma serial_isolation_first_half_witness :
  isapnp_read_data (one_card_bus 0x01 0 (sample_card PNP_STATE_ISOLATION 0 2 0) None None)
  = Ok (0x55,
        one_card_bus 0x01 0
          (card_with_serial 0x55 1 3
             (card_with_id_checksum 0x35 (sample_card PNP_STATE_ISOLATION 0 2 0)))
          (Some 0%nat) None).
Proof.
  pose proof (serial_isolation_first_half
                (one_card_bus 0x01 0 (sample_card PNP_STATE_ISOLATION 0 2 0) None None)
                0%nat (sample_card PNP_STATE_ISOLATION 0 2 0)
                eq_refl (only_card_first _ _ eq_refl) eq_refl
                ltac:(simpl; lia) ltac:(unfold is_byte; simpl; lia)
                ltac:(simpl; lia) sample_rom_bytes) as H.
  destruct H as [H _]. vm_compute in H. vm_compute. exact H.
Defined.

(** The sample ROM read at its end and at offset 9. *)
Lemma resource_data_read_witness :
  isapnp_read_data (one_card_bus 0x04 0 (sample_card PNP_STATE_CONFIG 1 0 29) None None)
  = Ok (0xff, one_card_bus 0x04 0 (sample_card PNP_STATE_CONFIG 1 0 29) None None)
  /\ isapnp_read_data (one_card_bus 0x04 0 (sample_card PNP_STATE_CONFIG 1 0 9) None None)
     = Ok (0x15, one_card_bus 0x04 0 (sample_card PNP_STATE_CONFIG 1 0 10) None None).
Proof.
  split.
  - apply (resource_data_read
             (one_card_bus 0x04 0 (sample_card PNP_STATE_CONFIG 1 0 29) None None)
             0%nat (sample_card PNP_STATE_CONFIG 1 0 29)
             eq_refl (only_card_first _ _ eq_refl)
             ltac:(simpl; lia) ltac:(simpl; lia) ltac:(simpl; lia)).
    simpl. lia.
  - destruct (resource_data_read
             (one_card_bus 0x04 0 (sample_card PNP_STATE_CONFIG 1 0 9) None None)
             0%nat (sample_card PNP_STATE_CONFIG 1 0 9)
             eq_refl (only_card_first _ _ eq_refl)
             ltac:(simpl; lia) ltac:(simpl; lia) ltac:(simpl; lia)) as [_ H].
    destruct (H ltac:(simpl; lia)) as (b & Hb & Hread).
    injection Hb as <-. exact Hread.
Defined.

(** The sample ROM gets checksum byte 201 at offset 28. *)
Lemma attach_populates_rom_checksum_witness :
  populate_checksum sample_rom 29 = Ok (<[28%nat := 201]> sample_rom).
Proof.
  destruct (attach_populates_rom_checksum sample_rom 29 ltac:(lia) eq_refl) as [H _].
  exact H.
Defined.

(** A matching key byte, a mismatch at cursor 7, and a write to an unlocked
    bus. *)
Lemma write_addr_follows_first_card_witness :
  isapnp_write_addr 0x6A (one_card_bus 0 0 (sample_card PNP_STATE_WAIT_FOR_KEY 0 0 0) None None)
  = one_card_bus 0 1 (sample_card PNP_STATE_WAIT_FOR_KEY 0 0 0) None None
  /\ isapnp_write_addr 0x6A (one_card_bus 0 7 (sample_card PNP_STATE_WAIT_FOR_KEY 0 0 0) None None)
     = one_card_bus 0 0 (sample_card PNP_STATE_WAIT_FOR_KEY 0 0 0) None None
  /\ isapnp_write_addr 0x6A (one_card_bus 0 0 (sample_card PNP_STATE_SLEEP 0 0 0) None None)
     = one_card_bus 0x6A 0 (sample_card PNP_STATE_SLEEP 0 0 0) None None.
Proof.
  split; [|split].
  - pose proof (write_addr_follows_first_card
                  (one_card_bus 0 0 (sample_card PNP_STATE_WAIT_FOR_KEY 0 0 0) None None)
                  0x6A ltac:(simpl; lia)) as H.
    simpl in H. destruct H as [H _]. destruct (H eq_refl) as (_ & H1 & _).
    apply (H1 eq_refl). lia.
  - pose proof (write_addr_follows_first_card
                  (one_card_bus 0 7 (sample_card PNP_STATE_WAIT_FOR_KEY 0 0 0) None None)
                  0x6A ltac:(simpl; lia)) as H.
    simpl in H. destruct H as [H _]. destruct (H eq_refl) as (H1 & _).
    apply H1. vm_compute. discriminate.
  - pose proof (write_addr_follows_first_card
                  (one_card_bus 0 0 (sample_card PNP_STATE_SLEEP 0 0 0) None None)
                  0x6A ltac:(simpl; lia)) as H.
    simpl in H. destruct H as (_ & H & _). apply H. discriminate.
Defined.

(** Config Control 0x02 on a configured card with the cursor at 5. *)
Lemma config_control_wait_for_key_witness :
  exists dev' evs,
    isapnp_write_data 0x02 (one_card_bus 0x02 5 (sample_card PNP_STATE_CONFIG 1 0 0) None None)
    = Ok (dev', evs)
    /\ state <$> first_card dev' = [PNP_STATE_WAIT_FOR_KEY]
    /\ key_pos dev' = 5.
Proof.
  apply (config_control_wait_for_key
           (one_card_bus 0x02 5 (sample_card PNP_STATE_CONFIG 1 0 0) None None) 0x02
           eq_refl).
  vm_compute. discriminate.
Defined.

(** Set-CSN[1] with the isolating card held, and with a card in ISOLATION
    that no isolation read has selected. *)
Lemma set_csn_isolated_card_only_witness :
  isapnp_write_data 0x01
    (one_card_bus 0x06 0 (sample_card PNP_STATE_ISOLATION 0 0 0) (Some 0%nat) None)
  = Ok (one_card_bus 0x06 0 (sample_card PNP_STATE_CONFIG 1 0 0) None None,
        [ev_csn_changed 0 0x01])
  /\ isapnp_write_data 0x01
       (one_card_bus 0x06 0 (sample_card PNP_STATE_ISOLATION 0 0 0) None None)
     = Ok (one_card_bus 0x06 0 (sample_card PNP_STATE_ISOLATION 0 0 0) None None, []).
Proof.
  split.
  - destruct (set_csn_isolated_card_only
                (one_card_bus 0x06 0 (sample_card PNP_STATE_ISOLATION 0 0 0)
                   (Some 0%nat) None) 0x01 eq_refl) as [H _].
    destruct (H 0%nat (sample_card PNP_STATE_ISOLATION 0 0 0) eq_refl eq_refl)
      as (Hw & _).
    vm_compute in Hw. vm_compute. exact Hw.
  - apply (set_csn_isolated_card_only
             (one_card_bus 0x06 0 (sample_card PNP_STATE_ISOLATION 0 0 0) None None)
             0x01 eq_refl).
    reflexivity.
Defined.

(** Activating the sample device announces activate = 1 and the window
    base 0x1000, size 0x1000. *)
Lemma register_write_signals_config_witness :
  exists dev' cfg,
    isapnp_write_data 0x01
      (one_card_bus 0x30 0 (sample_card PNP_STATE_CONFIG 1 0 0) None (Some (0%nat, 0%nat)))
    = Ok (dev', [ev_config_changed 0 0 cfg])
    /\ activate cfg = 1
    /\ mem cfg !! 0%nat = Some {| base := 0x1000; size_ := 0x1000 |}.
Proof.
  destruct (register_write_signals_config
              (one_card_bus 0x30 0 (sample_card PNP_STATE_CONFIG 1 0 0) None
                 (Some (0%nat, 0%nat)))
              0x01 (0%nat, 0%nat) (sample_card PNP_STATE_CONFIG 1 0 0) window_ld
              eq_refl eq_refl (or_introl eq_refl)) as [Hplain _].
  destruct Hplain as (_ & H & _); [simpl; lia|].
  destruct (H eq_refl) as (dev' & Hw & _).
  exists dev'. eexists. split; [exact Hw|].
  split; vm_compute; reflexivity.
Defined.

(** Base 0x001000 and flagged second field 0x002000 translate to base
    0x1000, size 0x1000. *)
Lemma upper_limit_conversion_witness :
  mem (device_config window_ld) !! 0%nat
  = Some {| base := 0x1000; size_ := 0x1000 |}.
Proof.
  destruct (upper_limit_conversion window_ld 0 window_ld_wf ltac:(lia)) as [H _].
  destruct (H eq_refl) as (_ & _ & Hexample).
  apply Hexample; reflexivity.
Defined.

(** Writing 0xFE to register 0x42, which holds 0x01, stores 0xFF. *)
Lemma upper_limit_bit_is_read_only_witness :
  exists dev' evs card' ld',
    isapnp_write_data 0xFE
      (one_card_bus 0x42 0 (sample_card PNP_STATE_CONFIG 1 0 0) None (Some (0%nat, 0%nat)))
    = Ok (dev', evs)
    /\ deref_ld dev' (0%nat, 0%nat) = Ok (card', ld')
    /\ reg_get (regs ld') 0x42 = 0xFF
    /\ Z.testbit (reg_get (regs ld') 0x42) 0 = true.
Proof.
  destruct (upper_limit_bit_is_read_only
              (one_card_bus 0x42 0 (sample_card PNP_STATE_CONFIG 1 0 0) None
                 (Some (0%nat, 0%nat)))
              0xFE (0%nat, 0%nat) (sample_card PNP_STATE_CONFIG 1 0 0) window_ld
              eq_refl eq_refl eq_refl eq_refl)
    as ((dev' & evs & card' & ld' & Hw & Hd & Hv & Hb & _) & _).
  exists dev', evs, card', ld'.
  split; [exact Hw|]. split; [exact Hd|].
  split; [exact Hv|exact Hb].
Defined.

(** The parser on [df_rom] right after the second start-dependent-function
    item: the start of an alternative of a group entered with both counters
    at 0. *)
Lemma df_rom_group :
  parser_at df_rom (inside 0 0 0 0) (df_state 29 1 0 1).
Proof.
  apply (at_step df_rom (inside 0 0 1 0) (df_state 28 1 1 1));
    [|vm_compute; reflexivity].
  apply (at_step df_rom (inside 0 0 0 0) (df_state 16 1 0 0));
    [|vm_compute; reflexivity].
  apply (at_step df_rom outside (df_state 15 0 0 0));
    [|vm_compute; reflexivity].
  apply (at_step df_rom outside parse_start); [|vm_compute; reflexivity].
  apply at_start.
Defined.

(** The descriptor of the second alternative decides mask bit 0, the bit the
    first alternative's descriptor had set. *)
Lemma dependent_functions_share_slots_witness :
  upperlimit <$> p_ld (df_state 29 1 0 1) = Some 1
  /\ exists st1 ld1,
       parse_item df_rom (df_state 29 1 0 1) = Ok st1
       /\ p_ld st1 = Some ld1
       /\ Z.testbit (upperlimit ld1) 0 = false.
Proof.
  split; [reflexivity|].
  destruct (dependent_functions_share_slots df_rom (inside 0 0 0 0)
              (df_state 29 1 0 1) df_rom_group)
    as (_ & _ & Hslot & _).
  destruct (Hslot 0 0 0%nat 0%nat eq_refl) as [_ Hslot'].
  destruct (Hslot' 0x01 (ld_with_upperlimit 1 (new_ld 0)) 0x09 0x00 0x00
              (or_introl eq_refl))
    as (st1 & ld1 & Hstep & Hld & _ & Hbits).
  - exists 0x81. split; [reflexivity|]. split; reflexivity.
  - reflexivity.
  - reflexivity.
  - reflexivity.
  - reflexivity.
  - simpl. lia.
  - exists st1, ld1. split; [exact Hstep|]. split; [exact Hld|].
    rewrite (Hbits 0 ltac:(lia)). reflexivity.
Defined.

(** * Further properties *)

(** ** The relocatable read-data port *)

Lemma rd_data_address (val : Z) : 0 <= val -> Z.lor (Z.shiftl val 2) 3 = 4 * val + 3.
Proof.
  intros Hv. rewrite Z.shiftl_mul_pow2 by lia.
  rewrite (lor_pow2_add 2) by lia. lia.
Qed.

(** X1: Set RD_DATA Port with byte [val] moves the read-data port to
    4 * val + 3 when val >= 0x80 and switches it off otherwise; the handler
    of the old port, if one was live, is removed first, and nothing else of
    the controller changes. *)
Theorem set_rd_data_port (dev : isapnp_t) (val : Z) :
  reg dev = 0x00 ->
  is_byte val ->
  let addr := if 0x80 <=? val then 4 * val + 3 else 0 in
  isapnp_write_data val dev
  = Ok (dev_with_read_data_addr addr dev,
        (if read_data_addr dev =? 0 then []
         else [ev_io_removehandler (read_data_addr dev) h_read_data])
        ++ (if 0x80 <=? val then [ev_io_sethandler (4 * val + 3) h_read_data]
            else []))
  /\ (addr = 0 \/ 0x203 <= addr <= 0x3ff).
Proof.
  intros Hreg Hval addr. unfold is_byte in Hval.
  unfold isapnp_write_data. rewrite Hreg. simpl.
  unfold isapnp_set_read_data, truthy. rewrite rd_data_address by lia.
  subst addr. split.
  - destruct (Z.leb_spec 0x80 val).
    + replace ((0x203 <=? 4 * val + 3) && (4 * val + 3 <=? 0x3ff)) with true
        by (symmetry; apply andb_true_intro; split; apply Z.leb_le; lia).
      destruct dev as [r k a cs iso cur]; simpl in *.
      by destruct (a =? 0).
    + replace ((0x203 <=? 4 * val + 3) && (4 * val + 3 <=? 0x3ff)) with false
        by (symmetry; apply andb_false_intro1; apply Z.leb_gt; lia).
      destruct dev as [r k a cs iso cur]; simpl in *.
      destruct (Z.eqb_spec a 0) as [->|E]; done.
  - destruct (Z.leb_spec 0x80 val); [right; lia|by left].
Qed.

(** ** Wake *)

(** X2: after Wake[val] every card that is not asleep carries CSN [val]; a
    card with that CSN has its ROM cursor at 0 and its checksum register at
    0x6A, and leaves SLEEP for ISOLATION (val = 0) or CONFIG; every other
    card is put to SLEEP, whatever state it was in; no CSN changes and no
    callback is called. *)
Theorem wake_selects_by_csn (dev : isapnp_t) (val : Z) :
  reg dev = 0x03 ->
  exists dev',
    isapnp_write_data val dev = Ok (dev', [])
    /\ csn <$> first_card dev' = csn <$> first_card dev
    /\ (forall c', c' ∈ first_card dev' ->
          state c' <> PNP_STATE_SLEEP -> csn c' = val)
    /\ (forall (i : nat) c, first_card dev !! i = Some c ->
          exists c', first_card dev' !! i = Some c'
            /\ (csn c <> val -> state c' = PNP_STATE_SLEEP)
            /\ (csn c = val ->
                rom_pos c' = 0 /\ id_checksum c' = 0x6A
                /\ state c'
                   = if decide (state c = PNP_STATE_SLEEP)
                     then (if val =? 0 then PNP_STATE_ISOLATION else PNP_STATE_CONFIG)
                     else state c)).
Proof.
  intros Hreg. unfold isapnp_write_data. rewrite Hreg. simpl.
  eexists. split; [reflexivity|]. simpl. split; [|split].
  - rewrite <- list_fmap_compose. apply list_fmap_ext. intros i c _. simpl.
    unfold wake_card. destruct (csn c =? val); [|done]. by destruct (decide _).
  - intros c' (c & -> & Hin)%list_elem_of_fmap. unfold wake_card.
    destruct (Z.eqb_spec (csn c) val) as [E|E]; [|done].
    intros _. by destruct (decide _).
  - intros i c Hi. exists (wake_card val c).
    split; [by rewrite list_lookup_fmap, Hi|]. unfold wake_card. split.
    + intros Hne. by apply Z.eqb_neq in Hne as ->.
    + intros ->. rewrite Z.eqb_refl. by destruct (decide _).
Qed.

(** ** Select-Logical-Device *)

(** X3: with register 0x07 selected and a card in CONFIG, writing a number
    that one of the card's logical devices carries addresses the first such
    device in list order, and the Logical Device Number register then reads
    back that number; writing a number none of them carries is fatal.  Without a card
    in CONFIG the write does nothing. *)
Theorem select_logical_device (dev : isapnp_t) (val : Z) :
  reg dev = 0x07 ->
  (forall ci card,
      first_in_state PNP_STATE_CONFIG (first_card dev) ci card ->
      ((exists ld, ld ∈ first_ld card /\ number ld = val) ->
       exists li ld,
         first_ld card !! li = Some ld /\ number ld = val
         /\ (forall j ld', (j < li)%nat -> first_ld card !! j = Some ld' ->
                           number ld' <> val)
         /\ isapnp_write_data val dev
            = Ok (dev_with_current_ld (Some (ci, li)) dev, [])
         /\ isapnp_read_data (dev_with_current_ld (Some (ci, li)) dev)
            = Ok (val, dev_with_current_ld (Some (ci, li)) dev))
      /\ ((forall ld, ld ∈ first_ld card -> number ld <> val) ->
          isapnp_write_data val dev = Fatal))
  /\ ((forall c, c ∈ first_card dev -> state c <> PNP_STATE_CONFIG) ->
      isapnp_write_data val dev = Ok (dev, [])).
Proof.
  intros Hreg. split.
  - intros ci card Hfirst. pose proof (find_card_first _ _ _ _ Hfirst) as Hfind.
    destruct Hfirst as (Hcard & _ & _). split.
    + intros (ld0 & Hin & Hnum).
      destruct (list_find_elem_of (fun ld => number ld = val) (first_ld card) ld0 Hin Hnum)
        as [[li ld] Hlf].
      pose proof Hlf as (Hli & Hval & Hbefore)%list_find_Some.
      exists li, ld. split; [done|]. split; [done|].
      split; [intros j ld' Hj Hl; by apply (Hbefore j)|]. split.
      * unfold isapnp_write_data. rewrite Hreg. simpl. by rewrite Hfind, Hlf.
      * unfold isapnp_read_data. simpl. rewrite Hreg. simpl.
        unfold deref_ld. simpl. rewrite Hcard, Hli. simpl. by rewrite Hval.
    + intros Hnone. unfold isapnp_write_data. rewrite Hreg. simpl. rewrite Hfind.
      replace (list_find (fun ld => number ld = val) (first_ld card)) with
        (@None (nat * isapnp_device_t)); [done|].
      symmetry. apply list_find_None, Forall_forall. exact Hnone.
  - intros Hnone. unfold isapnp_write_data. rewrite Hreg. simpl.
    unfold find_card.
    replace (list_find (fun c => state c = PNP_STATE_CONFIG) (first_card dev)) with
      (@None (nat * isapnp_card_t)); [done|].
    symmetry. apply list_find_None, Forall_forall. exact Hnone.
Qed.

(** ** Registers of the addressed logical device *)

Lemma read_plain_register (dev : isapnp_t) p card ld :
  current_ld dev = Some p ->
  deref_ld dev p = Ok (card, ld) ->
  is_plain_reg (reg dev) \/ 0x32 <= reg dev <= 0x37 ->
  isapnp_read_data dev = Ok (reg_get (regs ld) (reg dev), dev).
Proof.
  intros Hcur Hderef Hr. unfold isapnp_read_data, is_card_vendor_reg, is_ld_vendor_reg.
  assert (Hcases : (0x30 <= reg dev <= 0x37)
                   \/ (0x40 <= reg dev < 0xf0) \/ 0xfe < reg dev).
  { destruct Hr as [[->| [->|[H1 H2]]]|H]; lia. }
  destruct Hcases as [H|[H|H]]; decide_cmp; simpl; by rewrite Hcur, Hderef.
Qed.

(** X4: with a logical device addressed, a data-port write to register
    0x30, 0x31 or a register from 0x40 up outside the vendor range is read
    back by the next read-data access as the byte the code keeps: val & 1
    for 0x30, val & 3 for 0x31, the value with the old low bit for the
    upper-limit registers, and the value itself otherwise.  A write to
    0x32..0x37 is dropped: the controller is unchanged and nothing is
    called. *)
Theorem register_write_read_back (dev : isapnp_t) (val : Z)
    (p : nat * nat) (card : isapnp_card_t) (ld : isapnp_device_t) :
  current_ld dev = Some p ->
  deref_ld dev p = Ok (card, ld) ->
  length (regs ld) = 256%nat ->
  (is_plain_reg (reg dev) ->
   exists dev' evs,
     isapnp_write_data val dev = Ok (dev', evs)
     /\ isapnp_read_data dev'
        = Ok (kept_byte (reg dev) val (reg_get (regs ld) (reg dev)), dev'))
  /\ (0x32 <= reg dev <= 0x37 ->
      isapnp_write_data val dev = Ok (dev, [])
      /\ isapnp_read_data dev = Ok (reg_get (regs ld) (reg dev), dev)).
Proof.
  intros Hcur Hderef Hlen. split.
  - intros Hplain.
    assert (Hrange : 0 <= reg dev < 256) by (destruct Hplain as [->|[->|[? _]]]; lia).
    assert (Hw : exists card',
               first_ld card' = first_ld card
               /\ exists evs,
                 isapnp_write_data val dev
                 = Ok (store_ld p card'
                         (ld_with_regs
                            (reg_set (regs ld) (reg dev)
                               (kept_byte (reg dev) val (reg_get (regs ld) (reg dev)))) ld)
                         dev, evs)).
    { destruct (Z.eq_dec (reg dev) 0x31) as [E31|E31].
      - exists card. split; [done|]. eexists.
        unfold isapnp_write_data, kept_byte. rewrite E31. simpl.
        rewrite Hcur, Hderef. simpl. reflexivity.
      - assert (Hst : reg dev = 0x30 \/ (0x40 <= reg dev /\ ~ (0xf0 <= reg dev <= 0xfe)))
          by (destruct Hplain as [->|[?|[? ?]]]; [by left|done|right; lia]).
        pose proof (stored_register_write dev val p card ld Hcur Hderef Hst) as Hsw.
        simpl in Hsw. unfold ld_after_write, written_byte in Hsw.
        assert (Hk : kept_byte (reg dev) val (reg_get (regs ld) (reg dev))
                     = if reg dev =? 48 then Z.land val 1
                       else stored_value (reg dev) val (reg_get (regs ld) (reg dev))).
        { unfold kept_byte. destruct (reg dev =? 48); [done|].
          by apply Z.eqb_neq in E31 as ->. }
        rewrite Hk. destruct (config_changed card).
        + eexists. split; [|eexists; exact Hsw]. done.
        + eexists. split; [|eexists; exact Hsw]. done. }
    destruct Hw as (card' & Hsame & evs & Hw).
    eexists _, evs. split; [exact Hw|].
    match goal with |- isapnp_read_data ?d = _ => set (dev' := d) end.
    assert (Hcur' : current_ld dev' = Some p) by exact Hcur.
    pose proof (deref_ld_store dev p card card' ld _ Hderef Hsame : deref_ld dev' p = _)
      as Hderef'.
    rewrite (read_plain_register dev' p _ _ Hcur' Hderef' (or_introl Hplain)).
    simpl. rewrite reg_get_set_eq by lia. done.
  - intros Hr. split.
    + unfold isapnp_write_data, is_card_vendor_reg, is_ld_vendor_reg. by decide_cmp.
    + apply (read_plain_register _ p card); [done|done|by right].
Qed.

(** ** Reads that only look *)

(** X5: a read-data access with a register index other than 0x01 (Serial
    Isolation) and 0x04 (Resource Data) leaves the controller exactly as it
    was. *)
Theorem read_data_only_looks (dev dev' : isapnp_t) (v : Z) :
  reg dev <> 0x01 ->
  reg dev <> 0x04 ->
  isapnp_read_data dev = Ok (v, dev') ->
  dev' = dev.
Proof.
  intros H1 H4. unfold isapnp_read_data.
  apply Z.eqb_neq in H1 as ->. apply Z.eqb_neq in H4 as ->.
  destruct (reg dev =? 5).
  { destruct (find_card _ _); by intros [= _ <-]. }
  destruct (reg dev =? 6).
  { destruct (find_card _ _) as [[ci card]|]; by intros [= _ <-]. }
  destruct (reg dev =? 7).
  { destruct (current_ld dev) as [p|]; [|by intros [= _ <-]].
    destruct (deref_ld dev p); [|done|done]. by intros [= _ <-]. }
  destruct (is_card_vendor_reg (reg dev)).
  { destruct (find_card _ _) as [[ci card]|]; [|by intros [= _ <-]].
    destruct (read_vendor_reg card); by intros [= _ <-]. }
  destruct (is_ld_vendor_reg (reg dev)).
  { destruct (current_ld dev) as [p|]; [|by intros [= _ <-]].
    destruct (deref_ld dev p) as [[card ld]| |]; [|done|done]. simpl.
    destruct (read_vendor_reg card); by intros [= _ <-]. }
  destruct (0x30 <=? reg dev); [|by intros [= _ <-]].
  destruct (current_ld dev) as [p|]; [|by intros [= _ <-]].
  destruct (deref_ld dev p); [|done|done]. by intros [= _ <-].
Qed.

(** ** Config Control, bit 2 *)

Lemma reset_csns_calls (ci : nat) (cs : list isapnp_card_t) :
  (reset_csns ci cs).2
  = concat (imap (fun i c => if csn_changed c then [ev_csn_changed (ci + i) 0] else []) cs).
Proof.
  revert ci. induction cs as [|c cs IH]; intros ci; simpl; [done|].
  rewrite IH, Nat.add_0_r. f_equal. f_equal.
  apply imap_ext. intros i x _. simpl. by rewrite Nat.add_succ_r.
Qed.

Lemma reset_csns_cards (ci : nat) (cs : list isapnp_card_t) :
  (reset_csns ci cs).1 = card_with_csn 0 <$> cs.
Proof.
  revert ci. induction cs as [|c cs IH]; intros ci; simpl; [done|].
  by rewrite IH.
Qed.

Lemma csn_reset_calls_flags (cs cs' : list isapnp_card_t) :
  csn_changed <$> cs' = csn_changed <$> cs ->
  csn_reset_calls cs' = csn_reset_calls cs.
Proof.
  unfold csn_reset_calls. intros H.
  assert (Himap : forall l : list isapnp_card_t,
             imap (fun i c => if csn_changed c then [ev_csn_changed i 0] else []) l
             = imap (fun i (b : bool) => if b then [ev_csn_changed i 0] else [])
                 (csn_changed <$> l)).
  { intros l. by rewrite imap_fmap. }
  by rewrite !Himap, H.
Qed.

Lemma reset_lds_csn_changed ci card lds :
  csn_changed (reset_lds ci card lds).1.1 = csn_changed card.
Proof.
  revert card. induction lds as [|ld lds IH]; intros card; simpl; [done|].
  rewrite IH. unfold isapnp_device_config_changed.
  by destruct (config_changed card).
Qed.

Lemma reset_cards_csn_changed (ci : nat) (cs : list isapnp_card_t) :
  csn_changed <$> (reset_cards ci cs).1 = csn_changed <$> cs.
Proof.
  revert ci. induction cs as [|c cs IH]; intros ci; simpl; [done|].
  by rewrite IH, reset_lds_csn_changed.
Qed.

(** X6: a Config-Control command with bit 2 set leaves every card with CSN
    0, and its last calls are the CSN-changed callbacks of the cards that
    registered one: once each, with CSN 0, in the order of the cards.  When
    bit 0 is clear these are all the calls it makes. *)
Theorem config_control_resets_csns (dev : isapnp_t) (val : Z) :
  reg dev = 0x02 ->
  Z.land val 0x04 <> 0 ->
  exists dev' evs0,
    isapnp_write_data val dev = Ok (dev', evs0 ++ csn_reset_calls (first_card dev))
    /\ csn <$> first_card dev' = (fun _ => 0) <$> first_card dev
    /\ (Z.land val 0x01 = 0 -> evs0 = []).
Proof.
  intros Hreg Hbit. unfold isapnp_write_data. rewrite Hreg. simpl.
  unfold config_control. rewrite (truthy_true _ Hbit).
  set (s1 := if truthy (Z.land val 1) then _ else _).
  set (s2 := if truthy (Z.land val 2) then _ else _).
  assert (H1 : csn_changed <$> first_card s1.1 = csn_changed <$> first_card dev
               /\ length (first_card s1.1) = length (first_card dev)).
  { subst s1. destruct (truthy (Z.land val 1)); [|done]. simpl.
    rewrite reset_cards_csn_changed, reset_cards_length.
    unfold isapnp_set_read_data. by destruct (truthy (read_data_addr dev)). }
  assert (H2 : csn_changed <$> first_card s2 = csn_changed <$> first_card dev
               /\ length (first_card s2) = length (first_card dev)).
  { subst s2. destruct (truthy (Z.land val 2)); [|done]. simpl.
    rewrite length_fmap, <- list_fmap_compose. done. }
  exists (dev_with_first_card (reset_csns 0 (first_card s2)).1 s2), s1.2.
  split; [|split].
  - rewrite reset_csns_calls. simpl. f_equal. f_equal. f_equal.
    apply (csn_reset_calls_flags (first_card dev) (first_card s2)), H2.
  - simpl. rewrite reset_csns_cards, <- list_fmap_compose.
    rewrite !(const_fmap _ _ 0) by done. by rewrite (proj2 H2).
  - intros H0. subst s1. unfold truthy. by rewrite H0.
Qed.

(** ** Reset *)

Lemma lookup_repeat {A : Type} (x : A) (n i : nat) :
  (i < n)%nat -> repeat x n !! i = Some x.
Proof.
  revert i. induction n as [|n IH]; intros i Hi; [lia|].
  destruct i as [|i]; [done|]. simpl. apply IH. lia.
Qed.

(** A register after a series of stores: the last store to it, if any. *)
Lemma reg_get_stores (l : list (Z * Z)) (rs : list Z) (r : Z) :
  0 <= r ->
  Forall (fun s => 0 <= s.1 /\ (Z.to_nat s.1 < length rs)%nat) l ->
  reg_get (fold_left (fun acc s => reg_set acc s.1 s.2) l rs) r
  = fold_left (fun acc s => if s.1 =? r then s.2 else acc) l (reg_get rs r).
Proof.
  intros Hr Hl. revert rs Hl. induction l as [|[a v] l IH]; intros rs Hl; [done|].
  apply Forall_cons in Hl as [[Ha Hlen] Hl]. simpl in Ha, Hlen. simpl.
  rewrite IH.
  - f_equal. destruct (Z.eqb_spec a r) as [-> |Hne].
    + by apply reg_get_set_eq.
    + apply reg_get_set_ne. lia.
  - eapply Forall_impl; [exact Hl|]. intros s [? ?]. by rewrite reg_set_length.
Qed.

(** [isapnp_reset_ld_regs] as a series of stores on the zeroed array: each
    flag register is still zero when its flag is or-ed in. *)
Lemma reset_regs_stores (ld : isapnp_device_t) :
  let flag i := notnot (Z.land (upperlimit ld) (Z.shiftl 1 i)) in
  regs (isapnp_reset_ld_regs ld)
  = fold_left (fun acc s => reg_set acc s.1 s.2)
      [ (0x75, ISAPNP_DMA_DISABLED); (0x74, ISAPNP_DMA_DISABLED);
        (0x42, flag 0); (0x4a, flag 1); (0x52, flag 2); (0x5a, flag 3);
        (0x7a, flag 4); (0x94, flag 5); (0xa4, flag 6); (0xb4, flag 7) ]
      (repeat 0 256).
Proof.
  intros flag.
  assert (Hstore : forall (l : list (Z * Z)) r f,
             0 <= r < 256 ->
             Forall (fun s => 0 <= s.1 < 256 /\ s.1 <> r) l ->
             let rs := fold_left (fun acc s => reg_set acc s.1 s.2) l (repeat 0 256) in
             reg_set rs r (Z.lor (reg_get rs r) f)
             = fold_left (fun acc s => reg_set acc s.1 s.2) (l ++ [(r, f)]) (repeat 0 256)).
  { intros l r f Hr Hl rs. rewrite fold_left_app. simpl. fold rs. f_equal.
    subst rs. rewrite reg_get_stores; [|lia|].
    - replace (reg_get (repeat 0 256) r) with 0.
      + induction Hl as [|[a v] l [_ Hne] _ IH] using Forall_ind; [done|].
        simpl in *. by apply Z.eqb_neq in Hne as ->.
      + unfold reg_get. symmetry. apply list_lookup_total_correct.
        apply lookup_repeat. lia.
    - eapply Forall_impl; [exact Hl|]. intros s [? _].
      rewrite repeat_length. lia. }
  unfold isapnp_reset_ld_regs. cbn [regs ld_with_regs fold_left].
  change (4 + 1) with 5. change (4 + 2) with 6. change (4 + 3) with 7.
  change (0x42 + 8 * 0) with 0x42. change (0x42 + 8 * 1) with 0x4a.
  change (0x42 + 8 * 2) with 0x52. change (0x42 + 8 * 3) with 0x5a.
  change (0x84 + 16 * 1) with 0x94. change (0x84 + 16 * 2) with 0xa4.
  change (0x84 + 16 * 3) with 0xb4.
  fold (flag 0) (flag 1) (flag 2) (flag 3) (flag 4) (flag 5) (flag 6) (flag 7).
  generalize (flag 0), (flag 1), (flag 2), (flag 3), (flag 4), (flag 5), (flag 6), (flag 7).
  intros f0 f1 f2 f3 f4 f5 f6 f7.
  change (reg_set (reg_set (repeat 0 256) 0x75 ISAPNP_DMA_DISABLED) 0x74 ISAPNP_DMA_DISABLED)
    with (fold_left (fun acc s => reg_set acc s.1 s.2)
            [(0x75, ISAPNP_DMA_DISABLED); (0x74, ISAPNP_DMA_DISABLED)] (repeat 0 256)).
  repeat (rewrite Hstore;
          [cbn [app]
          |lia
          |repeat (apply Forall_cons; split; [simpl; lia|]); apply Forall_nil_2]).
  reflexivity.
Qed.

Lemma reg_get_zeros (r : Z) : 0 <= r < 256 -> reg_get (repeat 0 256) r = 0.
Proof.
  intros Hr. unfold reg_get. apply list_lookup_total_correct.
  apply lookup_repeat. lia.
Qed.

Lemma reset_reg_get (ld : isapnp_device_t) (r : Z) :
  0 <= r < 256 ->
  let flag i := notnot (Z.land (upperlimit ld) (Z.shiftl 1 i)) in
  reg_get (regs (isapnp_reset_ld_regs ld)) r
  = fold_left (fun acc (s : Z * Z) => if s.1 =? r then s.2 else acc)
      [ (0x75, ISAPNP_DMA_DISABLED); (0x74, ISAPNP_DMA_DISABLED);
        (0x42, flag 0); (0x4a, flag 1); (0x52, flag 2); (0x5a, flag 3);
        (0x7a, flag 4); (0x94, flag 5); (0xa4, flag 6); (0xb4, flag 7) ]
      0.
Proof.
  intros Hr flag. rewrite reset_regs_stores.
  rewrite reg_get_stores; [by rewrite reg_get_zeros|lia|].
  repeat (apply Forall_cons; split; [simpl; lia|]). apply Forall_nil_2.
Qed.

Lemma if_same {A : Type} (b : bool) (x : A) : (if b then x else x) = x.
Proof. by destruct b. Qed.

Lemma reset_config_mem (ld : isapnp_device_t) (i : Z) :
  0 <= i < 4 ->
  config_mem (regs (isapnp_reset_ld_regs ld)) i = {| base := 0; size_ := 0 |}.
Proof.
  intros Hi. assert (i = 0 \/ i = 1 \/ i = 2 \/ i = 3) as Hc by lia.
  unfold config_mem.
  destruct Hc as [-> |[-> |[-> | ->]]]; rewrite !reset_reg_get by lia;
    cbn; rewrite ?if_same; reflexivity.
Qed.

Lemma reset_config_mem32 (ld : isapnp_device_t) (i : Z) :
  0 <= i < 4 ->
  config_mem32 (regs (isapnp_reset_ld_regs ld)) i = {| base := 0; size_ := 0 |}.
Proof.
  intros Hi. assert (i = 0 \/ i = 1 \/ i = 2 \/ i = 3) as Hc by lia.
  unfold config_mem32.
  destruct Hc as [-> |[-> |[-> | ->]]]; cbn [Z.eqb]; rewrite !reset_reg_get by lia;
    cbn; rewrite ?if_same; reflexivity.
Qed.

Lemma reset_config_io (ld : isapnp_device_t) (i : Z) :
  0 <= i < 8 -> config_io (regs (isapnp_reset_ld_regs ld)) i = 0.
Proof.
  intros Hi. unfold config_io. rewrite !reset_reg_get by lia.
  assert (i = 0 \/ i = 1 \/ i = 2 \/ i = 3 \/ i = 4 \/ i = 5 \/ i = 6 \/ i = 7)
    as Hc by lia.
  destruct Hc as [-> |[-> |[-> |[-> |[-> |[-> |[-> | ->]]]]]]]; reflexivity.
Qed.

Lemma reset_device_config (ld : isapnp_device_t) :
  device_config (isapnp_reset_ld_regs ld) = config_default.
Proof.
  unfold device_config, config_default. cbn [map repeat].
  rewrite !reset_config_mem, !reset_config_mem32, !reset_config_io by lia.
  unfold config_irq, config_dma. rewrite !reset_reg_get by lia.
  reflexivity.
Qed.

Lemma reset_ld_idem (ld : isapnp_device_t) :
  isapnp_reset_ld_regs (isapnp_reset_ld_regs ld) = isapnp_reset_ld_regs ld.
Proof. reflexivity. Qed.

Lemma reset_ld_number (ld : isapnp_device_t) :
  number (isapnp_reset_ld_regs ld) = number ld.
Proof. reflexivity. Qed.

Lemma reset_lds_closed (ci : nat) (card : isapnp_card_t) (lds : list isapnp_device_t) :
  reset_lds ci card lds
  = (match lds with
     | [] => card
     | _ :: _ => if config_changed card then card_with_config config_default card
                 else card
     end,
     isapnp_reset_ld_regs <$> lds,
     if config_changed card
     then (fun ld => ev_config_changed ci (number ld) config_default) <$> lds
     else []).
Proof.
  revert card. induction lds as [|ld lds IH]; intros card.
  - simpl. by destruct (config_changed card).
  - cbn [reset_lds]. rewrite IH. unfold isapnp_device_config_changed.
    rewrite reset_device_config, reset_ld_number.
    destruct (config_changed card) eqn:Hcc; simpl; rewrite ?Hcc.
    + by destruct lds.
    + by destruct lds.
Qed.

Lemma reset_cards_cards (ci : nat) (cs : list isapnp_card_t) :
  (reset_cards ci cs).1 = reset_card <$> cs.
Proof.
  revert ci. induction cs as [|c cs IH]; intros ci; [done|].
  cbn [reset_cards]. rewrite reset_lds_closed. cbn [fst snd fmap list_fmap].
  by rewrite IH.
Qed.

Lemma reset_cards_calls (ci : nat) (cs : list isapnp_card_t) :
  (reset_cards ci cs).2
  = concat (imap (fun i c =>
                    if config_changed c
                    then (fun ld => ev_config_changed (ci + i) (number ld) config_default)
                           <$> first_ld c
                    else []) cs).
Proof.
  revert ci. induction cs as [|c cs IH]; intros ci; [done|].
  cbn [reset_cards]. rewrite reset_lds_closed. cbn [fst snd imap concat].
  rewrite IH, Nat.add_0_r. f_equal. f_equal.
  apply imap_ext. intros i x _. simpl. by rewrite Nat.add_succ_r.
Qed.

Lemma reset_fmap_idem (l : list isapnp_device_t) :
  isapnp_reset_ld_regs <$> (isapnp_reset_ld_regs <$> l) = isapnp_reset_ld_regs <$> l.
Proof. rewrite <- list_fmap_compose. by apply list_fmap_ext. Qed.

Lemma reset_card_idem (c : isapnp_card_t) : reset_card (reset_card c) = reset_card c.
Proof.
  unfold reset_card. destruct c as [s n k sr sp pos r rp rz cfg cc sc rv wv lds].
  cbn [first_ld config_changed card_with_first_ld card_with_config].
  destruct lds as [|ld lds]; [done|].
  destruct cc;
    cbn [fmap list_fmap first_ld config_changed card_with_first_ld card_with_config
         state csn id_checksum serial_read serial_read_pair serial_read_pos rom
         rom_pos rom_size config csn_changed read_vendor_reg write_vendor_reg];
    by rewrite reset_fmap_idem.
Qed.

Lemma reset_calls_shape (cs cs' : list isapnp_card_t) :
  (fun c => (config_changed c, number <$> first_ld c)) <$> cs'
  = (fun c => (config_changed c, number <$> first_ld c)) <$> cs ->
  reset_calls cs' = reset_calls cs.
Proof.
  unfold reset_calls. intros H.
  assert (Himap : forall l : list isapnp_card_t,
             imap (fun ci c =>
                     if config_changed c
                     then (fun ld => ev_config_changed ci (number ld) config_default)
                            <$> first_ld c
                     else []) l
             = imap (fun ci (p : bool * list Z) =>
                       if p.1 then (fun n => ev_config_changed ci n config_default) <$> p.2
                       else [])
                 ((fun c => (config_changed c, number <$> first_ld c)) <$> l)).
  { intros l. rewrite imap_fmap. apply imap_ext. intros i c _. simpl.
    by rewrite <- list_fmap_compose. }
  by rewrite !Himap, H.
Qed.

Lemma fmap_shape {A : Type} (g : isapnp_card_t -> A)
    (f : isapnp_card_t -> isapnp_card_t) (cs : list isapnp_card_t) :
  (forall c, g (f c) = g c) -> g <$> (f <$> cs) = g <$> cs.
Proof. intros H. rewrite <- list_fmap_compose. apply list_fmap_ext. intros i c _. apply H. Qed.

Lemma reset_card_shape (c : isapnp_card_t) :
  (config_changed (reset_card c), number <$> first_ld (reset_card c))
  = (config_changed c, number <$> first_ld c).
Proof.
  unfold reset_card. cbn [first_ld card_with_first_ld config_changed].
  f_equal.
  - destruct (first_ld c); [done|]. by destruct (config_changed c) eqn:Hcc.
  - rewrite <- list_fmap_compose. by apply list_fmap_ext.
Qed.

Lemma reset_card_csn_changed (c : isapnp_card_t) :
  csn_changed (reset_card c) = csn_changed c.
Proof.
  unfold reset_card. cbn [csn_changed card_with_first_ld].
  destruct (first_ld c); [done|]. by destruct (config_changed c).
Qed.

Lemma truthy_land_2 (x : Z) : truthy (Z.land x 0x02) = Z.testbit x 1.
Proof. apply (truthy_land_pow2 x 1). lia. Qed.

Lemma truthy_land_4 (x : Z) : truthy (Z.land x 0x04) = Z.testbit x 2.
Proof. apply (truthy_land_pow2 x 2). lia. Qed.

Lemma truthy_false (x : Z) : truthy x = false -> x = 0.
Proof. unfold truthy. intros H. by apply negb_false_iff, Z.eqb_eq in H. Qed.

(** The three loops of Config Control in closed form. *)
Lemma config_control_closed (val : Z) (dev : isapnp_t) :
  config_control val dev
  = (after_config_control val dev,
     (if Z.testbit val 0 && truthy (read_data_addr dev)
      then [ev_io_removehandler (read_data_addr dev) h_read_data] else [])
     ++ config_control_calls val (first_card dev)).
Proof.
  unfold config_control, after_config_control, config_control_calls.
  rewrite truthy_land_1, truthy_land_2, truthy_land_4.
  destruct dev as [r k a cs iso cur]. cbn [first_card read_data_addr reg key_pos
    isolated_card current_ld].
  destruct (Z.testbit val 0) eqn:H0.
  - unfold isapnp_set_read_data. cbn [andb read_data_addr].
    change ((0x203 <=? 0) && (0 <=? 0x3ff)) with false. cbn iota.
    destruct (truthy a) eqn:Ha.
    + cbn [fst snd first_card dev_with_read_data_addr dev_with_first_card
           dev_with_current_ld dev_with_isolated_card reg key_pos read_data_addr
           isolated_card current_ld].
      rewrite reset_cards_cards, reset_cards_calls.
      destruct (Z.testbit val 1), (Z.testbit val 2);
        cbn [fst snd first_card dev_with_read_data_addr dev_with_first_card
             dev_with_current_ld dev_with_isolated_card reg key_pos read_data_addr
             isolated_card current_ld];
        rewrite ?reset_csns_cards, ?reset_csns_calls, ?app_nil_r, <- ?app_assoc;
        f_equal; f_equal; f_equal;
        apply csn_reset_calls_flags;
        rewrite ?(fmap_shape csn_changed (card_with_state _)) by done;
        apply fmap_shape, reset_card_csn_changed.
    + apply truthy_false in Ha. subst a.
      cbn [fst snd first_card dev_with_read_data_addr dev_with_first_card
           dev_with_current_ld dev_with_isolated_card reg key_pos read_data_addr
           isolated_card current_ld].
      rewrite reset_cards_cards, reset_cards_calls.
      destruct (Z.testbit val 1), (Z.testbit val 2);
        cbn [fst snd first_card dev_with_read_data_addr dev_with_first_card
             dev_with_current_ld dev_with_isolated_card reg key_pos read_data_addr
             isolated_card current_ld app];
        rewrite ?reset_csns_cards, ?reset_csns_calls, ?app_nil_r;
        f_equal; f_equal;
        apply csn_reset_calls_flags;
        rewrite ?(fmap_shape csn_changed (card_with_state _)) by done;
        apply fmap_shape, reset_card_csn_changed.
  - cbn [andb fst snd app].
    destruct (Z.testbit val 1), (Z.testbit val 2);
      cbn [fst snd first_card dev_with_first_card reg key_pos read_data_addr
           isolated_card current_ld app];
      rewrite ?reset_csns_cards, ?reset_csns_calls; try reflexivity;
      f_equal; apply csn_reset_calls_flags; by apply fmap_shape.
Qed.

Lemma notnot_bit (x : Z) : notnot x = 0 \/ notnot x = 1.
Proof. unfold notnot. destruct (truthy x); auto. Qed.

Lemma reset_wf (ld : isapnp_device_t) : ld_wf (isapnp_reset_ld_regs ld).
Proof.
  split; [apply reset_length|].
  apply Forall_lookup. intros i x Hi.
  assert (Hlt : (i < 256)%nat)
    by (apply lookup_lt_Some in Hi; by rewrite reset_length in Hi).
  assert (Hx : x = reg_get (regs (isapnp_reset_ld_regs ld)) (Z.of_nat i)).
  { unfold reg_get. rewrite Nat2Z.id. symmetry.
    by apply list_lookup_total_correct. }
  rewrite Hx, reset_reg_get by lia. cbn [fold_left fst snd].
  unfold ISAPNP_DMA_DISABLED, is_byte.
  repeat match goal with |- context [?a =? ?b] => destruct (a =? b) end;
    try lia;
    match goal with
    | |- context [notnot ?y] => destruct (notnot_bit y) as [-> | ->]; lia
    end.
Qed.

Lemma if_fmap {A : Type} (b : bool) (f : A -> A) (l : list A) :
  (if b then f <$> l else l) = (if b then f else id) <$> l.
Proof. destruct b; [done|]. by rewrite list_fmap_id. Qed.

Lemma reset_card_with_state (s : pnp_state) (c : isapnp_card_t) :
  reset_card (card_with_state s c) = card_with_state s (reset_card c).
Proof.
  unfold reset_card. cbn [first_ld config_changed card_with_state].
  destruct (first_ld c); [reflexivity|]. destruct (config_changed c); reflexivity.
Qed.

Lemma reset_card_with_csn (n : Z) (c : isapnp_card_t) :
  reset_card (card_with_csn n c) = card_with_csn n (reset_card c).
Proof.
  unfold reset_card. cbn [first_ld config_changed card_with_csn].
  destruct (first_ld c); [reflexivity|]. destruct (config_changed c); reflexivity.
Qed.

Lemma config_control_card_idem (b0 b1 b2 : bool) (c : isapnp_card_t) :
  let g c := (if b2 then card_with_csn 0 else id)
               ((if b1 then card_with_state PNP_STATE_WAIT_FOR_KEY else id)
                  ((if b0 then reset_card else id) c)) in
  g (g c) = g c.
Proof.
  intros g. subst g.
  destruct b0, b1, b2; unfold id;
    rewrite ?reset_card_with_csn, ?reset_card_with_state, ?reset_card_idem;
    generalize (reset_card c); intros; reflexivity.
Qed.

Lemma after_config_control_cards (val : Z) (dev : isapnp_t) :
  first_card (after_config_control val dev)
  = (fun c => (if Z.testbit val 2 then card_with_csn 0 else id)
                ((if Z.testbit val 1 then card_with_state PNP_STATE_WAIT_FOR_KEY else id)
                   ((if Z.testbit val 0 then reset_card else id) c)))
      <$> first_card dev.
Proof.
  unfold after_config_control. cbn [first_card].
  rewrite !if_fmap, <- !list_fmap_compose. done.
Qed.

Lemma after_config_control_idem (val : Z) (dev : isapnp_t) :
  after_config_control val (after_config_control val dev)
  = after_config_control val dev.
Proof.
  pose proof (after_config_control_cards val (after_config_control val dev)) as H2.
  pose proof (after_config_control_cards val dev) as H1.
  rewrite H1, <- list_fmap_compose in H2.
  assert (Hcs : first_card (after_config_control val (after_config_control val dev))
                = first_card (after_config_control val dev)).
  { rewrite H2, H1. apply list_fmap_ext. intros i c _.
    apply (config_control_card_idem (Z.testbit val 0) (Z.testbit val 1) (Z.testbit val 2)). }
  unfold after_config_control in *. cbn [first_card] in Hcs.
  cbn [reg key_pos read_data_addr isolated_card current_ld first_card].
  rewrite Hcs. by destruct (Z.testbit val 0).
Qed.

Lemma after_config_control_shape (val : Z) (dev : isapnp_t) :
  (fun c => (config_changed c, number <$> first_ld c))
    <$> first_card (after_config_control val dev)
  = (fun c => (config_changed c, number <$> first_ld c)) <$> first_card dev
  /\ csn_changed <$> first_card (after_config_control val dev)
     = csn_changed <$> first_card dev.
Proof.
  rewrite after_config_control_cards. split.
  - apply fmap_shape. intros c.
    destruct (Z.testbit val 0), (Z.testbit val 1), (Z.testbit val 2);
      cbn [id]; try reflexivity;
      cbn [card_with_csn card_with_state config_changed first_ld];
      apply reset_card_shape.
  - apply fmap_shape. intros c.
    destruct (Z.testbit val 0), (Z.testbit val 1), (Z.testbit val 2);
      cbn [id]; try reflexivity;
      cbn [card_with_csn card_with_state csn_changed];
      apply reset_card_csn_changed.
Qed.

Lemma state_csn_fields (b1 b2 : bool) (x : isapnp_card_t) :
  let y := (if b2 then card_with_csn 0 else id)
             ((if b1 then card_with_state PNP_STATE_WAIT_FOR_KEY else id) x) in
  config y = config x /\ config_changed y = config_changed x
  /\ first_ld y = first_ld x.
Proof. by destruct b1, b2. Qed.

Lemma reset_card_config_changed (c : isapnp_card_t) :
  config_changed (reset_card c) = config_changed c.
Proof.
  unfold reset_card. cbn [card_with_first_ld config_changed].
  destruct (first_ld c); [done|]. by destruct (config_changed c) eqn:Hcc.
Qed.

Lemma reset_card_config (c : isapnp_card_t) :
  config_changed c = true -> first_ld c <> [] ->
  config (reset_card c) = config_default.
Proof.
  intros Hcc Hne. unfold reset_card. cbn [config card_with_first_ld].
  destruct (first_ld c); [done|]. by rewrite Hcc.
Qed.

(** X7: resetting a logical device gives 256 byte registers whose
    translation is the default configuration record (not activated, every
    memory window, I/O base and IRQ zero, both DMA channels disabled),
    whatever the registers held and whatever the parser's mask is;
    resetting once more changes nothing. *)
Theorem reset_gives_default_config (ld : isapnp_device_t) :
  device_config (isapnp_reset_ld_regs ld) = config_default
  /\ ld_wf (isapnp_reset_ld_regs ld)
  /\ isapnp_reset_ld_regs (isapnp_reset_ld_regs ld) = isapnp_reset_ld_regs ld
  /\ forall rs, isapnp_reset_ld_regs (ld_with_regs rs ld) = isapnp_reset_ld_regs ld.
Proof.
  split; [apply reset_device_config|]. split; [apply reset_wf|].
  split; [apply reset_ld_idem|]. intros rs. reflexivity.
Qed.

(** X8: a Config-Control command with bit 0 set removes the read-data
    port, drops the isolated-card and logical-device selections, resets
    the registers of every logical device of every card, and reports the
    default configuration once per logical device, in list order, to each
    card that registered the callback; such a card with at least one
    logical device ends up holding the default record. *)
Theorem reset_command_resets_devices (dev : isapnp_t) (val : Z) :
  reg dev = 0x02 ->
  Z.testbit val 0 = true ->
  exists dev' evs,
    isapnp_write_data val dev = Ok (dev', evs)
    /\ read_data_addr dev' = 0
    /\ isolated_card dev' = None
    /\ current_ld dev' = None
    /\ first_ld <$> first_card dev'
       = (fun c => isapnp_reset_ld_regs <$> first_ld c) <$> first_card dev
    /\ (forall i c', first_card dev' !! i = Some c' ->
          config_changed c' = true -> first_ld c' <> [] ->
          config c' = config_default)
    /\ evs = (if read_data_addr dev =? 0 then []
              else [ev_io_removehandler (read_data_addr dev) h_read_data])
             ++ reset_calls (first_card dev)
             ++ (if Z.testbit val 2 then csn_reset_calls (first_card dev) else []).
Proof.
  intros Hreg H0. unfold isapnp_write_data. rewrite Hreg. cbn [Z.eqb Pos.eqb].
  rewrite config_control_closed. eexists _, _. split; [reflexivity|].
  unfold after_config_control, config_control_calls. rewrite H0.
  cbn [read_data_addr isolated_card current_ld first_card andb].
  split; [done|]. split; [done|]. split; [done|]. split; [|split].
  - rewrite !if_fmap, <- !list_fmap_compose. apply list_fmap_ext. intros i c _.
    by destruct (Z.testbit val 1), (Z.testbit val 2).
  - generalize (Z.testbit val 1), (Z.testbit val 2). intros b1 b2 i c'.
    rewrite !if_fmap, <- !list_fmap_compose, list_lookup_fmap.
    destruct (first_card dev !! i) as [c|]; [|done].
    cbn [fmap option_fmap option_map]. intros [= <-].
    destruct (state_csn_fields b1 b2 (reset_card c))
      as (Hcfg & Hcc & Hlds).
    cbn [compose]. rewrite Hcfg, Hcc, Hlds.
    rewrite reset_card_config_changed.
    intros Hc Hne. apply reset_card_config; [done|].
    intros Hnil. apply Hne. unfold reset_card. cbn [first_ld card_with_first_ld].
    by rewrite Hnil.
  - unfold truthy. by destruct (read_data_addr dev =? 0).
Qed.

(** X9: Config Control is idempotent.  Giving the same command a second
    time leaves the controller exactly as the first one left it; the second
    command repeats the configuration-changed and CSN-changed calls of the
    first and only the removal of the read-data port is not repeated. *)
Theorem config_control_is_idempotent (dev : isapnp_t) (val : Z) :
  reg dev = 0x02 ->
  exists dev' evs,
    isapnp_write_data val dev = Ok (dev', evs)
    /\ isapnp_write_data val dev'
       = Ok (dev', config_control_calls val (first_card dev))
    /\ evs = (if Z.testbit val 0 && negb (read_data_addr dev =? 0)
              then [ev_io_removehandler (read_data_addr dev) h_read_data] else [])
             ++ config_control_calls val (first_card dev).
Proof.
  intros Hreg. unfold isapnp_write_data. rewrite Hreg. cbn [Z.eqb Pos.eqb].
  rewrite config_control_closed. eexists _, _. split; [reflexivity|].
  split; [|reflexivity].
  assert (Hreg' : reg (after_config_control val dev) = 0x02) by exact Hreg.
  rewrite Hreg'. cbn [Z.eqb Pos.eqb].
  rewrite config_control_closed, after_config_control_idem.
  destruct (after_config_control_shape val dev) as [Hs Hc].
  f_equal. f_equal.
  replace (Z.testbit val 0 && truthy (read_data_addr (after_config_control val dev)))
    with false.
  - cbn [app]. unfold config_control_calls.
    by rewrite (reset_calls_shape _ _ Hs), (csn_reset_calls_flags _ _ Hc).
  - unfold after_config_control. cbn [read_data_addr].
    by destruct (Z.testbit val 0).
Qed.

(** ** What a session cannot change *)

Lemma card_frame_refl (c : isapnp_card_t) : card_frame c c.
Proof. by repeat split. Qed.

Lemma card_frame_trans (c1 c2 c3 : isapnp_card_t) :
  card_frame c1 c2 -> card_frame c2 c3 -> card_frame c1 c3.
Proof.
  intros (A1 & A2 & A3 & A4 & A5 & A6 & A7 & A8 & A9)
         (B1 & B2 & B3 & B4 & B5 & B6 & B7 & B8 & B9).
  repeat split; try congruence.
  intros i Hi. by rewrite B9, A9.
Qed.

Lemma cards_frame_refl (cs : list isapnp_card_t) : Forall2 card_frame cs cs.
Proof. apply Forall_Forall2_diag, Forall_true, card_frame_refl. Qed.

Lemma cards_frame_trans (cs1 cs2 cs3 : list isapnp_card_t) :
  Forall2 card_frame cs1 cs2 -> Forall2 card_frame cs2 cs3 ->
  Forall2 card_frame cs1 cs3.
Proof.
  intros H12. revert cs3. induction H12 as [|c1 c2 l1 l2 Hc _ IH]; intros cs3 H23.
  - by inversion H23.
  - inversion H23 as [|c2' c3 l2' l3 Hc' Hl]; subst. constructor.
    + by eapply card_frame_trans.
    + by apply IH.
Qed.

Lemma cards_frame_fmap (f : isapnp_card_t -> isapnp_card_t) (cs : list isapnp_card_t) :
  (forall c, card_frame c (f c)) -> Forall2 card_frame cs (f <$> cs).
Proof. intros H. induction cs; constructor; auto. Qed.

Lemma cards_frame_insert (cs : list isapnp_card_t) (ci : nat) (c c' : isapnp_card_t) :
  cs !! ci = Some c -> card_frame c c' ->
  Forall2 card_frame cs (<[ci := c']> cs).
Proof.
  intros Hc Hf. rewrite <- (list_insert_id cs ci c Hc) at 1.
  apply Forall2_insert; [apply cards_frame_refl|done].
Qed.

Lemma bus_frame_refl (dev : isapnp_t) : bus_frame dev dev.
Proof. split; [apply cards_frame_refl|]. split; by left. Qed.

Lemma frame_keeps_deref (dev dev' : isapnp_t) p c l :
  Forall2 card_frame (first_card dev) (first_card dev') ->
  deref_ld dev p = Ok (c, l) ->
  exists c' l', deref_ld dev' p = Ok (c', l').
Proof.
  intros Hf [Hc Hl]%deref_ld_lookup. unfold deref_ld.
  destruct (Forall2_lookup_l _ _ _ _ _ Hf Hc) as (c' & Hc' & Hcc).
  rewrite Hc'. destruct Hcc as (_ & _ & _ & _ & _ & Hn & _).
  assert (Hlen : length (first_ld c') = length (first_ld c))
    by (by rewrite <- (length_fmap number (first_ld c')), Hn, length_fmap).
  destruct (first_ld c' !! p.2) as [l'|] eqn:Hl'; [by eexists _, _|].
  apply lookup_ge_None in Hl'. apply lookup_lt_Some in Hl. lia.
Qed.

Lemma bus_frame_trans (d1 d2 d3 : isapnp_t) :
  bus_frame d1 d2 -> bus_frame d2 d3 -> bus_frame d1 d3.
Proof.
  intros (Hc1 & Hi1 & Hl1) (Hc2 & Hi2 & Hl2).
  split; [by eapply cards_frame_trans|]. split.
  - destruct Hi2 as [->|[->|(ci & -> & Hsome)]]; [done|by right; left|].
    right; right. exists ci. split; [done|].
    apply lookup_lt_is_Some. apply lookup_lt_is_Some in Hsome.
    by rewrite (Forall2_length _ _ _ Hc1).
  - destruct Hl2 as [->|[->|(p & c & l & -> & Hd)]]; [done|by right; left|].
    right; right.
    assert (Hc1' : Forall2 card_frame (first_card d2) (first_card d1)).
    { clear -Hc1. induction Hc1 as [|x y l k Hxy _ IH]; constructor; [|done].
      destruct Hxy as (A1 & A2 & A3 & A4 & A5 & A6 & A7 & A8 & A9).
      repeat split; try congruence. intros i Hi. by rewrite A9. }
    destruct (frame_keeps_deref d2 d1 p c l Hc1' Hd) as (c' & l' & Hd').
    by exists p, c', l'.
Qed.

Lemma set_read_data_fields (a : Z) (dev : isapnp_t) :
  first_card (isapnp_set_read_data a dev).1 = first_card dev
  /\ isolated_card (isapnp_set_read_data a dev).1 = isolated_card dev
  /\ current_ld (isapnp_set_read_data a dev).1 = current_ld dev.
Proof.
  unfold isapnp_set_read_data.
  by destruct (truthy (read_data_addr dev)), (_ && _).
Qed.

Lemma reset_card_frame (c : isapnp_card_t) : card_frame c (reset_card c).
Proof.
  unfold reset_card, card_frame.
  cbn [card_with_first_ld rom_size config_changed csn_changed read_vendor_reg
       write_vendor_reg first_ld rom].
  assert (Hn : number <$> (isapnp_reset_ld_regs <$> first_ld c) = number <$> first_ld c)
    by (rewrite <- list_fmap_compose; by apply list_fmap_ext).
  assert (Hu : upperlimit <$> (isapnp_reset_ld_regs <$> first_ld c)
               = upperlimit <$> first_ld c)
    by (rewrite <- list_fmap_compose; by apply list_fmap_ext).
  destruct (first_ld c) as [|ld lds]; [by repeat split|].
  destruct (config_changed c) eqn:Hcc; cbn [card_with_config rom_size config_changed
    csn_changed read_vendor_reg write_vendor_reg first_ld rom];
    rewrite ?Hcc; by repeat split.
Qed.

Lemma config_control_frame (val : Z) (dev : isapnp_t) :
  bus_frame dev (config_control val dev).1.
Proof.
  rewrite config_control_closed. cbn [fst]. split; [|split].
  - rewrite after_config_control_cards. apply cards_frame_fmap. intros c.
    apply (card_frame_trans _ ((if Z.testbit val 0 then reset_card else id) c)).
    + destruct (Z.testbit val 0); [apply reset_card_frame|apply card_frame_refl].
    + generalize ((if Z.testbit val 0 then reset_card else id) c). intros x.
      destruct (Z.testbit val 1), (Z.testbit val 2); by repeat split.
  - unfold after_config_control. cbn [isolated_card].
    destruct (Z.testbit val 0); [by right; left|by left].
  - unfold after_config_control. cbn [current_ld].
    destruct (Z.testbit val 0); [by right; left|by left].
Qed.

Lemma wake_card_frame (val : Z) (c : isapnp_card_t) : card_frame c (wake_card val c).
Proof.
  unfold wake_card. destruct (csn c =? val); [|by repeat split].
  destruct (decide _); by repeat split.
Qed.

Lemma unlock_card_frame (c : isapnp_card_t) : card_frame c (unlock_card c).
Proof. unfold unlock_card. destruct (decide _); by repeat split. Qed.

Lemma config_changed_frame ci card ld :
  card_frame card (isapnp_device_config_changed ci card ld).1
  /\ first_ld (isapnp_device_config_changed ci card ld).1 = first_ld card.
Proof.
  unfold isapnp_device_config_changed.
  destruct (config_changed card) eqn:Hcc; cbn [negb fst]; [|by repeat split].
  split; [|done]. unfold card_frame.
  cbn [card_with_config rom_size config_changed csn_changed read_vendor_reg
       write_vendor_reg first_ld rom].
  by repeat split.
Qed.

Lemma store_ld_frame (dev : isapnp_t) p card card' ld ld' :
  deref_ld dev p = Ok (card, ld) ->
  card_frame card card' ->
  first_ld card' = first_ld card ->
  number ld' = number ld ->
  upperlimit ld' = upperlimit ld ->
  bus_frame dev (store_ld p card' ld' dev).
Proof.
  intros [Hc Hl]%deref_ld_lookup Hf Hlds Hn Hu.
  split; [|split; by left]. unfold store_ld. cbn [first_card dev_with_first_card].
  apply (cards_frame_insert _ _ card); [done|].
  destruct Hf as (A1 & A2 & A3 & A4 & A5 & A6 & A7 & A8 & A9).
  unfold card_frame.
  cbn [card_with_first_ld rom_size config_changed csn_changed read_vendor_reg
       write_vendor_reg first_ld rom].
  rewrite Hlds, !list_fmap_insert, Hn, Hu.
  rewrite !list_insert_id by (by rewrite list_lookup_fmap, Hl).
  by repeat split.
Qed.

Lemma write_data_frame (val : Z) (dev dev' : isapnp_t) (evs : list event) :
  isapnp_write_data val dev = Ok (dev', evs) -> bus_frame dev dev'.
Proof.
  unfold isapnp_write_data.
  destruct (reg dev =? 0).
  { intros [= H]. apply (f_equal fst) in H. simpl in H. subst dev'.
    destruct (set_read_data_fields (Z.lor (Z.shiftl val 2) 3) dev) as (H1 & H2 & H3).
    split; [rewrite H1; apply cards_frame_refl|]. split; by left. }
  destruct (reg dev =? 2).
  { intros [= H]. apply (f_equal fst) in H. simpl in H. subst dev'.
    apply config_control_frame. }
  destruct (reg dev =? 3).
  { intros [= <- _]. split; [|split; by left]. simpl.
    apply cards_frame_fmap, wake_card_frame. }
  destruct (reg dev =? 6).
  { destruct (isolated_card dev) as [ci|]; [|intros [= <- _]; apply bus_frame_refl].
    destruct (first_card dev !! ci) as [card|] eqn:Hc; [|done].
    intros [= <- _]. split; [|split; [by right; left|by left]]. simpl.
    apply (cards_frame_insert _ _ card); [done|]. by repeat split. }
  destruct (reg dev =? 7).
  { destruct (find_card _ _) as [[ci card]|] eqn:Hf;
      [|intros [= <- _]; apply bus_frame_refl].
    destruct (list_find _ _) as [[li l]|] eqn:Hl; [|done].
    intros [= <- _]. split; [apply cards_frame_refl|]. split; [by left|].
    right; right. exists (ci, li), card, l. split; [done|].
    unfold deref_ld. simpl. apply find_card_lookup in Hf. rewrite Hf.
    apply list_find_Some in Hl as (Hl & _). by rewrite Hl. }
  destruct (reg dev =? 0x30).
  { destruct (current_ld dev) as [p|]; [|intros [= <- _]; apply bus_frame_refl].
    destruct (deref_ld dev p) as [[card ld]| |] eqn:Hd; [|done|done].
    simpl. intros [= <- _].
    match goal with
    | |- context [isapnp_device_config_changed ?a ?b ?c] =>
        destruct (config_changed_frame a b c) as [Hcf Hcl]
    end.
    by apply (store_ld_frame dev p card _ ld). }
  destruct (reg dev =? 0x31).
  { destruct (current_ld dev) as [p|]; [|intros [= <- _]; apply bus_frame_refl].
    destruct (deref_ld dev p) as [[card ld]| |] eqn:Hd; [|done|done].
    simpl. intros [= <- _].
    apply (store_ld_frame dev p card _ ld); try done; apply card_frame_refl. }
  destruct (is_card_vendor_reg (reg dev)).
  { destruct (find_card _ _) as [[ci card]|]; intros [= <- _]; apply bus_frame_refl. }
  destruct (is_ld_vendor_reg (reg dev)).
  { destruct (current_ld dev) as [p|]; [|intros [= <- _]; apply bus_frame_refl].
    destruct (deref_ld dev p) as [[card ld]| |]; [|done|done].
    intros [= <- _]. apply bus_frame_refl. }
  destruct (0x40 <=? reg dev); [|intros [= <- _]; apply bus_frame_refl].
  destruct (current_ld dev) as [p|]; [|intros [= <- _]; apply bus_frame_refl].
  destruct (deref_ld dev p) as [[card ld]| |] eqn:Hd; [|done|done].
  simpl. intros [= <- _].
  match goal with
  | |- context [isapnp_device_config_changed ?a ?b ?c] =>
      destruct (config_changed_frame a b c) as [Hcf Hcl]
  end.
  by apply (store_ld_frame dev p card _ ld).
Qed.

Lemma rom_store_frame (r r' : list Z) (v : Z) :
  rom_store r 0x08 v = Ok r' ->
  length r' = length r /\ forall i : nat, i <> 8%nat -> r' !! i = r !! i.
Proof.
  unfold rom_store. destruct (decide _); [|done]. intros [= <-].
  split; [apply length_insert|].
  intros i Hi. apply list_lookup_insert_ne. simpl. lia.
Qed.

Lemma serial_isolation_read_frame card v card' :
  serial_isolation_read card = Ok (v, card') -> card_frame card card'.
Proof.
  unfold serial_isolation_read.
  destruct (truthy (serial_read_pair card)).
  { intros [= _ <-]. destruct (negb _); by repeat split. }
  destruct (serial_read_pos card <? 64).
  { destruct (rom_at _ _); [|done|done]. simpl. intros [= _ <-]. by repeat split. }
  destruct (serial_read_pos card =? 64).
  - destruct (rom_store _ _ _) as [r'| |] eqn:Hs; [|done|done]. simpl.
    intros [= _ <-]. apply rom_store_frame in Hs as [Hlen Hi].
    by repeat split.
  - simpl. intros [= _ <-]. by repeat split.
Qed.

Lemma read_data_frame (dev dev' : isapnp_t) (v : Z) :
  isapnp_read_data dev = Ok (v, dev') -> bus_frame dev dev'.
Proof.
  unfold isapnp_read_data.
  destruct (reg dev =? 1).
  { destruct (find_card _ _) as [[ci card]|] eqn:Hf.
    - destruct (serial_isolation_read card) as [[b card']| |] eqn:Hs; [|done|done].
      simpl. intros [= _ <-]. apply find_card_lookup in Hf.
      split; [|split; [|by left]].
      + simpl. apply (cards_frame_insert _ _ card); [done|].
        by apply serial_isolation_read_frame in Hs.
      + right; right. exists ci. split; [done|]. by rewrite Hf.
    - intros [= _ <-]. split; [apply cards_frame_refl|].
      split; [by right; left|by left]. }
  destruct (reg dev =? 4).
  { destruct (find_card _ _) as [[ci card]|] eqn:Hf;
      [|intros [= _ <-]; apply bus_frame_refl].
    destruct (_ <=? _); [intros [= _ <-]; apply bus_frame_refl|].
    destruct (rom_at _ _); [|done|done]. simpl. intros [= _ <-].
    split; [|split; by left]. simpl.
    apply (cards_frame_insert _ _ card); [|by repeat split].
    by apply find_card_lookup in Hf. }
  destruct (reg dev =? 5).
  { destruct (find_card _ _); intros [= _ <-]; apply bus_frame_refl. }
  destruct (reg dev =? 6).
  { destruct (find_card _ _) as [[ci card]|]; intros [= _ <-]; apply bus_frame_refl. }
  destruct (reg dev =? 7).
  { destruct (current_ld dev) as [p|]; [|intros [= _ <-]; apply bus_frame_refl].
    destruct (deref_ld dev p); [|done|done]. intros [= _ <-]. apply bus_frame_refl. }
  destruct (is_card_vendor_reg (reg dev)).
  { destruct (find_card _ _) as [[ci card]|]; [|intros [= _ <-]; apply bus_frame_refl].
    destruct (read_vendor_reg card); intros [= _ <-]; apply bus_frame_refl. }
  destruct (is_ld_vendor_reg (reg dev)).
  { destruct (current_ld dev) as [p|]; [|intros [= _ <-]; apply bus_frame_refl].
    destruct (deref_ld dev p) as [[card ld]| |]; [|done|done]. simpl.
    destruct (read_vendor_reg card); intros [= _ <-]; apply bus_frame_refl. }
  destruct (0x30 <=? reg dev); [|intros [= _ <-]; apply bus_frame_refl].
  destruct (current_ld dev) as [p|]; [|intros [= _ <-]; apply bus_frame_refl].
  destruct (deref_ld dev p); [|done|done]. intros [= _ <-]. apply bus_frame_refl.
Qed.

Lemma write_addr_frame (val : Z) (dev : isapnp_t) :
  bus_frame dev (isapnp_write_addr val dev).
Proof.
  unfold isapnp_write_addr.
  destruct (first_card dev) as [|card rest] eqn:Hc; [apply bus_frame_refl|].
  destruct (decide _).
  - destruct (val =? _).
    + destruct (_ =? 0).
      * split; [|split; by left]. simpl. rewrite Hc.
        apply cards_frame_fmap, unlock_card_frame.
      * split; [|split; by left]. simpl. rewrite Hc. apply cards_frame_refl.
    + split; [|split; by left]. simpl. rewrite Hc. apply cards_frame_refl.
  - split; [|split; by left]. simpl. rewrite Hc. apply cards_frame_refl.
Qed.

Lemma run_frame (accesses : list access) (dev dev' : isapnp_t) obs :
  run accesses dev = Ok (dev', obs) -> bus_frame dev dev'.
Proof.
  revert dev obs. induction accesses as [|a rest IH]; intros dev obs; simpl.
  - intros [= <- _]. apply bus_frame_refl.
  - destruct a as [v|v|]; simpl.
    + destruct (run rest _) as [[d o]| |] eqn:Hr; [|done|done].
      simpl. intros [= <- _]. eapply bus_frame_trans; [|by eapply IH].
      apply write_addr_frame.
    + destruct (isapnp_write_data v dev) as [[d e]| |] eqn:Hw; [|done|done].
      simpl. destruct (run rest d) as [[d1 o]| |] eqn:Hr; [|done|done].
      simpl. intros [= <- _]. eapply bus_frame_trans; [|by eapply IH].
      by eapply write_data_frame.
    + destruct (isapnp_read_data dev) as [[b d]| |] eqn:Hw; [|done|done].
      simpl. destruct (run rest d) as [[d1 o]| |] eqn:Hr; [|done|done].
      simpl. intros [= <- _]. eapply bus_frame_trans; [|by eapply IH].
      by eapply read_data_frame.
Qed.

(** ** Memory safety of the three ports *)

Lemma safe_frame (dev dev' : isapnp_t) :
  bus_safe dev -> bus_frame dev dev' -> bus_safe dev'.
Proof.
  intros (Hcards & Hiso & Hcur) (Hf & Hi & Hl). split; [|split].
  - clear -Hcards Hf. induction Hf as [|c c' l l' Hc _ IH]; [done|].
    apply Forall_cons in Hcards as [[H9 Hsz] Hrest].
    constructor; [|by apply IH].
    destruct Hc as (A1 & _ & _ & _ & _ & _ & _ & A8 & _).
    split; [by rewrite A8|by rewrite A1, A8].
  - intros ci Hci. apply lookup_lt_is_Some.
    rewrite <- (Forall2_length _ _ _ Hf). apply lookup_lt_is_Some.
    destruct Hi as [Hi|[Hi|(cj & Hi & Hsome)]].
    + apply Hiso. by rewrite <- Hi.
    + by rewrite Hi in Hci.
    + rewrite Hi in Hci. by injection Hci as <-.
  - intros p Hp.
    destruct Hl as [Hl|[Hl|(q & c & l & Hl & Hd)]].
    + rewrite Hl in Hp. destruct (Hcur p Hp) as (c & l & Hd).
      by apply (frame_keeps_deref dev dev' p c l).
    + by rewrite Hl in Hp.
    + rewrite Hl in Hp. injection Hp as <-.
      by apply (frame_keeps_deref dev dev' q c l).
Qed.

Lemma serial_isolation_read_defined (card : isapnp_card_t) :
  card_safe card -> exists v card', serial_isolation_read card = Ok (v, card').
Proof.
  intros [H9 _]. unfold serial_isolation_read.
  destruct (truthy (serial_read_pair card)); [by eexists _, _|].
  destruct (serial_read_pos card <? 64) eqn:Hlt.
  - apply Z.ltb_lt in Hlt. unfold rom_at.
    assert (Hidx : (Z.to_nat (Z.shiftr (serial_read_pos card) 3) < length (rom card))%nat).
    { rewrite Z.shiftr_div_pow2 by lia. change (2 ^ 3) with 8.
      assert (serial_read_pos card / 8 < 8) by (apply Z.div_lt_upper_bound; lia).
      lia. }
    apply lookup_lt_is_Some in Hidx as [b ->]. simpl. by eexists _, _.
  - destruct (serial_read_pos card =? 64); [|by eexists _, _].
    unfold rom_store. destruct (decide _) as [_|Hbad]; [|simpl in Hbad; lia].
    simpl. by eexists _, _.
Qed.

Lemma read_data_defined (dev : isapnp_t) :
  bus_safe dev -> exists v dev', isapnp_read_data dev = Ok (v, dev').
Proof.
  intros (Hcards & Hiso & Hcur). unfold isapnp_read_data.
  destruct (reg dev =? 1).
  { destruct (find_card _ _) as [[ci card]|] eqn:Hf; [|by eexists _, _].
    apply find_card_lookup in Hf.
    assert (Hs : card_safe card)
      by (rewrite Forall_lookup in Hcards; by apply (Hcards ci)).
    destruct (serial_isolation_read_defined card Hs) as (v & card' & ->).
    simpl. by eexists _, _. }
  destruct (reg dev =? 4).
  { destruct (find_card _ _) as [[ci card]|] eqn:Hf; [|by eexists _, _].
    apply find_card_lookup in Hf.
    assert (Hs : card_safe card)
      by (rewrite Forall_lookup in Hcards; by apply (Hcards ci)).
    destruct (rom_size card <=? rom_pos card) eqn:Hle; [by eexists _, _|].
    apply Z.leb_gt in Hle. destruct Hs as [H9 Hsz]. unfold rom_at.
    assert (Hidx : (Z.to_nat (rom_pos card) < length (rom card))%nat) by lia.
    apply lookup_lt_is_Some in Hidx as [b ->]. simpl. by eexists _, _. }
  destruct (reg dev =? 5).
  { destruct (find_card _ _); by eexists _, _. }
  destruct (reg dev =? 6).
  { destruct (find_card _ _) as [[ci card]|]; by eexists _, _. }
  destruct (reg dev =? 7).
  { destruct (current_ld dev) as [p|] eqn:Hp; [|by eexists _, _].
    destruct (Hcur p eq_refl) as (c & l & ->). simpl. by eexists _, _. }
  destruct (is_card_vendor_reg (reg dev)).
  { destruct (find_card _ _) as [[ci card]|]; [|by eexists _, _].
    destruct (read_vendor_reg card); by eexists _, _. }
  destruct (is_ld_vendor_reg (reg dev)).
  { destruct (current_ld dev) as [p|] eqn:Hp; [|by eexists _, _].
    destruct (Hcur p eq_refl) as (c & l & ->). simpl.
    destruct (read_vendor_reg c); by eexists _, _. }
  destruct (0x30 <=? reg dev); [|by eexists _, _].
  destruct (current_ld dev) as [p|] eqn:Hp; [|by eexists _, _].
  destruct (Hcur p eq_refl) as (c & l & ->). simpl. by eexists _, _.
Qed.

Lemma write_data_outcome (val : Z) (dev : isapnp_t) :
  bus_safe dev ->
  (exists dev' evs, isapnp_write_data val dev = Ok (dev', evs))
  \/ (isapnp_write_data val dev = Fatal /\ reg dev = 0x07
      /\ exists ci card, find_card PNP_STATE_CONFIG (first_card dev) = Some (ci, card)
           /\ Forall (fun ld => number ld <> val) (first_ld card)).
Proof.
  intros (Hcards & Hiso & Hcur). unfold isapnp_write_data.
  destruct (reg dev =? 0).
  { left. destruct (isapnp_set_read_data _ dev). by eexists _, _. }
  destruct (reg dev =? 2).
  { left. destruct (config_control val dev). by eexists _, _. }
  destruct (reg dev =? 3); [left; by eexists _, _|].
  destruct (reg dev =? 6).
  { left. destruct (isolated_card dev) as [ci|] eqn:Hi; [|by eexists _, _].
    destruct (Hiso ci eq_refl) as [card ->]. by eexists _, _. }
  destruct (Z.eqb_spec (reg dev) 7) as [H7|_].
  { destruct (find_card _ _) as [[ci card]|] eqn:Hf; [|left; by eexists _, _].
    destruct (list_find _ _) as [[li l]|] eqn:Hl; [left; by eexists _, _|].
    right. split; [done|]. split; [done|]. exists ci, card. split; [done|].
    by apply list_find_None in Hl. }
  left.
  destruct (reg dev =? 0x30).
  { destruct (current_ld dev) as [p|] eqn:Hp; [|by eexists _, _].
    destruct (Hcur p eq_refl) as (c & l & ->). simpl.
    destruct (isapnp_device_config_changed _ _ _). by eexists _, _. }
  destruct (reg dev =? 0x31).
  { destruct (current_ld dev) as [p|] eqn:Hp; [|by eexists _, _].
    destruct (Hcur p eq_refl) as (c & l & ->). simpl. by eexists _, _. }
  destruct (is_card_vendor_reg (reg dev)).
  { destruct (find_card _ _) as [[ci card]|]; by eexists _, _. }
  destruct (is_ld_vendor_reg (reg dev)).
  { destruct (current_ld dev) as [p|] eqn:Hp; [|by eexists _, _].
    destruct (Hcur p eq_refl) as (c & l & ->). simpl. by eexists _, _. }
  destruct (0x40 <=? reg dev); [|by eexists _, _].
  destruct (current_ld dev) as [p|] eqn:Hp; [|by eexists _, _].
  destruct (Hcur p eq_refl) as (c & l & ->). simpl.
  destruct (isapnp_device_config_changed _ _ _). by eexists _, _.
Qed.

Lemma run_safe (accesses : list access) (dev : isapnp_t) :
  bus_safe dev ->
  run accesses dev <> Undefined
  /\ forall dev' obs, run accesses dev = Ok (dev', obs) -> bus_safe dev'.
Proof.
  intros Hs. split.
  - revert dev Hs. induction accesses as [|a rest IH]; intros dev Hs; [done|].
    simpl. destruct a as [v|v|]; simpl.
    + pose proof (IH _ (safe_frame _ _ Hs (write_addr_frame v dev))) as Hr.
      by destruct (run rest _) as [[d o]| |].
    + destruct (write_data_outcome v dev Hs) as [(d & e & Hw)|(Hw & _)];
        rewrite Hw; [|done]. simpl.
      pose proof (IH _ (safe_frame _ _ Hs (write_data_frame _ _ _ _ Hw))) as Hr.
      by destruct (run rest d) as [[d1 o]| |].
    + destruct (read_data_defined dev Hs) as (b & d & Hw). rewrite Hw. simpl.
      pose proof (IH _ (safe_frame _ _ Hs (read_data_frame _ _ _ Hw))) as Hr.
      by destruct (run rest d) as [[d1 o]| |].
  - intros dev' obs Hr. apply (safe_frame dev); [done|]. by eapply run_frame.
Qed.

(** X10: no port access changes what a card is: across any session each
    card keeps its ROM size and buffer length, its callbacks, and the
    numbers and upper-limit masks of its logical devices, and the only ROM
    byte that can change is the ID checksum at offset 8; no card is added
    or removed. *)
Theorem session_keeps_cards (accesses : list access) (dev dev' : isapnp_t)
    (obs : list observation) :
  run accesses dev = Ok (dev', obs) ->
  Forall2 card_frame (first_card dev) (first_card dev').
Proof. intros Hr. by apply run_frame in Hr as [Hf _]. Qed.

(** ** Attaching a card *)

Lemma checksum_fold_frame (co : Z) (idx : list Z) (r : list Z) :
  length (fold_left (checksum_add co) idx r) = length r
  /\ forall j : nat, j <> Z.to_nat co ->
       fold_left (checksum_add co) idx r !! j = r !! j.
Proof.
  revert r. induction idx as [|i idx IH]; intros r; [done|].
  cbn [fold_left]. destruct (IH (checksum_add co r i)) as [Hlen Hj].
  unfold checksum_add in *. split.
  - by rewrite Hlen, length_insert.
  - intros j Hne. rewrite Hj by done. by apply list_lookup_insert_ne.
Qed.

Lemma populate_checksum_frame (r r1 : list Z) (n : Z) :
  populate_checksum r n = Ok r1 ->
  length r1 = length r
  /\ (Z.to_nat (u16 (n - 1)) < length r)%nat
  /\ forall j : nat, j <> Z.to_nat (u16 (n - 1)) -> r1 !! j = r !! j.
Proof.
  unfold populate_checksum, rom_store.
  destruct (decide _) as [Hlt|]; [|done]. simpl. intros [= <-].
  destruct (checksum_fold_frame (u16 (n - 1)) (seqZ 9 (u16 (n - 1) - 9))
              (<[Z.to_nat (u16 (n - 1)) := 0]> r)) as [Hlen Hj].
  split; [|split; [done|]].
  - by rewrite length_insert, Hlen, length_insert.
  - intros j Hne. rewrite list_lookup_insert_ne by done.
    rewrite Hj by done. by apply list_lookup_insert_ne.
Qed.

Lemma memory_descriptor_devices (r : list Z) (res : Z) (st st' : parse_state) :
  memory_descriptor r res st = Ok st' ->
  p_ldn st' = p_ldn st /\ p_done st' = p_done st
  /\ exists ld ul, p_ld st = Some ld /\ p_ld st' = Some (ld_with_upperlimit ul ld).
Proof.
  unfold memory_descriptor.
  destruct (res =? 1).
  - destruct (3 <? p_mem_range st); simpl; try done.
    destruct (rom_at r (p_i st + 3)); simpl; try done.
    destruct (p_ld st) as [ld|]; simpl; try done. intros [= <-]. simpl.
    split; [done|]. split; [done|]. by eexists _, _.
  - destruct (3 <? p_mem_range_32 st); simpl; try done.
    destruct (rom_at r (p_i st + 3)); simpl; try done.
    destruct (p_ld st) as [ld|]; simpl; try done. intros [= <-]. simpl.
    split; [done|]. split; [done|]. by eexists _, _.
Qed.

Lemma numbered_same (st st' : parse_state) :
  p_ldn st' = p_ldn st ->
  number <$> devices_so_far st' = number <$> devices_so_far st ->
  numbered st -> numbered st'.
Proof.
  intros Hn Hd [H1 H2]. unfold numbered.
  assert (Hlen : length (devices_so_far st') = length (devices_so_far st))
    by (by rewrite <- (length_fmap number), Hd, length_fmap).
  by rewrite Hd, Hn, Hlen.
Qed.

Lemma numbered_start (st : parse_state) :
  numbered st -> numbered (logical_device_start st).
Proof.
  intros [H1 H2]. unfold numbered, devices_so_far in *.
  cbn [logical_device_start p_done p_ld p_ldn].
  set (old := p_done st ++ match p_ld st with Some ld => [ld] | None => [] end) in *.
  assert (Hnum : number <$> (match p_ld st with
                             | Some ld => p_done st ++ [isapnp_reset_ld_regs ld]
                             | None => p_done st
                             end) = number <$> old).
  { subst old. destruct (p_ld st); [|by rewrite app_nil_r].
    by rewrite !fmap_app. }
  assert (Hlen : length (match p_ld st with
                         | Some ld => p_done st ++ [isapnp_reset_ld_regs ld]
                         | None => p_done st
                         end) = length old)
    by (by rewrite <- (length_fmap number), Hnum, length_fmap).
  rewrite fmap_app, Hnum, length_app, Hlen. cbn [length fmap list_fmap new_ld number].
  rewrite Nat.add_1_r, seq_S, fmap_app, <- H1. cbn [fmap list_fmap Nat.add].
  split; [by rewrite H2|].
  rewrite H2. unfold u8. rewrite Zplus_mod_idemp_l. f_equal. lia.
Qed.

Lemma parse_item_numbered (r : list Z) (st st' : parse_state) :
  parse_item r st = Ok st' -> numbered st -> numbered st'.
Proof.
  unfold parse_item.
  destruct (rom_at r (p_i st)) as [tag| |]; simpl; try done.
  destruct (is_large tag).
  - destruct (rom_at r (p_i st + 2)); simpl; try done.
    destruct (rom_at r (p_i st + 1)); simpl; try done.
    destruct (_ || _).
    + destruct (memory_descriptor r (large_kind tag) st) as [st1| |] eqn:Hm;
        simpl; try done.
      intros [= <-].
      apply memory_descriptor_devices in Hm as (Hn & Hd & ld & ul & Hl & Hl').
      apply numbered_same; [done|].
      unfold devices_so_far. cbn [advance p_done p_ld]. rewrite Hd, Hl, Hl'.
      by rewrite !fmap_app.
    + simpl. intros [= <-]. by apply numbered_same.
  - intros [= <-].
    destruct (small_kind tag =? 2).
    { intros H. apply numbered_start in H. revert H. by apply numbered_same. }
    destruct (small_kind tag =? 6).
    { apply numbered_same;
        unfold start_dependent_functions; by destruct (truthy (p_in_df st)). }
    destruct (small_kind tag =? 7); by apply numbered_same.
Qed.

Lemma parse_item_reset (r : list Z) (st st' : parse_state) :
  Forall (fun ld => exists ld0, ld = isapnp_reset_ld_regs ld0) (p_done st) ->
  parse_item r st = Ok st' ->
  Forall (fun ld => exists ld0, ld = isapnp_reset_ld_regs ld0) (p_done st').
Proof.
  intros Hinv. unfold parse_item.
  destruct (rom_at r (p_i st)) as [tag| |]; simpl; try done.
  destruct (is_large tag).
  - destruct (rom_at r (p_i st + 2)); simpl; try done.
    destruct (rom_at r (p_i st + 1)); simpl; try done.
    destruct (_ || _).
    + destruct (memory_descriptor r (large_kind tag) st) as [st1| |] eqn:Hm;
        simpl; try done.
      intros [= <-]. simpl. by rewrite (memory_descriptor_done _ _ _ _ Hm).
    + simpl. by intros [= <-].
  - intros [= <-]. simpl.
    destruct (small_kind tag =? 2).
    { simpl. destruct (p_ld st) as [ld|]; [|done].
      apply Forall_app. split; [done|]. apply Forall_singleton. by exists ld. }
    destruct (small_kind tag =? 6).
    { unfold start_dependent_functions. by destruct (truthy (p_in_df st)). }
    by destruct (small_kind tag =? 7).
Qed.

Lemma parse_rom_devices (fuel : nat) (r : list Z) (n : Z) (st st' : parse_state) :
  numbered st ->
  Forall (fun ld => exists ld0, ld = isapnp_reset_ld_regs ld0) (p_done st) ->
  parse_rom fuel r n st = Some (Ok st') ->
  number <$> parsed_devices st'
  = (fun k : nat => Z.of_nat k mod 256) <$> seq 0 (length (parsed_devices st'))
  /\ Forall (fun ld => exists ld0, ld = isapnp_reset_ld_regs ld0) (parsed_devices st').
Proof.
  assert (Hend : forall st,
    numbered st ->
    Forall (fun ld => exists ld0, ld = isapnp_reset_ld_regs ld0) (p_done st) ->
    number <$> parsed_devices st
    = (fun k : nat => Z.of_nat k mod 256) <$> seq 0 (length (parsed_devices st))
    /\ Forall (fun ld => exists ld0, ld = isapnp_reset_ld_regs ld0) (parsed_devices st)).
  { intros s [H1 _] Hr. unfold devices_so_far in H1. unfold parsed_devices.
    destruct (p_ld s) as [ld|].
    - split.
      + rewrite !fmap_app, !length_app in *. exact H1.
      + apply Forall_app. split; [done|]. apply Forall_singleton. by exists ld.
    - rewrite app_nil_r in H1. by split. }
  revert st. induction fuel as [|fuel IH]; intros st Hnum Hres; simpl.
  - destruct (p_i st <? n); [done|]. intros [= <-]. by apply Hend.
  - destruct (p_i st <? n).
    + destruct (parse_item r st) as [st1| |] eqn:Hstep; [|done|done].
      apply IH; [by eapply parse_item_numbered|by eapply parse_item_reset].
    + intros [= <-]. by apply Hend.
Qed.

Lemma parse_start_numbered : numbered parse_start.
Proof. by split. Qed.

Lemma deref_ld_app (dev : isapnp_t) (card : isapnp_card_t) p c l :
  deref_ld dev p = Ok (c, l) ->
  deref_ld (dev_with_first_card (first_card dev ++ [card]) dev) p = Ok (c, l).
Proof.
  intros [Hc Hl]%deref_ld_lookup. unfold deref_ld. simpl.
  by rewrite (lookup_app_l_Some _ _ _ _ Hc), Hl.
Qed.

(** ** Attaching a well-formed ROM *)

Lemma small_tags :
  forallb (fun t => negb (is_large t) && (small_kind t =? t / 8)
                    && (small_len t =? t mod 8)) (seqZ 0 128) = true.
Proof. vm_compute. reflexivity. Qed.

Lemma large_tags :
  forallb (fun t => is_large t && (large_kind t =? t - 128)) (seqZ 128 128) = true.
Proof. vm_compute. reflexivity. Qed.

Lemma small_tag (kind len : Z) :
  0 <= kind <= 15 -> 0 <= len <= 7 ->
  is_large (kind * 8 + len) = false
  /\ small_kind (kind * 8 + len) = kind
  /\ small_len (kind * 8 + len) = len.
Proof.
  intros Hk Hl.
  pose proof (proj1 (forallb_forall _ _) small_tags (kind * 8 + len)) as H.
  destruct (andb_prop _ _ (H ltac:(apply list_elem_of_In, elem_of_seqZ; lia)))
    as [[H1%negb_true_iff H2%Z.eqb_eq]%andb_prop H3%Z.eqb_eq].
  split; [done|]. split.
  - rewrite H2. symmetry. apply (Z.div_unique _ 8 kind len); lia.
  - rewrite H3. symmetry. apply (Z.mod_unique _ 8 kind len); lia.
Qed.

Lemma large_tag (kind : Z) :
  0 <= kind <= 127 ->
  is_large (0x80 + kind) = true /\ large_kind (0x80 + kind) = kind.
Proof.
  intros Hk.
  pose proof (proj1 (forallb_forall _ _) large_tags (0x80 + kind)) as H.
  destruct (andb_prop _ _ (H ltac:(apply list_elem_of_In, elem_of_seqZ; lia)))
    as [H1 H2%Z.eqb_eq].
  split; [done|]. lia.
Qed.

Lemma large_length (len : Z) :
  0 <= len -> Z.lor (Z.shiftl (len / 256) 8) (len mod 256) = len.
Proof.
  intros Hl. rewrite Z.shiftl_mul_pow2 by lia.
  pose proof (Z.mod_pos_bound len 256 ltac:(lia)).
  rewrite (lor_pow2_add 8) by lia.
  change (2 ^ 8) with 256. pose proof (Z.div_mod len 256 ltac:(lia)). lia.
Qed.

Lemma advance_cursor (a b : Z) (st : parse_state) :
  0 <= p_i st -> 0 <= a -> 0 <= b -> p_i st + a + b < 65536 ->
  p_i (advance b (advance a st)) = p_i st + a + b.
Proof.
  intros Hi Ha Hb Hlt. cbn [advance p_i]. unfold u16.
  rewrite (Z.mod_small (p_i st + a)) by lia. apply Z.mod_small. lia.
Qed.

Lemma stream_lookup (pre l rest : list Z) (k : nat) (x : Z) :
  l !! k = Some x -> (pre ++ l ++ rest) !! (length pre + k)%nat = Some x.
Proof.
  intros Hk. rewrite lookup_app_r by lia.
  replace (length pre + k - length pre)%nat with k by lia.
  by apply lookup_app_l_Some.
Qed.

(** A small item: the loop takes it in one round and stops behind it. *)
Lemma parse_encoded_small (pre rest : list Z) (kind : Z) (payload : list Z)
    (st : parse_state) (have : bool) (m m32 : nat) :
  p_i st = Z.of_nat (length pre) ->
  item_ok (small_item kind payload) ->
  Z.of_nat (length (pre ++ encode (small_item kind payload) ++ rest)) < 65536 ->
  slots_within have m m32 st ->
  exists st1,
    parse_item (pre ++ encode (small_item kind payload) ++ rest) st = Ok st1
    /\ p_i st1 = Z.of_nat (length (pre ++ encode (small_item kind payload)))
    /\ length (devices_so_far st1)
       = (length (devices_so_far st) + if (kind =? 0x02)%Z then 1 else 0)%nat
    /\ if kind =? 0x02 then slots_within true 0 0 st1
       else slots_within have m m32 st1.
Proof.
  intros Hi [Hk Hlen] Hsize Hin.
  set (r := pre ++ encode (small_item kind payload) ++ rest).
  destruct (small_tag kind (Z.of_nat (length payload)) Hk ltac:(lia))
    as (Hlarge & Hkind & Hl).
  assert (Htag : r !! Z.to_nat (p_i st)
                 = Some (kind * 8 + Z.of_nat (length payload))).
  { rewrite Hi, Nat2Z.id. rewrite <- (Nat.add_0_r (length pre)).
    by apply stream_lookup. }
  rewrite (parse_small_item r st _ Htag Hlarge), Hkind, Hl.
  eexists. split; [reflexivity|].
  rewrite !length_app in Hsize. cbn [encode length] in Hsize.
  split.
  { rewrite advance_cursor.
    - replace (p_i (if kind =? 2 then logical_device_start st
                    else if kind =? 6 then start_dependent_functions st
                    else if kind =? 7 then end_dependent_functions st
                    else st)) with (p_i st).
      + rewrite Hi, length_app. cbn [encode length]. lia.
      + destruct (kind =? 2); [done|]. destruct (kind =? 6).
        * unfold start_dependent_functions. by destruct (truthy (p_in_df st)).
        * by destruct (kind =? 7).
    - replace (p_i _) with (p_i st); [lia|].
      destruct (kind =? 2); [done|]. destruct (kind =? 6).
      + unfold start_dependent_functions. by destruct (truthy (p_in_df st)).
      + by destruct (kind =? 7).
    - lia.
    - lia.
    - replace (p_i _) with (p_i st); [lia|].
      destruct (kind =? 2); [done|]. destruct (kind =? 6).
      + unfold start_dependent_functions. by destruct (truthy (p_in_df st)).
      + by destruct (kind =? 7). }
  destruct Hin as (Hhave & Hm & Hmdf & Hm32 & Hm32df).
  destruct (kind =? 2).
  { split.
    - unfold devices_so_far. cbn [advance logical_device_start p_done p_ld].
      destruct (p_ld st); rewrite !length_app; simpl; lia.
    - split; [by eexists|]. simpl. lia. }
  split.
  { rewrite Nat.add_0_r. destruct (kind =? 6).
    - unfold start_dependent_functions. by destruct (truthy (p_in_df st)).
    - by destruct (kind =? 7). }
  destruct (kind =? 6).
  - unfold start_dependent_functions, slots_within.
    destruct (truthy (p_in_df st)); simpl; (split; [done|lia]).
  - destruct (kind =? 7); simpl; (split; [done|]); simpl; lia.
Qed.

Lemma memory_descriptor_fits (r : list Z) (res : Z) (st : parse_state)
    (have : bool) (m m32 : nat) :
  res = 0x01 \/ res = 0x05 ->
  is_Some (r !! Z.to_nat (p_i st + 3)) ->
  slots_within have m m32 st ->
  have = true ->
  (if res =? 0x01 then (m < 4)%nat else (m32 < 4)%nat) ->
  exists st1,
    memory_descriptor r res st = Ok st1
    /\ p_i st1 = p_i st
    /\ length (devices_so_far st1) = length (devices_so_far st)
    /\ slots_within have (if res =? 0x01 then S m else m)
         (if res =? 0x01 then m32 else S m32) st1.
Proof.
  intros Hres [flags Hflags] (Hhave & Hm & Hmdf & Hm32 & Hm32df) Hh Hfree.
  destruct (Hhave Hh) as [ld Hld].
  unfold memory_descriptor, rom_at. rewrite Hflags, Hld.
  destruct Hres as [-> | ->]; cbn [Z.eqb Pos.eqb] in *.
  - replace (3 <? p_mem_range st) with false by (symmetry; apply Z.ltb_ge; lia).
    simpl. eexists. split; [reflexivity|]. split; [reflexivity|].
    split.
    + unfold devices_so_far. simpl. by rewrite Hld, !length_app.
    + unfold slots_within. simpl. split; [by eexists|].
      rewrite (u8_succ_small (p_mem_range st)) by lia.
      destruct (truthy (p_in_df st)).
      * lia.
      * destruct (Z_le_gt_dec (p_mem_range_df st) 3).
        -- rewrite u8_succ_small by lia. lia.
        -- lia.
  - replace (3 <? p_mem_range_32 st) with false by (symmetry; apply Z.ltb_ge; lia).
    simpl. eexists. split; [reflexivity|]. split; [reflexivity|].
    split.
    + unfold devices_so_far. simpl. by rewrite Hld, !length_app.
    + unfold slots_within. simpl. split; [by eexists|].
      rewrite (u8_succ_small (p_mem_range_32 st)) by lia.
      destruct (truthy (p_in_df st)).
      * lia.
      * destruct (Z_le_gt_dec (p_mem_range_32_df st) 3).
        -- rewrite u8_succ_small by lia. lia.
        -- lia.
Qed.

(** A large item: the loop takes it in one round and stops behind it. *)
Lemma parse_encoded_large (pre rest : list Z) (kind : Z) (payload : list Z)
    (st : parse_state) (have : bool) (m m32 : nat) :
  p_i st = Z.of_nat (length pre) ->
  item_ok (large_item kind payload) ->
  Z.of_nat (length (pre ++ encode (large_item kind payload) ++ rest)) < 65536 ->
  (1 <= length rest)%nat ->
  slots_within have m m32 st ->
  (kind = 0x01 -> have = true /\ (m < 4)%nat) ->
  (kind = 0x05 -> have = true /\ (m32 < 4)%nat) ->
  exists st1,
    parse_item (pre ++ encode (large_item kind payload) ++ rest) st = Ok st1
    /\ p_i st1 = Z.of_nat (length (pre ++ encode (large_item kind payload)))
    /\ length (devices_so_far st1) = length (devices_so_far st)
    /\ slots_within have (if kind =? 0x01 then S m else m)
         (if kind =? 0x05 then S m32 else m32) st1.
Proof.
  intros Hi [Hk Hlen] Hsize Hrest Hin H1 H5.
  set (r := pre ++ encode (large_item kind payload) ++ rest).
  destruct (large_tag kind Hk) as (Hlarge & Hkind).
  assert (Htag : r !! Z.to_nat (p_i st) = Some (0x80 + kind)).
  { rewrite Hi, Nat2Z.id. rewrite <- (Nat.add_0_r (length pre)).
    by apply stream_lookup. }
  assert (Hlo : r !! Z.to_nat (p_i st + 1)
                = Some (Z.of_nat (length payload) mod 256)).
  { replace (Z.to_nat (p_i st + 1)) with (length pre + 1)%nat by lia.
    by apply stream_lookup. }
  assert (Hhi : r !! Z.to_nat (p_i st + 2)
                = Some (Z.of_nat (length payload) / 256)).
  { replace (Z.to_nat (p_i st + 2)) with (length pre + 2)%nat by lia.
    by apply stream_lookup. }
  assert (Hflags : is_Some (r !! Z.to_nat (p_i st + 3))).
  { apply lookup_lt_is_Some. subst r. rewrite !length_app.
    cbn [encode length]. lia. }
  assert (Hsize' : Z.of_nat (length pre) + 3 + Z.of_nat (length payload) < 65536).
  { subst r. rewrite !length_app in Hsize. cbn [encode length] in Hsize. lia. }
  assert (Hend : Z.of_nat (length (pre ++ encode (large_item kind payload)))
                 = Z.of_nat (length pre) + 3 + Z.of_nat (length payload)).
  { rewrite length_app. cbn [encode length]. lia. }
  rewrite Hend. clear Hend.
  rewrite (parse_large_item r st _ Htag Hlarge), Hkind.
  unfold rom_at at 1 2. rewrite Hhi, Hlo. simpl.
  rewrite large_length by lia.
  destruct (Z.eqb_spec kind 1) as [K1|K1];
    [|destruct (Z.eqb_spec kind 5) as [K5|K5]].
  - destruct (H1 K1) as [Hh Hfree]. subst kind. simpl.
    destruct (memory_descriptor_fits r 1 st have m m32)
      as (st1 & Hmem & Hi1 & Hdev & Hin1); try done; [by left|].
    rewrite Hmem. simpl. eexists. split; [reflexivity|].
    split; [rewrite advance_cursor; lia|]. by split.
  - destruct (H5 K5) as [Hh Hfree]. subst kind. simpl.
    destruct (memory_descriptor_fits r 5 st have m m32)
      as (st1 & Hmem & Hi1 & Hdev & Hin1); try done; [by right|].
    rewrite Hmem. simpl. eexists. split; [reflexivity|].
    split; [rewrite advance_cursor; lia|]. by split.
  - simpl. eexists. split; [reflexivity|].
    split; [rewrite advance_cursor; lia|]. by split.
Qed.

(** The end tag with its checksum byte: the last round of the loop. *)
Lemma parse_end_tag (pre : list Z) (c : Z) (st : parse_state) (fuel : nat) :
  p_i st = Z.of_nat (length pre) ->
  Z.of_nat (length (pre ++ [0x79; c])) < 65536 ->
  parse_rom (S fuel) (pre ++ [0x79; c]) (Z.of_nat (length (pre ++ [0x79; c]))) st
  = Some (Ok (advance 1 (advance 1 st))).
Proof.
  intros Hi Hsize. rewrite length_app in *. cbn [length] in *.
  assert (Htag : (pre ++ [0x79; c]) !! Z.to_nat (p_i st) = Some 0x79).
  { rewrite Hi, Nat2Z.id. by apply list_lookup_middle. }
  cbn [parse_rom].
  replace (p_i st <? Z.of_nat (length pre + 2)) with true
    by (symmetry; apply Z.ltb_lt; lia).
  rewrite (parse_small_item _ st _ Htag eq_refl).
  change (small_len 0x79) with 1. change (small_kind 0x79) with 15. cbn [Z.eqb Pos.eqb].
  assert (Hend : p_i (advance 1 (advance 1 st)) = Z.of_nat (length pre + 2))
    by (rewrite advance_cursor; lia).
  destruct fuel; cbn [parse_rom]; rewrite Hend, Z.ltb_irrefl; reflexivity.
Qed.

(** The loop on a well-formed stream ends, one round per item and one for
    the end tag, with one logical device per logical-device item. *)
Lemma parse_stream (its : list item) (c : Z) :
  forall (pre : list Z) (st : parse_state) (have : bool) (m m32 : nat)
         (fuel : nat),
    p_i st = Z.of_nat (length pre) ->
    Forall item_ok its ->
    Z.of_nat (length (pre ++ concat (encode <$> its) ++ [0x79; c])) < 65536 ->
    slots_within have m m32 st ->
    memory_fits have m m32 its = true ->
    (length its < fuel)%nat ->
    exists st',
      parse_rom fuel (pre ++ concat (encode <$> its) ++ [0x79; c])
        (Z.of_nat (length (pre ++ concat (encode <$> its) ++ [0x79; c]))) st
      = Some (Ok st')
      /\ length (devices_so_far st')
         = (length (devices_so_far st)
            + length (List.filter is_device_item its))%nat.
Proof.
  induction its as [|it its IH]; intros pre st have m m32 fuel Hi Hok Hsize Hin Hfit Hfuel.
  - destruct fuel as [|fuel]; [simpl in Hfuel; lia|].
    cbn [fmap list_fmap concat app] in *.
    rewrite (parse_end_tag pre c st fuel Hi Hsize).
    eexists. split; [reflexivity|].
    change (devices_so_far (advance 1 (advance 1 st))) with (devices_so_far st).
    cbn [List.filter length]. lia.
  - destruct fuel as [|fuel]; [simpl in Hfuel; lia|].
    apply Forall_cons in Hok as [Hit Hok].
    cbn [fmap list_fmap concat] in *. rewrite <- !app_assoc in *.
    set (rest := concat (encode <$> its) ++ [0x79; c]) in *.
    set (r := pre ++ encode it ++ rest) in *.
    assert (Hrest : (2 <= length rest)%nat)
      by (subst rest; rewrite length_app; simpl; lia).
    assert (Hlt : (p_i st <? Z.of_nat (length r)) = true).
    { apply Z.ltb_lt. subst r. rewrite Hi, !length_app.
      destruct it; cbn [encode length]; lia. }
    assert (Hstep : exists st1 have1 m1 m321,
      parse_item r st = Ok st1
      /\ p_i st1 = Z.of_nat (length (pre ++ encode it))
      /\ length (devices_so_far st1)
         = (length (devices_so_far st)
            + if is_device_item it then 1 else 0)%nat
      /\ slots_within have1 m1 m321 st1
      /\ memory_fits have1 m1 m321 its = true).
    { destruct it as [kind payload|kind payload].
      - destruct (parse_encoded_small pre rest kind payload st have m m32)
          as (st1 & Hs & Hi1 & Hdev & Hin1); try done.
        cbn [memory_fits is_device_item] in *.
        destruct (kind =? 2).
        + by exists st1, true, 0%nat, 0%nat.
        + by exists st1, have, m, m32.
      - cbn [memory_fits is_device_item] in Hfit |- *.
        destruct (parse_encoded_large pre rest kind payload st have m m32)
          as (st1 & Hs & Hi1 & Hdev & Hin1); try done; try lia.
        + intros ->. cbn [Z.eqb Pos.eqb] in Hfit.
          apply andb_prop in Hfit as [[Hh Hm%Nat.ltb_lt]%andb_prop _]. done.
        + intros ->. cbn [Z.eqb Pos.eqb] in Hfit.
          apply andb_prop in Hfit as [[Hh Hm%Nat.ltb_lt]%andb_prop _]. done.
        + rewrite Nat.add_0_r.
          destruct (Z.eqb_spec kind 1) as [K1|K1];
            [|destruct (Z.eqb_spec kind 5) as [K5|K5]].
          * apply andb_prop in Hfit as [_ Hfit].
            subst kind. by exists st1, have, (S m), m32.
          * apply andb_prop in Hfit as [_ Hfit].
            by exists st1, have, m, (S m32).
          * by exists st1, have, m, m32. }
    destruct Hstep as (st1 & have1 & m1 & m321 & Hs & Hi1 & Hdev & Hin1 & Hfit1).
    cbn [parse_rom]. rewrite Hlt, Hs.
    subst r rest. rewrite !app_assoc in *. rewrite <- (app_assoc _ _ [0x79; c]) in *.
    destruct (IH (pre ++ encode it) st1 have1 m1 m321 fuel)
      as (st' & Hrun & Hcount); try done; [simpl in Hfuel; lia|].
    exists st'. split; [exact Hrun|].
    rewrite Hcount, Hdev. cbn [List.filter].
    destruct (is_device_item it); simpl; lia.
Qed.

Lemma stream_rom_length (header : list Z) (its : list item) (c : Z) :
  length (stream_rom header its c)
  = (length header + length (concat (encode <$> its)) + 2)%nat.
Proof. unfold stream_rom. rewrite !length_app. simpl. lia. Qed.

(** Populating the checksum changes the checksum byte alone. *)
Lemma populate_stream (header : list Z) (its : list item) (c : Z) :
  length header = 9%nat ->
  Z.of_nat (length (stream_rom header its c)) < 65536 ->
  exists c',
    populate_checksum (stream_rom header its c)
      (Z.of_nat (length (stream_rom header its c)))
    = Ok (stream_rom header its c').
Proof.
  intros Hh Hsize.
  set (r := stream_rom header its c) in *.
  pose proof (stream_rom_length header its c) as Hlen. fold r in Hlen.
  assert (Hco : u16 (Z.of_nat (length r) - 1) = Z.of_nat (length r) - 1)
    by (unfold u16; apply Z.mod_small; lia).
  assert (Hpop : exists r1, populate_checksum r (Z.of_nat (length r)) = Ok r1).
  { unfold populate_checksum, rom_store. rewrite Hco.
    destruct (decide _) as [_|Hbad]; [|lia]. simpl. by eexists. }
  destruct Hpop as [r1 Hpop]. rewrite Hpop.
  apply populate_checksum_frame in Hpop as (Hlen1 & _ & Hj). rewrite Hco in Hj.
  set (body := header ++ concat (encode <$> its) ++ [0x79]).
  assert (Hsnoc : forall x, stream_rom header its x = body ++ [x]).
  { intros x. unfold stream_rom, body. by rewrite <- !app_assoc. }
  assert (Hbody : length body = (length r - 1)%nat).
  { unfold body. rewrite !length_app. simpl. lia. }
  destruct (lookup_lt_is_Some_2 r1 (length r - 1)%nat ltac:(lia)) as [c' Hc'].
  exists c'. f_equal. apply list_eq. intros j.
  rewrite Hsnoc.
  destruct (decide (j = (length r - 1)%nat)) as [->|Hne].
  - rewrite Hc'. symmetry. by apply list_lookup_middle.
  - rewrite Hj by lia. unfold r. rewrite Hsnoc.
    destruct (decide (j < length body)%nat) as [Hlt|Hge].
    + by rewrite !lookup_app_l by done.
    + rewrite !lookup_ge_None_2; [done|rewrite length_app; simpl; lia..].
Qed.

Lemma parsed_devices_length (st : parse_state) :
  length (parsed_devices st) = length (devices_so_far st).
Proof.
  unfold parsed_devices, devices_so_far.
  destruct (p_ld st); by rewrite ?length_app, ?app_nil_r.
Qed.

(** X11: a ROM made of nine header bytes, items whose kinds and lengths fit
    their fields, and the end tag with its checksum byte, of at most 65535
    bytes in all, in which no memory descriptor comes before the first
    logical-device item and no logical device has more than four memory or
    four 32-bit memory descriptors, is attached in one round of the parsing
    loop per item and one for the end tag.  The attach operation appends
    the card to the controller's list, changes nothing else of the
    controller, and returns the card's position.  The card waits for the
    key with CSN 0, holds the callbacks it was attached with and the ROM
    with its checksum byte replaced, and has one logical device for each
    logical-device item of the ROM, numbered 0, 1, 2, ... (modulo 256) in
    the order of the items, each with 256 byte registers that are the ones
    a reset gives the device, and with the default configuration.  A
    controller that was memory safe stays so. *)
Theorem attach_appends_card (header : list Z) (its : list item) (c : Z)
    (fuel : nat) (cc sc : bool) (rv : option (Z -> Z -> Z)) (wv : bool)
    (dev : isapnp_t) :
  length header = 9%nat ->
  Forall item_ok its ->
  memory_fits false 0 0 its = true ->
  Z.of_nat (length (stream_rom header its c)) < 65536 ->
  (length its < fuel)%nat ->
  exists card c',
    isapnp_add_card fuel (stream_rom header its c)
      (Z.of_nat (length (stream_rom header its c))) cc sc rv wv dev
    = Some (Ok (dev_with_first_card (first_card dev ++ [card]) dev,
                length (first_card dev)))
    /\ state card = PNP_STATE_WAIT_FOR_KEY /\ csn card = 0
    /\ rom card = stream_rom header its c'
    /\ rom_size card = Z.of_nat (length (stream_rom header its c))
    /\ config_changed card = cc /\ csn_changed card = sc
    /\ read_vendor_reg card = rv /\ write_vendor_reg card = wv
    /\ length (first_ld card) = length (List.filter is_device_item its)
    /\ number <$> first_ld card
       = (fun k : nat => Z.of_nat k mod 256) <$> seq 0 (length (first_ld card))
    /\ Forall (fun ld => isapnp_reset_ld_regs ld = ld /\ ld_wf ld
                         /\ device_config ld = config_default)
         (first_ld card)
    /\ card_safe card
    /\ (bus_safe dev ->
        bus_safe (dev_with_first_card (first_card dev ++ [card]) dev)).
Proof.
  intros Hh Hok Hfit Hsize Hfuel.
  destruct (populate_stream header its c Hh Hsize) as [c' Hpop].
  pose proof (stream_rom_length header its c) as Hlen.
  pose proof (stream_rom_length header its c') as Hlen'.
  destruct (parse_stream its c' header parse_start false 0 0 fuel)
    as (st' & Hrun & Hcount); try done.
  { by rewrite Hh. }
  { fold (stream_rom header its c'). lia. }
  fold (stream_rom header its c') in Hrun.
  replace (length (stream_rom header its c'))
    with (length (stream_rom header its c)) in Hrun by lia.
  destruct (parse_rom_devices _ _ _ _ _ parse_start_numbered (Forall_nil_2 _) Hrun)
    as [Hnum Hres].
  unfold isapnp_add_card. rewrite Hpop, Hrun.
  eexists _, c'. split; [reflexivity|].
  cbn [state csn rom rom_size config_changed csn_changed read_vendor_reg
       write_vendor_reg first_ld].
  assert (Hcard : (9 <= length (stream_rom header its c'))%nat
                  /\ (Z.to_nat (Z.of_nat (length (stream_rom header its c)))
                      <= length (stream_rom header its c'))%nat) by lia.
  split; [done|]. split; [done|]. split; [done|]. split; [done|].
  split; [done|]. split; [done|]. split; [done|]. split; [done|].
  split; [by rewrite parsed_devices_length, Hcount|].
  split; [done|]. split; [|split; [done|]].
  - eapply Forall_impl; [exact Hres|]. intros ld [ld0 ->].
    split; [apply reset_ld_idem|].
    split; [apply reset_wf|apply reset_device_config].
  - intros (Hcards & Hiso & Hcur). split; [|split].
    + cbn [first_card dev_with_first_card]. apply Forall_app. split; [done|].
      by apply Forall_singleton.
    + intros ci Hci. cbn [first_card dev_with_first_card].
      destruct (Hiso ci Hci) as [card Hc]. exists card. by apply lookup_app_l_Some.
    + intros p Hp'. destruct (Hcur p Hp') as (card & l & Hd).
      exists card, l. by apply deref_ld_app.
Qed.

(** The cursor after a large item that is no memory descriptor. *)
Lemma parse_other_large (r : list Z) (st : parse_state) (tag hi lo : Z) :
  r !! Z.to_nat (p_i st) = Some tag ->
  r !! Z.to_nat (p_i st + 1) = Some lo ->
  r !! Z.to_nat (p_i st + 2) = Some hi ->
  is_large tag = true ->
  large_kind tag <> 0x01 -> large_kind tag <> 0x05 ->
  parse_item r st = Ok (advance (Z.lor (Z.shiftl hi 8) lo) (advance 3 st)).
Proof.
  intros Ht Hlo Hhi Hl H1 H5. unfold parse_item, rom_at.
  rewrite Ht. simpl. rewrite Hl, Hhi. simpl. rewrite Hlo. simpl.
  apply Z.eqb_neq in H1, H5. by rewrite H1, H5.
Qed.

Lemma parse_rom_stuck (fuel : nat) (r : list Z) (n : Z) (st : parse_state) :
  p_i st < n -> parse_item r st = Ok st -> parse_rom fuel r n st = None.
Proof.
  intros Hlt Hstep. apply Z.ltb_lt in Hlt.
  induction fuel as [|fuel IH]; simpl; rewrite Hlt; [done|].
  by rewrite Hstep.
Qed.

(** X12: a large item other than a memory descriptor whose 16-bit length is
    0xFFFD takes the 16-bit cursor once around to where it was (3 + 0xFFFD
    = 65536): the parsing loop of the attach operation then never ends.
    From such an item on, no number of rounds finishes the loop, and a ROM
    whose first item is one makes the attach operation hang. *)
Theorem attach_hangs_on_wrapping_item (r : list Z) (n : Z) (tag : Z) :
  13 <= n < 65536 ->
  (Z.to_nat n <= length r)%nat ->
  is_large tag = true ->
  large_kind tag <> 0x01 -> large_kind tag <> 0x05 ->
  (forall st fuel,
      0 <= p_i st < n ->
      r !! Z.to_nat (p_i st) = Some tag ->
      r !! Z.to_nat (p_i st + 1) = Some 0xFD ->
      r !! Z.to_nat (p_i st + 2) = Some 0xFF ->
      parse_rom fuel r n st = None)
  /\ (r !! 9%nat = Some tag -> r !! 10%nat = Some 0xFD -> r !! 11%nat = Some 0xFF ->
      forall fuel cc sc rv wv dev,
        isapnp_add_card fuel r n cc sc rv wv dev = None).
Proof.
  intros Hn Hlen Hl H1 H5.
  assert (Hloop : forall r' st fuel,
      0 <= p_i st < n ->
      r' !! Z.to_nat (p_i st) = Some tag ->
      r' !! Z.to_nat (p_i st + 1) = Some 0xFD ->
      r' !! Z.to_nat (p_i st + 2) = Some 0xFF ->
      parse_rom fuel r' n st = None).
  { intros r' st fuel Hi Ht Hlo Hhi. apply parse_rom_stuck; [lia|].
    rewrite (parse_other_large r' st tag 0xFF 0xFD) by done.
    f_equal. destruct st as [i ldn df m m32 mdf m32df done ld].
    unfold advance. cbn [p_i p_ldn p_in_df p_mem_range p_mem_range_32
      p_mem_range_df p_mem_range_32_df p_done p_ld] in *.
    f_equal. change (Z.lor (Z.shiftl 0xFF 8) 0xFD) with 65533.
    unfold u16. rewrite Zplus_mod_idemp_l.
    replace (i + 3 + 65533) with (i + 1 * 65536) by lia.
    rewrite Z.mod_add by lia. apply Z.mod_small. lia. }
  split; [apply Hloop|].
  intros H9 H10 H11 fuel cc sc rv wv dev. unfold isapnp_add_card.
  assert (Hco : u16 (n - 1) = n - 1) by (unfold u16; apply Z.mod_small; lia).
  assert (Hpop : exists r1, populate_checksum r n = Ok r1).
  { unfold populate_checksum, rom_store. rewrite Hco.
    destruct (decide _) as [_|Hbad]; [|lia]. simpl. by eexists. }
  destruct Hpop as [r1 Hpop]. rewrite Hpop.
  apply populate_checksum_frame in Hpop as (_ & _ & Hj). rewrite Hco in Hj.
  rewrite (Hloop r1 parse_start fuel); [done|simpl; lia|..]; simpl.
  - change (Pos.to_nat 9) with 9%nat. rewrite Hj by lia. done.
  - change (Pos.to_nat 10) with 10%nat. rewrite Hj by lia. done.
  - change (Pos.to_nat 11) with 11%nat. rewrite Hj by lia. done.
Qed.

Lemma parse_memory_without_device (r : list Z) (st : parse_state)
    (tag lo hi flags : Z) :
  r !! Z.to_nat (p_i st) = Some tag ->
  r !! Z.to_nat (p_i st + 1) = Some lo ->
  r !! Z.to_nat (p_i st + 2) = Some hi ->
  r !! Z.to_nat (p_i st + 3) = Some flags ->
  is_large tag = true ->
  large_kind tag = 0x01 \/ large_kind tag = 0x05 ->
  p_ld st = None ->
  p_mem_range st <= 3 -> p_mem_range_32 st <= 3 ->
  parse_item r st = Undefined.
Proof.
  intros Ht Hlo Hhi Hfl Hl Hk Hld Hm Hm32. unfold parse_item, rom_at.
  rewrite Ht. simpl. rewrite Hl, Hhi. simpl. rewrite Hlo. simpl.
  assert (Hor : (large_kind tag =? 1) || (large_kind tag =? 5) = true)
    by (destruct Hk as [-> | ->]; reflexivity).
  rewrite Hor. unfold memory_descriptor, rom_at. rewrite Hfl, Hld.
  apply Z.ltb_ge in Hm, Hm32. rewrite Hm, Hm32.
  by destruct (large_kind tag =? 1).
Qed.

(** X13: a memory descriptor that comes before the first logical-device
    item finds no logical device to record its upper-limit bit in: the
    attach operation dereferences a null pointer. *)
Theorem attach_needs_device_before_memory (r : list Z) (n : Z) (tag lo hi flags : Z) :
  14 <= n < 65536 ->
  (Z.to_nat n <= length r)%nat ->
  r !! 9%nat = Some tag -> r !! 10%nat = Some lo -> r !! 11%nat = Some hi ->
  r !! 12%nat = Some flags ->
  is_large tag = true ->
  large_kind tag = 0x01 \/ large_kind tag = 0x05 ->
  forall fuel cc sc rv wv dev,
    isapnp_add_card (S fuel) r n cc sc rv wv dev = Some Undefined.
Proof.
  intros Hn Hlen H9 H10 H11 H12 Hl Hk fuel cc sc rv wv dev.
  unfold isapnp_add_card.
  assert (Hco : u16 (n - 1) = n - 1) by (unfold u16; apply Z.mod_small; lia).
  assert (Hpop : exists r1, populate_checksum r n = Ok r1).
  { unfold populate_checksum, rom_store. rewrite Hco.
    destruct (decide _) as [_|Hbad]; [|lia]. simpl. by eexists. }
  destruct Hpop as [r1 Hpop]. rewrite Hpop.
  apply populate_checksum_frame in Hpop as (_ & _ & Hj). rewrite Hco in Hj.
  assert (Hstep : parse_item r1 parse_start = Undefined).
  { apply (parse_memory_without_device r1 parse_start tag lo hi flags);
      try done; cbn [p_i parse_start p_mem_range p_mem_range_32];
      first [ lia
            | rewrite Hj by lia;
              first [ exact H9 | exact H10 | exact H11 | exact H12 ] ]. }
  cbn [parse_rom]. replace (p_i parse_start <? n) with true
    by (symmetry; apply Z.ltb_lt; simpl; lia).
  by rewrite Hstep.
Qed.

(** ** A whole isolation round *)

Lemma first_half_read (card : isapnp_card_t) :
  serial_read_pair card = 0 ->
  0 <= serial_read_pos card < 72 ->
  is_byte (id_checksum card) ->
  (9 <= length (rom card))%nat ->
  Forall is_byte (rom card) ->
  let p := serial_read_pos card in
  let cks := id_checksum card in
  let bit := if p <? 64 then Z.testbit (vendor_serial_id (rom card)) p
             else Z.testbit cks (p mod 8) in
  serial_isolation_read card
  = Ok (if bit then 0x55 else 0x00,
        card_with_serial (if bit then 0x55 else 0x00) 1 ((p + 1) mod 72)
          (card_with_id_checksum (if p <? 64 then lfsr_step cks bit else cks)
             (card_with_rom (if p =? 64 then <[8%nat := cks]> (rom card) else rom card)
                card))).
Proof.
  intros Hpair Hpos Hcks Hlen Hrom p cks bit.
  unfold serial_isolation_read. rewrite Hpair. simpl. fold p cks.
  assert (Hshift : Z.shiftr p 3 = p / 8) by (by rewrite Z.shiftr_div_pow2).
  assert (Hland : Z.land p 0x7 = p mod 8)
    by (change 7 with (Z.ones 3); by rewrite Z.land_ones).
  assert (Hmod : 0 <= p mod 8 < 8) by (apply Z.mod_pos_bound; lia).
  rewrite Hshift, Hland. subst bit.
  destruct (p <? 64) eqn:Hlt.
  - apply Z.ltb_lt in Hlt.
    assert (Hne : (p =? 64) = false) by (apply Z.eqb_neq; lia).
    rewrite Hne.
    assert (Hdiv : 0 <= p / 8 < 8)
      by (split; [apply Z.div_pos|apply Z.div_lt_upper_bound]; lia).
    unfold rom_at.
    rewrite (list_lookup_lookup_total_lt (rom card)) by lia. simpl.
    rewrite land_shiftr_bit by lia.
    rewrite truthy_b2z, code_lfsr_step by done.
    rewrite vendor_serial_id_bit by (done || lia).
    destruct card; reflexivity.
  - apply Z.ltb_ge in Hlt.
    destruct (p =? 64) eqn:Heq.
    + unfold rom_store. destruct (decide _) as [_|Hbad]; [|simpl in Hbad; lia].
      simpl. rewrite land_shiftr_bit, truthy_b2z by lia.
      destruct card; reflexivity.
    + simpl. rewrite land_shiftr_bit, truthy_b2z by lia.
      destruct card; reflexivity.
Qed.

Lemma second_half_read (card : isapnp_card_t) :
  serial_read_pair card = 1 ->
  serial_isolation_read card
  = Ok (u8 (Z.shiftl (serial_read card) 1),
        card_with_serial (u8 (Z.shiftl (serial_read card) 1)) 0 (serial_read_pos card)
          (if serial_read_pos card =? 0 then card_with_rom_pos 0x09 card else card)).
Proof.
  intros Hpair. unfold serial_isolation_read. rewrite Hpair. simpl.
  unfold truthy. by destruct (serial_read_pos card =? 0).
Qed.

Lemma lfsr_step_byte (cks : Z) (d : bool) : is_byte cks -> is_byte (lfsr_step cks d).
Proof.
  intros Hb. rewrite <- code_lfsr_step by done. unfold u8, is_byte.
  apply Z.mod_pos_bound. lia.
Qed.

Lemma id_checksum_after_byte (r : list Z) (k : nat) : is_byte (id_checksum_after r k).
Proof.
  unfold id_checksum_after. induction k as [|k IH].
  - unfold is_byte. simpl. lia.
  - rewrite seq_S, fmap_app, fold_left_app. simpl. by apply lfsr_step_byte.
Qed.

Lemma id_checksum_after_S (r : list Z) (k : nat) :
  id_checksum_after r (S k) = lfsr_step (id_checksum_after r k) (id_bit r k).
Proof.
  unfold id_checksum_after. by rewrite seq_S, fmap_app, fold_left_app.
Qed.

(** One bit pair: two reads of the card. *)
Lemma isolation_pair_reads (card c' : isapnp_card_t) (k : nat) :
  (9 <= length (rom card))%nat ->
  Forall is_byte (rom card) ->
  (k < 72)%nat ->
  isolating card k c' ->
  exists v1 c1 v2 c2,
    serial_isolation_read c' = Ok (v1, c1)
    /\ state c1 = state card
    /\ serial_isolation_read c1 = Ok (v2, c2)
    /\ [v1; v2] = isolation_pair (isolation_bit (rom card) k)
    /\ isolating card (S k) c2.
Proof.
  intros Hlen Hrom Hk (Hst & Hpair & Hpos & Hcks & Hr & Hrp & Hcsn & Hlds).
  assert (Hp : serial_read_pos c' = Z.of_nat k)
    by (rewrite Hpos; apply Z.mod_small; lia).
  assert (Hlen' : (9 <= length (rom c'))%nat).
  { rewrite Hr. destruct (64 <? k)%nat; [by rewrite length_insert|done]. }
  assert (Hrom' : Forall is_byte (rom c')).
  { rewrite Hr. destruct (64 <? k)%nat; [|done].
    apply Forall_insert; [done|apply id_checksum_after_byte]. }
  assert (Hcb : is_byte (id_checksum c'))
    by (rewrite Hcks; apply id_checksum_after_byte).
  pose proof (first_half_read c' Hpair ltac:(lia) Hcb Hlen' Hrom') as H1.
  cbv zeta in H1. rewrite Hp in H1.
  set (bit := isolation_bit (rom card) k).
  assert (Hbit : (if Z.of_nat k <? 64
                  then Z.testbit (vendor_serial_id (rom c')) (Z.of_nat k)
                  else Z.testbit (id_checksum c') (Z.of_nat k mod 8)) = bit).
  { subst bit. unfold isolation_bit, id_bit.
    destruct (Nat.ltb_spec k 64) as [Hlt|Hge].
    - replace (Z.of_nat k <? 64) with true by (symmetry; apply Z.ltb_lt; lia).
      rewrite Hr. replace (64 <? k)%nat with false; [done|].
      symmetry. apply Nat.ltb_ge. lia.
    - replace (Z.of_nat k <? 64) with false by (symmetry; apply Z.ltb_ge; lia).
      rewrite Hcks. replace (k `min` 64)%nat with 64%nat by lia.
      f_equal. replace (Z.of_nat k) with (Z.of_nat (k - 64) + 8 * 8) by lia.
      rewrite Z.mod_add by lia. apply Z.mod_small. lia. }
  rewrite Hbit in H1.
  eexists _, _. rewrite H1.
  set (c1 := card_with_serial _ _ _ _).
  pose proof (second_half_read c1 eq_refl) as H2.
  eexists _, _. split; [reflexivity|]. split; [exact Hst|].
  split; [exact H2|]. split.
  { subst c1. cbn [serial_read card_with_serial]. by destruct bit. }
  subst c1.
  cbn [serial_read_pos serial_read card_with_serial card_with_rom_pos
       card_with_id_checksum card_with_rom] in *.
  assert (Hnext : (Z.of_nat k + 1) mod 72 = Z.of_nat (S k) mod 72)
    by (f_equal; lia).
  destruct (Nat.eqb_spec (S k) 72) as [H72|H72].
  - assert (Hz : (Z.of_nat k + 1) mod 72 = 0)
      by (replace (Z.of_nat k + 1) with 72 by lia; reflexivity).
    rewrite Hz. cbn [Z.eqb].
    replace (Z.of_nat k <? 64) with false by (symmetry; apply Z.ltb_ge; lia).
    replace (Z.of_nat k =? 64) with false by (symmetry; apply Z.eqb_neq; lia).
    unfold isolating.
    cbn [serial_read_pos serial_read serial_read_pair card_with_serial
         card_with_rom_pos card_with_id_checksum card_with_rom state id_checksum
         rom rom_pos csn first_ld].
    rewrite H72. change (Z.of_nat 72 mod 72) with 0.
    replace (72 `min` 64)%nat with 64%nat by lia.
    replace (k `min` 64)%nat with 64%nat in Hcks by lia.
    replace (64 <? k)%nat with true in Hr by (symmetry; apply Nat.ltb_lt; lia).
    by repeat split.
  - assert (Hnz : ((Z.of_nat k + 1) mod 72 =? 0) = false).
    { apply Z.eqb_neq. rewrite Z.mod_small by lia. lia. }
    rewrite Hnz. unfold isolating.
    cbn [serial_read_pos serial_read serial_read_pair card_with_serial
         card_with_rom_pos card_with_id_checksum card_with_rom state id_checksum
         rom rom_pos csn first_ld].
    replace (S k =? 72)%nat with false by (symmetry; apply Nat.eqb_neq; lia).
    replace (k =? 72)%nat with false in Hrp by (symmetry; apply Nat.eqb_neq; lia).
    split; [done|]. split; [done|]. split; [done|].
    split; [|split; [|by repeat split]].
    + destruct (Nat.ltb_spec k 64) as [Hlt|Hge].
      * replace (Z.of_nat k <? 64) with true by (symmetry; apply Z.ltb_lt; lia).
        replace (S k `min` 64)%nat with (S k) by lia.
        replace (k `min` 64)%nat with k in Hcks by lia.
        rewrite id_checksum_after_S, Hcks. f_equal.
        subst bit. unfold isolation_bit.
        by replace (k <? 64)%nat with true by (symmetry; apply Nat.ltb_lt; lia).
      * replace (Z.of_nat k <? 64) with false by (symmetry; apply Z.ltb_ge; lia).
        replace (S k `min` 64)%nat with 64%nat by lia.
        by replace (k `min` 64)%nat with 64%nat in Hcks by lia.
    + destruct (Nat.eq_dec k 64%nat) as [-> |Hne64].
      * change (Z.of_nat 64 =? 64) with true. cbn iota.
        change (64 <? 65)%nat with true. change (64 <? 64)%nat with false in Hr.
        by rewrite Hr, Hcks.
      * replace (Z.of_nat k =? 64) with false by (symmetry; apply Z.eqb_neq; lia).
        rewrite Hr.
        destruct (Nat.ltb_spec 64 k) as [Hlt|Hge].
        -- by replace (64 <? S k)%nat with true by (symmetry; apply Nat.ltb_lt; lia).
        -- by replace (64 <? S k)%nat with false by (symmetry; apply Nat.ltb_ge; lia).
Qed.

Lemma run_app (l1 l2 : list access) (dev : isapnp_t) :
  run (l1 ++ l2) dev
  = (s ← run l1 dev; t ← run l2 s.1; Ok (t.1, s.2 ++ t.2)).
Proof.
  revert dev. induction l1 as [|a l1 IH]; intros dev.
  - simpl. destruct (run l2 dev) as [[d o]| |]; reflexivity.
  - cbn [app run].
    destruct (match a with
              | write_addr v => Ok (isapnp_write_addr v dev, [])
              | write_data v => w ← isapnp_write_data v dev; Ok (w.1, map called w.2)
              | read_data => w ← isapnp_read_data dev; Ok (w.2, [returned w.1])
              end) as [[d o]| |]; [|reflexivity|reflexivity].
    cbn [mbind result_bind fst snd]. rewrite IH.
    destruct (run l1 d) as [[d1 o1]| |]; [|reflexivity|reflexivity].
    cbn [mbind result_bind fst snd].
    destruct (run l2 d1) as [[d2 o2]| |]; [|reflexivity|reflexivity].
    cbn [mbind result_bind fst snd]. by rewrite app_assoc.
Qed.

Lemma first_in_state_insert (s : pnp_state) (cs : list isapnp_card_t)
    (ci : nat) (c c' : isapnp_card_t) :
  first_in_state s cs ci c -> state c' = s ->
  first_in_state s (<[ci := c']> cs) ci c'.
Proof.
  intros (Hc & Hs & Hbefore) Hs'. split; [|split; [done|]].
  - apply list_lookup_insert_eq. by eapply lookup_lt_Some.
  - intros j x Hj Hlt. rewrite list_lookup_insert_ne in Hj by lia.
    by apply (Hbefore j).
Qed.

Lemma bus_isolation_read (dev : isapnp_t) (ci : nat) (c c1 : isapnp_card_t) (v : Z) :
  reg dev = 0x01 ->
  first_in_state PNP_STATE_ISOLATION (first_card dev) ci c ->
  serial_isolation_read c = Ok (v, c1) ->
  isapnp_read_data dev
  = Ok (v, dev_with_first_card (<[ci := c1]> (first_card dev))
             (dev_with_isolated_card (Some ci) dev)).
Proof.
  intros Hreg Hf Hs. unfold isapnp_read_data. rewrite Hreg. simpl.
  rewrite (find_card_first _ _ _ _ Hf). simpl. by rewrite Hs.
Qed.

Lemma isolation_stream_S (r : list Z) (k : nat) :
  isolation_stream r (S k)
  = isolation_stream r k ++ isolation_pair (isolation_bit r k).
Proof.
  unfold isolation_stream. rewrite seq_S, fmap_app, flat_map_app. simpl.
  by rewrite app_nil_r.
Qed.

Lemma isolation_pairs (dev : isapnp_t) (ci : nat) (card : isapnp_card_t) (k : nat) :
  reg dev = 0x01 ->
  first_in_state PNP_STATE_ISOLATION (first_card dev) ci card ->
  serial_read_pair card = 0 ->
  serial_read_pos card = 0 ->
  id_checksum card = 0x6A ->
  (9 <= length (rom card))%nat ->
  Forall is_byte (rom card) ->
  (k <= 72)%nat ->
  exists dev' c',
    run (replicate (2 * k) read_data) dev
    = Ok (dev', returned <$> isolation_stream (rom card) k)
    /\ reg dev' = 0x01
    /\ first_card dev' = <[ci := c']> (first_card dev)
    /\ isolating card k c'
    /\ ((0 < k)%nat -> isolated_card dev' = Some ci)
    /\ key_pos dev' = key_pos dev
    /\ read_data_addr dev' = read_data_addr dev
    /\ current_ld dev' = current_ld dev.
Proof.
  intros Hreg Hf Hpair Hpos Hcks Hlen Hrom. induction k as [|k IH]; intros Hk.
  - exists dev, card. split; [done|]. split; [done|].
    split; [symmetry; apply list_insert_id; apply Hf|].
    split; [by repeat split|]. split; [lia|done].
  - destruct IH as (d & c & Hrun & Hreg' & Hcs & Hinv & _ & Hkp & Hrd & Hcl); [lia|].
    destruct (isolation_pair_reads card c k Hlen Hrom ltac:(lia) Hinv)
      as (v1 & c1 & v2 & c2 & H1 & Hst1 & H2 & Hv & Hinv').
    assert (Hfd : first_in_state PNP_STATE_ISOLATION (first_card d) ci c).
    { rewrite Hcs. apply (first_in_state_insert _ _ _ card); [done|].
      destruct Hinv as (-> & _). apply Hf. }
    pose proof (bus_isolation_read d ci c c1 v1 Hreg' Hfd H1) as Hr1.
    set (d1 := dev_with_first_card _ _) in Hr1.
    assert (Hfd1 : first_in_state PNP_STATE_ISOLATION (first_card d1) ci c1).
    { subst d1. cbn [first_card dev_with_first_card].
      apply (first_in_state_insert _ _ _ c); [done|]. rewrite Hst1. apply Hf. }
    pose proof (bus_isolation_read d1 ci c1 c2 v2 Hreg' Hfd1 H2) as Hr2.
    set (d2 := dev_with_first_card _ _) in Hr2.
    exists d2, c2.
    replace (2 * S k)%nat with (2 * k + 2)%nat by lia.
    rewrite replicate_add, run_app, Hrun. cbn [mbind result_bind fst snd replicate run].
    rewrite Hr1. cbn [mbind result_bind fst snd]. rewrite Hr2.
    cbn [mbind result_bind fst snd app].
    split.
    { f_equal. f_equal. rewrite isolation_stream_S, fmap_app, <- Hv. done. }
    split; [done|]. split.
    { subst d2 d1. cbn [first_card dev_with_first_card dev_with_isolated_card].
      by rewrite Hcs, !list_insert_insert_eq. }
    split; [done|]. split; [done|]. done.
Qed.

(** X14: a whole isolation round.  A card in ISOLATION that starts a round
    (position 0, first half, checksum register seeded with 0x6A, as Wake
    leaves it) answers 144 reads of the Serial Isolation register with the
    64 bits of its identifier followed by the 8 bits of the identifier's
    linear-feedback checksum, least significant bit first, each bit as the
    byte pair 0x55, 0xAA when it is 1 and 0x00, 0x00 when it is 0.  After
    the round the card is back at position 0, still in ISOLATION, marked as
    the isolated card, its ROM byte 8 holds that checksum and the ROM cursor
    stands on offset 9, just past the header. *)
Theorem isolation_round (dev : isapnp_t) (ci : nat) (card : isapnp_card_t) :
  reg dev = 0x01 ->
  first_in_state PNP_STATE_ISOLATION (first_card dev) ci card ->
  serial_read_pair card = 0 ->
  serial_read_pos card = 0 ->
  id_checksum card = 0x6A ->
  (9 <= length (rom card))%nat ->
  Forall is_byte (rom card) ->
  exists dev' card',
    run (replicate 144 read_data) dev
    = Ok (dev', returned <$> isolation_stream (rom card) 72)
    /\ isolated_card dev' = Some ci
    /\ first_card dev' = <[ci := card']> (first_card dev)
    /\ state card' = PNP_STATE_ISOLATION
    /\ rom card' = <[8%nat := id_checksum_after (rom card) 64]> (rom card)
    /\ rom_pos card' = 0x09
    /\ serial_read_pos card' = 0 /\ serial_read_pair card' = 0
    /\ length (isolation_stream (rom card) 72) = 144%nat.
Proof.
  intros Hreg Hf Hpair Hpos Hcks Hlen Hrom.
  destruct (isolation_pairs dev ci card 72 Hreg Hf Hpair Hpos Hcks Hlen Hrom)
    as (d & c & Hrun & _ & Hcs & Hinv & Hiso & _); [lia|].
  destruct Hinv as (Hst & Hp & Hps & _ & Hr & Hrp & _).
  exists d, c. split; [exact Hrun|]. split; [apply Hiso; lia|].
  split; [done|]. split; [rewrite Hst; apply Hf|]. split; [done|].
  split; [done|]. split; [done|]. split; [done|].
  unfold isolation_stream. generalize (isolation_bit (rom card)). intros f.
  assert (Hgen : forall l : list nat,
             length (flat_map isolation_pair (f <$> l)) = (2 * length l)%nat).
  { induction l as [|x l IH]; [done|]. cbn [fmap list_fmap flat_map].
    rewrite length_app, IH. destruct (f x); simpl; lia. }
  by rewrite Hgen, length_seq.
Qed.

(** ** No way past the key *)

Lemma key_prefix_writes (vs : list Z) (k : nat) (dev : isapnp_t) card rest :
  first_card dev = card :: rest ->
  state card = PNP_STATE_WAIT_FOR_KEY ->
  key_pos dev = Z.of_nat k -> (k < 32)%nat ->
  ~ contains_key (take k pnp_init_key ++ vs) ->
  let dev' := fold_left (fun d v => isapnp_write_addr v d) vs dev in
  first_card dev' = first_card dev /\ reg dev' = reg dev
  /\ isolated_card dev' = isolated_card dev /\ current_ld dev' = current_ld dev
  /\ read_data_addr dev' = read_data_addr dev
  /\ 0 <= key_pos dev' < 32.
Proof.
  revert k dev. induction vs as [|v vs IH]; intros k dev Hc Hs Hk Hlt Hno.
  - simpl. repeat split; lia.
  - cbn [fold_left].
    assert (Hlook : pnp_init_key !! k = Some (pnp_init_key !!! Z.to_nat (key_pos dev))).
    { rewrite Hk, Nat2Z.id. apply list_lookup_lookup_total_lt. simpl. lia. }
    destruct (Z.eq_dec v (pnp_init_key !!! Z.to_nat (key_pos dev))) as [->|Hne].
    + destruct (decide (k = 31%nat)) as [->|Hk31].
      * exfalso. apply Hno. exists [], vs.
        rewrite (cons_middle _ (take 31 pnp_init_key) vs), app_assoc.
        rewrite <- (take_S_r _ _ _ Hlook). reflexivity.
      * rewrite (write_addr_match _ card rest) by (done || lia).
        destruct (IH (S k) (dev_with_key_pos (key_pos dev + 1) dev))
          as (H1 & H2 & H3 & H4 & H5 & H6); try done.
        -- simpl. lia.
        -- lia.
        -- rewrite (take_S_r _ _ _ Hlook), <- app_assoc, <- cons_middle. exact Hno.
    + rewrite (write_addr_mismatch _ _ card rest) by done.
      destruct (IH 0%nat (dev_with_key_pos 0 dev))
        as (H1 & H2 & H3 & H4 & H5 & H6); try done.
      * lia.
      * intros (l1 & l2 & Hvs). apply Hno.
        exists (take k pnp_init_key ++ v :: l1), l2.
        change (vs = l1 ++ pnp_init_key ++ l2) in Hvs.
        rewrite Hvs, <- app_assoc. reflexivity.
Qed.

(** X15: there is no way past the key.  While the first card waits for
    the key and the cursor is at zero, a sequence of writes to the address
    port in which the 32 key bytes do not occur as one block changes no
    card's state and no register index: only the key cursor moves. *)
Theorem no_unlock_without_key (vs : list Z) (dev : isapnp_t) card rest :
  first_card dev = card :: rest ->
  state card = PNP_STATE_WAIT_FOR_KEY ->
  key_pos dev = 0 ->
  ~ contains_key vs ->
  let dev' := fold_left (fun d v => isapnp_write_addr v d) vs dev in
  first_card dev' = first_card dev /\ reg dev' = reg dev
  /\ isolated_card dev' = isolated_card dev /\ current_ld dev' = current_ld dev
  /\ read_data_addr dev' = read_data_addr dev
  /\ 0 <= key_pos dev' < 32.
Proof.
  intros Hc Hs Hk Hno.
  apply (key_prefix_writes vs 0 dev card rest); try done. lia.
Qed.

(** ** Reading the resource data of a woken card *)

Lemma resource_reads (j : nat) (dev : isapnp_t) (ci : nat) (card : isapnp_card_t) :
  reg dev = 0x04 ->
  first_in_state PNP_STATE_CONFIG (first_card dev) ci card ->
  0 <= rom_pos card ->
  rom_pos card + Z.of_nat j <= rom_size card ->
  rom_size card < 65536 ->
  (Z.to_nat (rom_size card) <= length (rom card))%nat ->
  run (replicate j read_data) dev
  = Ok (dev_with_first_card
          (<[ci := card_with_rom_pos (rom_pos card + Z.of_nat j) card]> (first_card dev))
          dev,
        returned <$> take j (drop (Z.to_nat (rom_pos card)) (rom card))).
Proof.
  revert dev card. induction j as [|j IH]; intros dev card Hreg Hf Hpos Hend Hsz Hlen.
  - simpl. rewrite Z.add_0_r. f_equal. f_equal.
    replace (card_with_rom_pos (rom_pos card) card) with card by (by destruct card).
    rewrite list_insert_id by apply Hf. by destruct dev.
  - cbn [replicate run].
    assert (Hlook : rom card !! Z.to_nat (rom_pos card)
                    = Some (rom card !!! Z.to_nat (rom_pos card)))
      by (apply list_lookup_lookup_total_lt; lia).
    assert (Hread : isapnp_read_data dev
                    = Ok (rom card !!! Z.to_nat (rom_pos card),
                          dev_with_first_card
                            (<[ci := card_with_rom_pos (rom_pos card + 1) card]>
                               (first_card dev)) dev)).
    { unfold isapnp_read_data. rewrite Hreg. simpl.
      rewrite (find_card_first _ _ _ _ Hf).
      replace (rom_size card <=? rom_pos card) with false
        by (symmetry; apply Z.leb_gt; lia).
      unfold rom_at. rewrite Hlook. simpl.
      unfold u16. by rewrite Z.mod_small by lia. }
    rewrite Hread. cbn [mbind result_bind fst snd].
    set (card1 := card_with_rom_pos (rom_pos card + 1) card).
    set (dev1 := dev_with_first_card _ dev).
    assert (Hf1 : first_in_state PNP_STATE_CONFIG (first_card dev1) ci card1).
    { apply (first_in_state_insert _ _ _ card); [done|]. apply Hf. }
    rewrite (IH dev1 card1 Hreg Hf1); cbn [rom_pos rom_size rom card1 card_with_rom_pos];
      try lia.
    cbn [mbind result_bind fst snd app]. f_equal. f_equal.
    + subst dev1 card1. unfold dev_with_first_card. cbn [reg key_pos read_data_addr
        first_card isolated_card current_ld]. f_equal.
      rewrite list_insert_insert_eq. f_equal. unfold card_with_rom_pos.
      cbn [state csn id_checksum serial_read serial_read_pair serial_read_pos rom
           rom_pos rom_size config config_changed csn_changed read_vendor_reg
           write_vendor_reg first_ld]. f_equal. lia.
    + rewrite (drop_S _ _ _ Hlook). cbn [take fmap list_fmap]. f_equal.
      by replace (Z.to_nat (rom_pos card + 1)) with (S (Z.to_nat (rom_pos card))) by lia.
Qed.

(** X16: Wake[CSN] followed by reads of the Resource Data register.  On
    an unlocked bus, waking the asleep (or already configuring) card that
    holds a non-zero CSN puts it in CONFIG with its ROM cursor rewound to
    0, and the next k reads of Resource Data return the first k bytes of
    its ROM, header included, leaving the cursor at k. *)
Theorem wake_then_read_resources (dev : isapnp_t) (ci : nat) (card : isapnp_card_t)
    (val : Z) (k : nat) :
  reg dev = 0x03 ->
  bus_unlocked dev ->
  first_card dev !! ci = Some card ->
  csn card = val -> val <> 0 ->
  state card = PNP_STATE_SLEEP \/ state card = PNP_STATE_CONFIG ->
  (forall j c, (j < ci)%nat -> first_card dev !! j = Some c -> csn c <> val) ->
  rom_size card < 65536 ->
  (Z.to_nat (rom_size card) <= length (rom card))%nat ->
  Z.of_nat k <= rom_size card ->
  exists dev' card',
    run (write_data val :: write_addr 0x04 :: replicate k read_data) dev
    = Ok (dev', returned <$> take k (rom card))
    /\ first_card dev' !! ci = Some card'
    /\ state card' = PNP_STATE_CONFIG
    /\ rom_pos card' = Z.of_nat k
    /\ rom card' = rom card.
Proof.
  intros Hreg Hun Hc Hcsn Hval Hst Hbefore Hsz Hlen Hk.
  cbn [run]. unfold isapnp_write_data. rewrite Hreg. cbn [Z.eqb Pos.eqb].
  cbn [mbind result_bind fst snd map].
  set (dev1 := dev_with_first_card (wake_card val <$> first_card dev) dev).
  assert (Hun1 : bus_unlocked dev1).
  { unfold bus_unlocked. subst dev1. cbn [first_card dev_with_first_card].
    apply Forall_fmap. eapply Forall_impl; [exact Hun|].
    intros c Hs. by apply wake_card_awake. }
  assert (Hw : isapnp_write_addr 0x04 dev1 = dev_with_reg 0x04 dev1).
  { destruct (first_card dev1) as [|c0 rest] eqn:Hcs.
    - subst dev1. cbn [first_card dev_with_first_card] in Hcs.
      apply fmap_nil_inv in Hcs. by rewrite Hcs in Hc.
    - apply (write_addr_unlocked_first _ _ c0 rest); [done|].
      unfold bus_unlocked in Hun1. rewrite Hcs in Hun1.
      by apply Forall_cons in Hun1 as [? _]. }
  rewrite Hw. set (dev2 := dev_with_reg 4 dev1).
  set (card1 := wake_card val card).
  assert (Hcard1 : state card1 = PNP_STATE_CONFIG /\ rom_pos card1 = 0
                   /\ rom card1 = rom card /\ rom_size card1 = rom_size card).
  { subst card1. unfold wake_card. rewrite Hcsn, Z.eqb_refl.
    apply Z.eqb_neq in Hval. rewrite Hval.
    destruct (decide (state card = PNP_STATE_SLEEP)) as [Hs|Hs]; [done|].
    destruct Hst as [Hst|Hst]; [done|]. by rewrite <- Hst. }
  destruct Hcard1 as (Hs1 & Hp1 & Hr1 & Hz1).
  assert (Hf : first_in_state PNP_STATE_CONFIG (first_card dev2) ci card1).
  { split; [|split; [done|]].
    - subst dev2 dev1. cbn [first_card dev_with_reg dev_with_first_card].
      by rewrite list_lookup_fmap, Hc.
    - intros j c Hj Hlt. subst dev2 dev1.
      cbn [first_card dev_with_reg dev_with_first_card] in Hj.
      rewrite list_lookup_fmap in Hj.
      destruct (first_card dev !! j) as [c0|] eqn:Hc0; [|done].
      injection Hj as <-. unfold wake_card.
      pose proof (Hbefore j c0 Hlt Hc0) as Hne. apply Z.eqb_neq in Hne.
      by rewrite Hne. }
  rewrite (resource_reads k dev2 ci card1 eq_refl Hf); try lia;
    [|by rewrite Hr1, Hz1].
  cbn [mbind result_bind fst snd app]. rewrite Hp1, Hr1. cbn [Z.to_nat drop].
  eexists _, _. split; [reflexivity|].
  cbn [first_card dev_with_first_card]. split.
  - apply list_lookup_insert_eq. by eapply lookup_lt_Some, Hf.
  - cbn [state rom_pos rom card_with_rom_pos]. split; [done|]. split; [lia|done].
Qed.

(** ** I/O range check *)

Lemma config_io_wire (ld : isapnp_device_t) (i : Z) :
  ld_wf ld -> 0 <= i < 8 ->
  config_io (regs ld) i
  = Z.lor (Z.shiftl (reg_get (regs ld) (0x60 + 2 * i)) 8)
          (reg_get (regs ld) (0x60 + 2 * i + 1)).
Proof.
  intros Hwf Hi. unfold config_io, u16.
  pose proof (reg_get_byte ld (0x60 + 2 * i) Hwf ltac:(lia)) as Hhi.
  pose proof (reg_get_byte ld (0x60 + 2 * i + 1) Hwf ltac:(lia)) as Hlo.
  unfold is_byte in *.
  rewrite Z.shiftl_mul_pow2, (lor_pow2_add 8) by lia.
  apply Z.mod_small. lia.
Qed.

Lemma config_ignores_range_check (ld : isapnp_device_t) (v : Z) :
  length (regs ld) = 256%nat ->
  device_config (ld_with_regs (reg_set (regs ld) 0x31 v) ld) = device_config ld.
Proof.
  intros Hlen. unfold device_config. cbn [regs ld_with_regs].
  assert (Hg : forall r, 0 <= r -> r <> 0x31 ->
             reg_get (reg_set (regs ld) 0x31 v) r = reg_get (regs ld) r)
    by (intros r H0 Hne; apply reg_get_set_ne; lia).
  f_equal.
  - by rewrite Hg by lia.
  - unfold config_mem. cbn [map]. by rewrite !Hg by lia.
  - unfold config_mem32. cbn [map Z.eqb]. by rewrite !Hg by lia.
  - unfold config_io. cbn [map]. by rewrite !Hg by lia.
  - unfold config_irq. cbn [map]. by rewrite !Hg by lia.
  - unfold config_dma. cbn [map]. by rewrite !Hg by lia.
Qed.

(** X17: a write to the I/O Range Check register of the addressed
    logical device keeps bits 0 and 1 of the value.  For each of the eight
    I/O bases of the device's configuration record, in order, it removes
    the range-check handler when range checking was on and installs it when
    bit 1 of the value is set; the handler then answers 0x55 when bit 0 of
    the value is set and 0xAA otherwise.  The configuration record is not
    affected and the configuration-changed callback is not called. *)
Theorem io_range_check (dev : isapnp_t) (val : Z)
    (p : nat * nat) (card : isapnp_card_t) (ld : isapnp_device_t) :
  current_ld dev = Some p ->
  deref_ld dev p = Ok (card, ld) ->
  ld_wf ld ->
  reg dev = 0x31 ->
  let h := h_read_rangecheck p.1 p.2 in
  exists dev' card' ld',
    isapnp_write_data val dev
    = Ok (dev',
          flat_map (fun a =>
                      (if Z.testbit (reg_get (regs ld) 0x31) 1
                       then [ev_io_removehandler a h] else [])
                      ++ (if Z.testbit val 1 then [ev_io_sethandler a h] else []))
            (io (device_config ld)))
    /\ deref_ld dev' p = Ok (card', ld')
    /\ reg_get (regs ld') 0x31 = Z.land val 0x03
    /\ isapnp_read_rangecheck ld' = (if Z.testbit val 0 then 0x55 else 0xaa)
    /\ device_config ld' = device_config ld
    /\ config card' = config card.
Proof.
  intros Hcur Hderef Hwf Hreg h.
  unfold isapnp_write_data. rewrite Hreg. cbn [Z.eqb Pos.eqb].
  rewrite Hcur, Hderef. cbn [mbind result_bind fst snd].
  set (ld1 := ld_with_regs (reg_set (regs ld) 0x31 (Z.land val 0x03)) ld).
  eexists _, _, ld1. split; [|split; [|split; [|split; [|split]]]].
  - f_equal. f_equal. unfold range_check_events, device_config.
    cbn [io map flat_map].
    rewrite !(config_io_wire ld) by (done || lia).
    rewrite truthy_land_2, truthy_land_2. reflexivity.
  - by apply (deref_ld_store dev p card card ld).
  - subst ld1. cbn [regs ld_with_regs]. apply reg_get_set_eq.
    destruct Hwf as [-> _]. lia.
  - unfold isapnp_read_rangecheck. subst ld1. cbn [regs ld_with_regs].
    rewrite reg_get_set_eq by (destruct Hwf as [-> _]; lia).
    rewrite truthy_land_1, Z.land_spec. change (Z.testbit 3 0) with true.
    by rewrite andb_true_r.
  - apply config_ignores_range_check. apply Hwf.
  - done.
Qed.

(** ** The flag register of the last 32-bit memory range *)

(** X18: reset and translation keep the upper-limit flag of 32-bit memory
    range 3 in bit 0 of register 0xB4, but the list of registers whose low
    bit a guest cannot change names 0x84 instead, a register that reset
    leaves at zero.  So a data-port write to 0xB4 stores the byte as it is,
    low bit included, and the flag that reset derives from the parser's
    mask (bit 7) can be overwritten by the guest. *)
Theorem mem32_flag_registers_disagree (dev : isapnp_t) (val : Z)
    (p : nat * nat) (card : isapnp_card_t) (ld : isapnp_device_t) :
  current_ld dev = Some p ->
  deref_ld dev p = Ok (card, ld) ->
  length (regs ld) = 256%nat ->
  reg dev = 0xb4 ->
  (exists dev' evs card' ld',
      isapnp_write_data val dev = Ok (dev', evs)
      /\ deref_ld dev' p = Ok (card', ld')
      /\ reg_get (regs ld') 0xb4 = val
      /\ upperlimit ld' = upperlimit ld)
  /\ reg_get (regs (isapnp_reset_ld_regs ld)) 0xb4 = Z.b2z (Z.testbit (upperlimit ld) 7)
  /\ reg_get (regs (isapnp_reset_ld_regs ld)) 0x84 = 0
  /\ is_upper_limit_reg 0x84 = true
  /\ is_upper_limit_reg 0xb4 = false.
Proof.
  intros Hcur Hderef Hlen Hreg. split; [|split; [|split; [|split]]].
  - assert (Hst : reg dev = 0x30 \/ (0x40 <= reg dev /\ ~ (0xf0 <= reg dev <= 0xfe)))
      by (right; lia).
    pose proof (stored_register_write dev val p card ld Hcur Hderef Hst) as Hw.
    cbv zeta in Hw. rewrite Hreg in Hw.
    set (ld' := ld_after_write 0xb4 val ld) in *.
    assert (Hget : reg_get (regs ld') 0xb4 = val).
    { subst ld'. unfold ld_after_write, written_byte, stored_value.
      cbn [regs ld_with_regs]. rewrite reg_get_set_eq by lia. reflexivity. }
    destruct (config_changed card).
    + eexists _, _, _, ld'. split; [exact Hw|].
      split; [by apply (deref_ld_store dev p card _ ld)|]. done.
    + eexists _, _, _, ld'. split; [exact Hw|].
      split; [by apply (deref_ld_store dev p card _ ld)|]. done.
  - rewrite reset_reg_get by lia. cbn [fold_left fst snd Z.eqb Pos.eqb].
    unfold notnot. change (Z.shiftl 1 7) with (2 ^ 7).
    rewrite truthy_land_pow2 by lia. by destruct (Z.testbit _ _).
  - rewrite reset_reg_get by lia. reflexivity.
  - reflexivity.
  - reflexivity.
Qed.

(** ** Every reachable controller is memory safe *)

Lemma init_safe : bus_safe isapnp_init.1.
Proof. split; [apply Forall_nil_2|]. split; intros ? [=]. Qed.

Lemma set_csn_frame (ci : nat) (v : Z) (dev dev' : isapnp_t) evs :
  isapnp_set_csn ci v dev = Ok (dev', evs) -> bus_frame dev dev'.
Proof.
  unfold isapnp_set_csn.
  destruct (first_card dev !! ci) as [card|] eqn:Hc; [|done].
  intros [= <- _]. split; [|split; by left]. simpl.
  apply (cards_frame_insert _ _ card); [done|]. by repeat split.
Qed.

Lemma add_card_safe fuel r n cc sc rv wv (dev dev' : isapnp_t) h :
  9 <= n < 65536 ->
  isapnp_add_card fuel r n cc sc rv wv dev = Some (Ok (dev', h)) ->
  bus_safe dev -> bus_safe dev'.
Proof.
  intros Hn. unfold isapnp_add_card.
  destruct (populate_checksum r n) as [r1| |] eqn:Hpop; [|done|done].
  destruct (parse_rom fuel r1 n parse_start) as [[st| |]|] eqn:Hp; [|done|done|done].
  intros [= <- _] (Hcards & Hiso & Hcur).
  apply populate_checksum_frame in Hpop as (Hlen & Hlt & _).
  split; [|split].
  - cbn [first_card dev_with_first_card]. apply Forall_app. split; [done|].
    apply Forall_singleton. unfold card_safe. cbn [rom rom_size].
    unfold u16 in Hlt. rewrite Z.mod_small in Hlt by lia. lia.
  - intros ci Hci. cbn [first_card dev_with_first_card].
    destruct (Hiso ci Hci) as [c Hc]. exists c. by apply lookup_app_l_Some.
  - intros p Hp'. destruct (Hcur p Hp') as (c & l & Hd).
    exists c, l. by apply deref_ld_app.
Qed.

Lemma reachable_safe (dev : isapnp_t) : reachable dev -> bus_safe dev.
Proof.
  induction 1 as [|dev fuel r n cc sc rv wv dev' h _ IH Hn Hadd
                  |dev ci v dev' evs _ IH Hset
                  |dev accesses dev' obs _ IH Hrun].
  - apply init_safe.
  - by eapply add_card_safe.
  - apply (safe_frame dev); [done|]. by eapply set_csn_frame.
  - by apply (proj2 (run_safe accesses dev IH) dev' obs).
Qed.

(** X19: memory safety.  Whatever cards are attached (each ROM holding at
    least its nine header bytes), whatever CSNs the host assigns and
    whatever the guest has done on the three ports so far, the controller's
    references point into its lists and every ROM buffer covers the offsets
    the ports use; no further sequence of port accesses reads or writes
    outside a buffer or follows a dangling reference; and the only fatal
    error a guest can provoke is selecting a logical device number that the
    card in CONFIG does not have. *)
Theorem reachable_is_memory_safe (dev : isapnp_t) :
  reachable dev ->
  bus_safe dev
  /\ (forall accesses, run accesses dev <> Undefined)
  /\ (forall val, isapnp_write_data val dev = Fatal ->
        reg dev = 0x07
        /\ exists ci card,
             find_card PNP_STATE_CONFIG (first_card dev) = Some (ci, card)
             /\ Forall (fun ld => number ld <> val) (first_ld card)).
Proof.
  intros Hs%reachable_safe. split; [done|]. split.
  - intros accesses. by apply run_safe.
  - intros val Hf. destruct (write_data_outcome val dev Hs) as [(d & e & Hw)|(_ & H)].
    + by rewrite Hw in Hf.
    + done.
Qed.

(** ** A CSN assigned by the host *)

(** X20: a CSN assigned through [isapnp_set_csn] works like one assigned
    by the guest.  The call stores the CSN in the card and reports it to the
    CSN-changed callback, without touching the card's state; on an unlocked
    bus where no other card holds that (non-zero) CSN, Wake[CSN] then brings
    exactly this asleep card to CONFIG, every other card to SLEEP, and a
    read of the Card Select Number register returns the CSN. *)
Theorem host_csn_round_trip (dev : isapnp_t) (ci : nat) (card : isapnp_card_t)
    (v : Z) :
  bus_unlocked dev ->
  first_card dev !! ci = Some card ->
  state card = PNP_STATE_SLEEP ->
  v <> 0 ->
  (forall j c, j <> ci -> first_card dev !! j = Some c -> csn c <> v) ->
  exists dev1 dev2,
    isapnp_set_csn ci v dev
    = Ok (dev1, if csn_changed card then [ev_csn_changed ci v] else [])
    /\ state <$> first_card dev1 = state <$> first_card dev
    /\ run [write_addr 0x03; write_data v; write_addr 0x06; read_data] dev1
       = Ok (dev2, [returned v])
    /\ state <$> first_card dev2
       = <[ci := PNP_STATE_CONFIG]> ((fun _ => PNP_STATE_SLEEP) <$> first_card dev).
Proof.
  intros Hun Hc Hs Hv Hother.
  unfold isapnp_set_csn. rewrite Hc.
  set (card1 := card_with_csn v card).
  set (dev1 := dev_with_first_card (<[ci := card1]> (first_card dev)) dev).
  assert (Hst1 : state <$> first_card dev1 = state <$> first_card dev).
  { subst dev1. cbn [first_card dev_with_first_card].
    by apply (insert_keeps_states _ _ card). }
  assert (Hun1 : bus_unlocked dev1) by (by apply (states_keep_unlocked dev)).
  assert (Hne : exists c0 rest, first_card dev1 = c0 :: rest
                                /\ state c0 <> PNP_STATE_WAIT_FOR_KEY).
  { destruct (first_card dev1) as [|c0 rest] eqn:Hcs.
    - subst dev1. cbn [first_card dev_with_first_card] in Hcs.
      apply (f_equal length) in Hcs. rewrite length_insert in Hcs.
      apply lookup_lt_Some in Hc. simpl in Hcs. lia.
    - exists c0, rest. split; [done|].
      unfold bus_unlocked in Hun1. rewrite Hcs in Hun1.
      by apply Forall_cons in Hun1 as [? _]. }
  destruct Hne as (c0 & rest & Hcs & Hc0).
  exists dev1. eexists. split; [reflexivity|]. split; [exact Hst1|].
  cbn [run].
  rewrite (write_addr_unlocked_first _ _ c0 rest Hcs Hc0).
  cbn [mbind result_bind fst snd app].
  unfold isapnp_write_data at 1. cbn [reg dev_with_reg Z.eqb Pos.eqb].
  cbn [mbind result_bind fst snd app map].
  set (dev2 := dev_with_first_card _ (dev_with_reg 3 dev1)).
  assert (Hcards2 : first_card dev2 = wake_card v <$> <[ci := card1]> (first_card dev))
    by reflexivity.
  assert (Hstates2 : state <$> first_card dev2
                     = <[ci := PNP_STATE_CONFIG]>
                         ((fun _ => PNP_STATE_SLEEP) <$> first_card dev)).
  { rewrite Hcards2. apply list_eq. intros j.
    rewrite !list_lookup_fmap.
    destruct (decide (j = ci)) as [->|Hj].
    - rewrite !list_lookup_insert_eq
        by (rewrite ?length_fmap; by eapply lookup_lt_Some).
      cbn [fmap option_fmap option_map]. f_equal.
      subst card1. unfold wake_card. cbn [csn state card_with_csn].
      rewrite Z.eqb_refl. apply Z.eqb_neq in Hv. rewrite Hv.
      by destruct (decide _).
    - rewrite !list_lookup_insert_ne by done. rewrite list_lookup_fmap.
      destruct (first_card dev !! j) as [c|] eqn:Hcj; [|done].
      cbn [fmap option_fmap option_map]. f_equal. unfold wake_card.
      pose proof (Hother j c Hj Hcj) as Hn. apply Z.eqb_neq in Hn.
      by rewrite Hn. }
  assert (Hne2 : exists c2 rest2, first_card dev2 = c2 :: rest2
                                  /\ state c2 <> PNP_STATE_WAIT_FOR_KEY).
  { assert (Hlen2 : length (first_card dev2) = length (first_card dev))
      by (by rewrite Hcards2, length_fmap, length_insert).
    destruct (first_card dev2) as [|c2 rest2] eqn:Hcs2.
    - apply lookup_lt_Some in Hc. simpl in Hlen2. lia.
    - exists c2, rest2. split; [done|].
      assert (Hin : state c2 ∈ state <$> (c2 :: rest2)) by (simpl; left).
      rewrite Hstates2 in Hin.
      apply list_elem_of_lookup in Hin as [j Hj].
      destruct (decide (j = ci)) as [->|Hne].
      + rewrite list_lookup_insert_eq in Hj
          by (rewrite length_fmap; by eapply lookup_lt_Some).
        injection Hj as <-. done.
      + rewrite list_lookup_insert_ne, list_lookup_fmap in Hj by done.
        destruct (first_card dev !! j); [|done]. injection Hj as <-. done. }
  destruct Hne2 as (c2 & rest2 & Hcs2 & Hc2).
  rewrite (write_addr_unlocked_first _ _ c2 rest2 Hcs2 Hc2).
  cbn [mbind result_bind fst snd app].
  set (dev3 := dev_with_reg 6 dev2).
  assert (Hf : first_in_state PNP_STATE_CONFIG (first_card dev3) ci (wake_card v card1)).
  { assert (Hl : forall j, state <$> (first_card dev3 !! j)
                           = <[ci := PNP_STATE_CONFIG]>
                               ((fun _ => PNP_STATE_SLEEP) <$> first_card dev) !! j).
    { intros j. rewrite <- Hstates2, list_lookup_fmap. done. }
    split; [|split].
    - change (first_card dev3) with (first_card dev2). rewrite Hcards2.
      rewrite list_lookup_fmap, list_lookup_insert_eq by (by eapply lookup_lt_Some).
      done.
    - subst card1. unfold wake_card. cbn [csn state card_with_csn].
      rewrite Z.eqb_refl. apply Z.eqb_neq in Hv. rewrite Hv.
      by destruct (decide _).
    - intros j c Hj Hlt. pose proof (Hl j) as Hlj. rewrite Hj in Hlj.
      rewrite list_lookup_insert_ne, list_lookup_fmap in Hlj by lia.
      destruct (first_card dev !! j); [|done].
      cbn [fmap option_fmap option_map] in Hlj. injection Hlj as ->. done. }
  assert (Hread : isapnp_read_data dev3 = Ok (v, dev3)).
  { unfold isapnp_read_data. cbn [reg dev3 dev_with_reg Z.eqb Pos.eqb].
    rewrite (find_card_first _ _ _ _ Hf). f_equal. f_equal.
    subst card1. unfold wake_card. cbn [csn state card_with_csn].
    rewrite Z.eqb_refl. by destruct (decide _). }
  rewrite Hread. cbn [mbind result_bind fst snd app].
  split; [reflexivity|]. exact Hstates2.
Qed.

(** ** Enumerating the next card *)

Lemma unlocked_first (dev : isapnp_t) (ci : nat) (card : isapnp_card_t) (v : Z) :
  bus_unlocked dev ->
  first_card dev !! ci = Some card ->
  isapnp_write_addr v dev = dev_with_reg v dev.
Proof.
  intros Hun Hc. destruct (first_card dev) as [|c0 rest] eqn:Hcs; [done|].
  apply (write_addr_unlocked_first _ _ c0 rest); [done|].
  unfold bus_unlocked in Hun. rewrite Hcs in Hun.
  by apply Forall_cons in Hun as [? _].
Qed.

(** X21: one step of card enumeration.  On an unlocked bus, let the card
    at position ci be the first one without a CSN (every card before it has
    a non-zero CSN), asleep or isolating, at the start of a round.  Then
    Wake[0], 144 reads of Serial Isolation and Set-CSN[n] make the bus
    return this card's identifier and checksum as 72 byte pairs, report the
    new CSN to the card's CSN-changed callback, and leave this card, and no
    other, in CONFIG with CSN n, its ROM byte 8 holding the checksum and its
    ROM cursor at offset 9; the isolated-card reference is cleared. *)
Theorem enumeration_step (dev : isapnp_t) (ci : nat) (card : isapnp_card_t) (n : Z) :
  bus_unlocked dev ->
  first_card dev !! ci = Some card ->
  (forall j c, (j < ci)%nat -> first_card dev !! j = Some c -> csn c <> 0) ->
  csn card = 0 ->
  state card = PNP_STATE_SLEEP \/ state card = PNP_STATE_ISOLATION ->
  serial_read_pair card = 0 ->
  serial_read_pos card = 0 ->
  (9 <= length (rom card))%nat ->
  Forall is_byte (rom card) ->
  exists dev' card',
    run (enumerate n) dev
    = Ok (dev',
          (returned <$> isolation_stream (rom card) 72)
          ++ (if csn_changed card then [called (ev_csn_changed ci n)] else []))
    /\ first_card dev' !! ci = Some card'
    /\ state card' = PNP_STATE_CONFIG
    /\ csn card' = n
    /\ rom card' = <[8%nat := id_checksum_after (rom card) 64]> (rom card)
    /\ rom_pos card' = 0x09
    /\ isolated_card dev' = None
    /\ (forall j c, j <> ci -> first_card dev !! j = Some c ->
          first_card dev' !! j = Some (wake_card 0 c)).
Proof.
  intros Hun Hc Hbefore Hcsn Hst Hpair Hpos Hlen Hrom.
  unfold enumerate. cbn [app run].
  rewrite (unlocked_first dev ci card 3 Hun Hc).
  cbn [mbind result_bind fst snd app].
  unfold isapnp_write_data at 1. cbn [reg dev_with_reg Z.eqb Pos.eqb].
  cbn [mbind result_bind fst snd app map].
  set (dev1 := dev_with_first_card _ (dev_with_reg 3 dev)).
  assert (Hcards1 : first_card dev1 = wake_card 0 <$> first_card dev) by reflexivity.
  set (card1 := wake_card 0 card).
  assert (Hc1 : first_card dev1 !! ci = Some card1)
    by (by rewrite Hcards1, list_lookup_fmap, Hc).
  assert (Hun1 : bus_unlocked dev1).
  { unfold bus_unlocked. rewrite Hcards1.
    apply Forall_fmap. eapply Forall_impl; [exact Hun|].
    intros c Hs. by apply wake_card_awake. }
  rewrite (unlocked_first dev1 ci card1 1 Hun1 Hc1).
  cbn [mbind result_bind fst snd app].
  set (dev2 := dev_with_reg 1 dev1).
  assert (Hfields : state card1 = PNP_STATE_ISOLATION /\ id_checksum card1 = 0x6A
                    /\ serial_read_pair card1 = 0 /\ serial_read_pos card1 = 0
                    /\ rom card1 = rom card /\ csn_changed card1 = csn_changed card).
  { subst card1. unfold wake_card. rewrite Hcsn. cbn [Z.eqb].
    destruct (decide (state card = PNP_STATE_SLEEP)) as [Hs|Hs]; [done|].
    destruct Hst as [Hst|Hst]; [done|]. by rewrite <- Hst. }
  destruct Hfields as (Hs1 & Hk1 & Hp1 & Hq1 & Hr1 & Hcc1).
  assert (Hf : first_in_state PNP_STATE_ISOLATION (first_card dev2) ci card1).
  { split; [exact Hc1|]. split; [done|].
    intros j c Hj Hlt. change (first_card dev2) with (first_card dev1) in Hj.
    rewrite Hcards1, list_lookup_fmap in Hj.
    destruct (first_card dev !! j) as [c0|] eqn:Hc0; [|done].
    injection Hj as <-. unfold wake_card.
    pose proof (Hbefore j c0 Hlt Hc0) as Hne. apply Z.eqb_neq in Hne.
    by rewrite Hne. }
  destruct (isolation_pairs dev2 ci card1 72 eq_refl Hf Hp1 Hq1 Hk1)
    as (dev3 & c3 & Hrun & Hreg3 & Hcs3 & Hinv & Hiso & _);
    [by rewrite Hr1|by rewrite Hr1|lia|].
  change (2 * 72)%nat with 144%nat in Hrun.
  rewrite run_app, Hrun. cbn [mbind result_bind fst snd].
  destruct Hinv as (Hst3 & _ & _ & _ & Hrom3 & Hrp3 & _).
  change (64 <? 72)%nat with true in Hrom3. change (72 =? 72)%nat with true in Hrp3.
  assert (Hc3 : first_card dev3 !! ci = Some c3).
  { rewrite Hcs3. apply list_lookup_insert_eq. by eapply lookup_lt_Some. }
  assert (Hun3 : bus_unlocked dev3).
  { apply (states_keep_unlocked dev1); [|done]. rewrite Hcs3.
    apply (insert_keeps_states _ _ card1); [done|]. by rewrite Hst3. }
  cbn [run]. rewrite (unlocked_first dev3 ci c3 6 Hun3 Hc3).
  cbn [mbind result_bind fst snd app].
  unfold isapnp_write_data. cbn [reg dev_with_reg Z.eqb Pos.eqb isolated_card].
  rewrite (Hiso ltac:(lia)). cbn [first_card dev_with_reg]. rewrite Hc3.
  cbn [mbind result_bind fst snd app map].
  assert (Hcc3 : csn_changed c3 = csn_changed card).
  { apply run_frame in Hrun as [Hfr _].
    destruct (Forall2_lookup_l _ _ _ _ _ Hfr (Hc1 : first_card dev2 !! ci = Some card1))
      as (c3' & Hc3' & Hcf).
    rewrite Hc3 in Hc3'. injection Hc3' as <-.
    destruct Hcf as (_ & _ & -> & _). done. }
  rewrite Hcc3.
  eexists _, _. split.
  { f_equal. f_equal. rewrite Hr1, app_nil_r. f_equal.
    by destruct (csn_changed card). }
  cbn [first_card dev_with_first_card dev_with_isolated_card isolated_card].
  split; [apply list_lookup_insert_eq; by eapply lookup_lt_Some|].
  cbn [state csn rom rom_pos card_with_state card_with_csn].
  split; [done|]. split; [done|]. split; [by rewrite Hrom3, Hr1|].
  split; [done|]. split; [done|].
  intros j c Hj Hcj. rewrite list_lookup_insert_ne by done.
  rewrite Hcs3, list_lookup_insert_ne by done.
  change (first_card dev2) with (first_card dev1).
  by rewrite Hcards1, list_lookup_fmap, Hcj.
Qed.

(** ** The bookkeeping of the port handlers *)

Lemma installed_app h (t1 t2 : list observation) (l : list Z) :
  installed h (t1 ++ t2) l = installed h t2 (installed h t1 l).
Proof. apply fold_left_app. Qed.

Lemma installed_neutral (h : io_handler) (evs : list event) (l : list Z) :
  h = h_read_data \/ h = h_write_addr \/ h = h_write_data ->
  Forall port_neutral evs ->
  installed h (map called evs) l = l.
Proof.
  intros Hh Hall. induction Hall as [|e evs He _ IH]; [done|].
  unfold installed in *. cbn [map fold_left]. rewrite <- IH at 2. f_equal.
  destruct e as [| | |a h'|a h']; try done;
    destruct h'; try done; simpl;
    destruct (decide _) as [E|E]; try done;
    destruct Hh as [->|[->| ->]]; discriminate.
Qed.

Lemma concat_imap_neutral {A : Type} (f : nat -> A -> list event) (l : list A) :
  (forall i x, Forall port_neutral (f i x)) ->
  Forall port_neutral (concat (imap f l)).
Proof.
  revert f. induction l as [|x l IH]; intros f Hf; [constructor|].
  cbn [imap concat]. apply Forall_app. split; [apply Hf|].
  apply IH. intros i y. apply Hf.
Qed.

Lemma config_control_calls_neutral (val : Z) (cs : list isapnp_card_t) :
  Forall port_neutral (config_control_calls val cs).
Proof.
  unfold config_control_calls. apply Forall_app. split.
  - destruct (Z.testbit val 0); [|constructor].
    apply concat_imap_neutral. intros i c.
    destruct (config_changed c); [|constructor].
    apply Forall_fmap, Forall_true. done.
  - destruct (Z.testbit val 2); [|constructor].
    apply concat_imap_neutral. intros i c.
    destruct (csn_changed c); [|constructor]. by repeat constructor.
Qed.

Lemma range_check_events_neutral p rs val :
  Forall port_neutral (range_check_events p rs val).
Proof.
  unfold range_check_events. cbn [flat_map].
  repeat (apply Forall_app; split);
    try (destruct (truthy _); by repeat constructor).
  constructor.
Qed.

Lemma Ok_pair_inj {A B : Type} (a c : A) (b d : B) :
  Ok (a, b) = Ok (c, d) -> a = c /\ b = d.
Proof. by intros [= -> ->]. Qed.

Lemma set_read_data_ports (h : io_handler) (addr : Z) (dev : isapnp_t) :
  installed h_read_data (map called (isapnp_set_read_data addr dev).2)
    (read_data_ports dev)
  = read_data_ports (isapnp_set_read_data addr dev).1
  /\ (h = h_write_addr \/ h = h_write_data ->
      forall l, installed h (map called (isapnp_set_read_data addr dev).2) l = l).
Proof.
  unfold isapnp_set_read_data, read_data_ports, installed, truthy.
  destruct dev as [r k a cs iso cur]. cbn [read_data_addr].
  destruct (Z.eqb_spec a 0) as [->|Ha]; cbn [negb];
    destruct ((0x203 <=? addr) && (addr <=? 0x3ff)) eqn:Hin;
    cbn [fst snd app map fold_left handler_step read_data_addr dev_with_read_data_addr].
  - apply andb_true_iff in Hin as [H1%Z.leb_le _].
    replace (addr =? 0) with false by (symmetry; apply Z.eqb_neq; lia).
    split; [done|]. intros [-> | ->] l; done.
  - split; [done|]. intros _ l. done.
  - apply andb_true_iff in Hin as [H1%Z.leb_le _].
    replace (addr =? 0) with false by (symmetry; apply Z.eqb_neq; lia).
    split; [rewrite !decide_True by done; cbn [remove_port];
            by rewrite Z.eqb_refl|].
    intros [-> | ->] l; done.
  - split; [rewrite !decide_True by done; cbn [remove_port];
            by rewrite Z.eqb_refl|].
    intros [-> | ->] l; done.
Qed.

Lemma write_data_ports (val : Z) (dev dev' : isapnp_t) (evs : list event) :
  isapnp_write_data val dev = Ok (dev', evs) ->
  installed h_read_data (map called evs) (read_data_ports dev) = read_data_ports dev'
  /\ (forall h l, h = h_write_addr \/ h = h_write_data ->
        installed h (map called evs) l = l).
Proof.
  assert (Hsame : forall d evs',
             read_data_addr d = read_data_addr dev ->
             Forall port_neutral evs' ->
             installed h_read_data (map called evs') (read_data_ports dev)
             = read_data_ports d
             /\ (forall h l, h = h_write_addr \/ h = h_write_data ->
                   installed h (map called evs') l = l)).
  { intros d evs' Ha Hn. split.
    - rewrite installed_neutral by (done || by left).
      unfold read_data_ports. by rewrite Ha.
    - intros h l Hh. apply installed_neutral; [by right|done]. }
  unfold isapnp_write_data.
  destruct (reg dev =? 0).
  { intros [= H]. pose proof (f_equal fst H) as H1. pose proof (f_equal snd H) as H2.
    simpl in H1, H2. subst dev' evs.
    destruct (set_read_data_ports h_write_addr (Z.lor (Z.shiftl val 2) 3) dev) as [Hr _].
    split; [exact Hr|]. intros h l Hh.
    by apply (set_read_data_ports h (Z.lor (Z.shiftl val 2) 3) dev). }
  destruct (reg dev =? 2).
  { rewrite config_control_closed. intros [<- <-]%Ok_pair_inj.
    rewrite map_app. split.
    - rewrite installed_app.
      rewrite (installed_neutral h_read_data (config_control_calls _ _))
        by (by left || apply config_control_calls_neutral).
      unfold after_config_control, read_data_ports, installed, truthy.
      cbn [read_data_addr].
      destruct (Z.testbit val 0); cbn [andb]; [|done].
      destruct (Z.eqb_spec (read_data_addr dev) 0) as [E|E]; cbn [negb map fold_left];
        [done|].
      cbn [handler_step]. rewrite decide_True by done. cbn [remove_port].
      by rewrite Z.eqb_refl.
    - intros h l Hh. rewrite installed_app.
      rewrite (installed_neutral h (config_control_calls _ _))
        by (by right || apply config_control_calls_neutral).
      destruct (Z.testbit val 0 && truthy (read_data_addr dev)); [|done].
      unfold installed. cbn [map fold_left handler_step].
      destruct Hh as [-> | ->]; done. }
  destruct (reg dev =? 3).
  { intros [= <- <-]. apply Hsame; [done|constructor]. }
  destruct (reg dev =? 6).
  { destruct (isolated_card dev) as [ci|];
      [|intros [= <- <-]; apply Hsame; [done|constructor]].
    destruct (first_card dev !! ci) as [card|]; [|done].
    intros [= <- <-]. apply Hsame; [done|].
    destruct (csn_changed card); by repeat constructor. }
  destruct (reg dev =? 7).
  { destruct (find_card _ _) as [[ci card]|];
      [|intros [= <- <-]; apply Hsame; [done|constructor]].
    destruct (list_find _ _) as [[li l]|]; [|done].
    intros [= <- <-]. apply Hsame; [done|constructor]. }
  destruct (reg dev =? 0x30).
  { destruct (current_ld dev) as [p|];
      [|intros [= <- <-]; apply Hsame; [done|constructor]].
    destruct (deref_ld dev p) as [[card ld]| |]; [|done|done].
    simpl. intros [= <- <-]. apply Hsame; [done|].
    unfold isapnp_device_config_changed.
    destruct (config_changed card); by repeat constructor. }
  destruct (reg dev =? 0x31).
  { destruct (current_ld dev) as [p|];
      [|intros [= <- <-]; apply Hsame; [done|constructor]].
    destruct (deref_ld dev p) as [[card ld]| |]; [|done|done].
    simpl. intros [= <- <-]. apply Hsame; [done|].
    apply range_check_events_neutral. }
  destruct (is_card_vendor_reg (reg dev)).
  { destruct (find_card _ _) as [[ci card]|]; intros [= <- <-];
      (apply Hsame; [done|]); [|constructor].
    destruct (write_vendor_reg card); by repeat constructor. }
  destruct (is_ld_vendor_reg (reg dev)).
  { destruct (current_ld dev) as [p|];
      [|intros [= <- <-]; apply Hsame; [done|constructor]].
    destruct (deref_ld dev p) as [[card ld]| |]; [|done|done].
    simpl. intros [= <- <-]. apply Hsame; [done|].
    destruct (write_vendor_reg card); by repeat constructor. }
  destruct (0x40 <=? reg dev); [|intros [= <- <-]; apply Hsame; [done|constructor]].
  destruct (current_ld dev) as [p|];
    [|intros [= <- <-]; apply Hsame; [done|constructor]].
  destruct (deref_ld dev p) as [[card ld]| |]; [|done|done].
  simpl. intros [= <- <-]. apply Hsame; [done|].
  unfold isapnp_device_config_changed.
  destruct (config_changed card); by repeat constructor.
Qed.

Lemma read_data_addr_kept (dev dev' : isapnp_t) (v : Z) :
  isapnp_read_data dev = Ok (v, dev') -> read_data_addr dev' = read_data_addr dev.
Proof.
  unfold isapnp_read_data.
  destruct (reg dev =? 1).
  { destruct (find_card _ _) as [[ci card]|]; [|by intros [= _ <-]].
    destruct (serial_isolation_read card) as [[b card']| |]; [|done|done].
    simpl. by intros [= _ <-]. }
  destruct (reg dev =? 4).
  { destruct (find_card _ _) as [[ci card]|]; [|by intros [= _ <-]].
    destruct (_ <=? _); [by intros [= _ <-]|].
    destruct (rom_at _ _); [|done|done]. simpl. by intros [= _ <-]. }
  destruct (reg dev =? 5).
  { destruct (find_card _ _); by intros [= _ <-]. }
  destruct (reg dev =? 6).
  { destruct (find_card _ _) as [[ci card]|]; by intros [= _ <-]. }
  destruct (reg dev =? 7).
  { destruct (current_ld dev) as [p|]; [|by intros [= _ <-]].
    destruct (deref_ld dev p); [|done|done]. by intros [= _ <-]. }
  destruct (is_card_vendor_reg (reg dev)).
  { destruct (find_card _ _) as [[ci card]|]; [|by intros [= _ <-]].
    destruct (read_vendor_reg card); by intros [= _ <-]. }
  destruct (is_ld_vendor_reg (reg dev)).
  { destruct (current_ld dev) as [p|]; [|by intros [= _ <-]].
    destruct (deref_ld dev p) as [[card ld]| |]; [|done|done]. simpl.
    destruct (read_vendor_reg card); by intros [= _ <-]. }
  destruct (0x30 <=? reg dev); [|by intros [= _ <-]].
  destruct (current_ld dev) as [p|]; [|by intros [= _ <-]].
  destruct (deref_ld dev p); [|done|done]. by intros [= _ <-].
Qed.

Lemma write_addr_keeps_port (val : Z) (dev : isapnp_t) :
  read_data_addr (isapnp_write_addr val dev) = read_data_addr dev.
Proof.
  unfold isapnp_write_addr. destruct (first_card dev); [done|].
  destruct (decide _); [|done]. destruct (val =? _); [|done].
  by destruct (_ =? 0).
Qed.

Lemma run_ports (accesses : list access) (dev dev' : isapnp_t) obs :
  run accesses dev = Ok (dev', obs) ->
  installed h_read_data obs (read_data_ports dev) = read_data_ports dev'
  /\ (forall h l, h = h_write_addr \/ h = h_write_data -> installed h obs l = l).
Proof.
  revert dev obs. induction accesses as [|a rest IH]; intros dev obs; simpl.
  - by intros [= <- <-].
  - destruct a as [v|v|]; simpl.
    + destruct (run rest _) as [[d o]| |] eqn:Hr; [|done|done].
      simpl. intros [= <- <-]. destruct (IH _ _ Hr) as [H1 H2].
      split; [|exact H2]. rewrite <- H1. unfold read_data_ports.
      by rewrite write_addr_keeps_port.
    + destruct (isapnp_write_data v dev) as [[d e]| |] eqn:Hw; [|done|done].
      simpl. destruct (run rest d) as [[d1 o]| |] eqn:Hr; [|done|done].
      simpl. intros [= <- <-].
      destruct (write_data_ports _ _ _ _ Hw) as [W1 W2].
      destruct (IH _ _ Hr) as [H1 H2]. split.
      * by rewrite installed_app, W1.
      * intros h l Hh. by rewrite installed_app, W2, H2.
    + destruct (isapnp_read_data dev) as [[b d]| |] eqn:Hw; [|done|done].
      simpl. destruct (run rest d) as [[d1 o]| |] eqn:Hr; [|done|done].
      simpl. intros [= <- <-]. destruct (IH _ _ Hr) as [H1 H2]. split.
      * unfold installed. cbn [fold_left handler_step].
        rewrite <- H1. unfold read_data_ports, installed.
        by rewrite (read_data_addr_kept _ _ _ Hw).
      * intros h l Hh. unfold installed. cbn [fold_left handler_step].
        by apply H2.
Qed.

(** X22: the controller keeps exact books on its read-data port.  Across
    any session, the ports on which the read-data handler is installed
    (every io_sethandler adding one, every io_removehandler taking one
    away) are exactly the port recorded in [read_data_addr], or none when
    that is zero: moving the port never leaves a handler behind on the old
    one.  No session installs or removes a handler of the two fixed ports. *)
Theorem read_data_port_bookkeeping (accesses : list access) (dev dev' : isapnp_t)
    (obs : list observation) :
  run accesses dev = Ok (dev', obs) ->
  installed h_read_data obs (read_data_ports dev) = read_data_ports dev'
  /\ (forall l, installed h_write_addr obs l = l)
  /\ (forall l, installed h_write_data obs l = l).
Proof.
  intros Hr. destruct (run_ports _ _ _ _ Hr) as [H1 H2].
  split; [exact H1|]. split; intros l; apply H2; auto.
Qed.

(** X23: [isapnp_close] releases the two fixed ports and nothing else.
    Over a whole life of the controller (created, used for any session
    from a state without read-data port, closed) the handlers of the
    address port and of the write-data port are installed once and removed
    once, but the handler of a read-data port that the guest has set and
    not switched off is still installed after the controller has been
    freed. *)
Theorem close_leaves_read_data_port (accesses : list access) (dev dev' : isapnp_t)
    (obs : list observation) :
  read_data_addr dev = 0 ->
  run accesses dev = Ok (dev', obs) ->
  let life := map called isapnp_init.2 ++ obs ++ map called (isapnp_close dev') in
  installed h_write_addr life [] = []
  /\ installed h_write_data life [] = []
  /\ installed h_read_data life [] = read_data_ports dev'.
Proof.
  intros Ha Hr life. subst life.
  destruct (run_ports _ _ _ _ Hr) as [H1 H2].
  assert (H0 : read_data_ports dev = []) by (unfold read_data_ports; by rewrite Ha).
  rewrite H0 in H1. rewrite !installed_app.
  split; [|split].
  - rewrite (H2 h_write_addr) by auto. reflexivity.
  - rewrite (H2 h_write_data) by auto. reflexivity.
  - change (installed h_read_data (map called isapnp_init.2) []) with (@nil Z).
    rewrite H1. reflexivity.
Qed.

(** ** The further properties at work on concrete states *)

Lemma only_card_unlocked (r k : Z) (card : isapnp_card_t) iso cur :
  state card <> PNP_STATE_WAIT_FOR_KEY ->
  bus_unlocked (one_card_bus r k card iso cur).
Proof. intros Hs. by apply Forall_singleton. Defined.

(** The sample bus is reachable: one attach on the initial controller. *)
Lemma sample_bus_reachable : reachable sample_bus.
Proof.
  apply (reach_attach isapnp_init.1 4 sample_rom 29 true true None false sample_bus 0
           reach_init).
  - lia.
  - vm_compute. reflexivity.
Defined.

(** Writing 0x80 places the read-data port at 0x203. *)
Lemma set_rd_data_port_witness :
  isapnp_write_data 0x80
    (one_card_bus 0x00 0 (sample_card PNP_STATE_SLEEP 0 0 0) None None)
  = Ok (dev_with_read_data_addr 0x203
          (one_card_bus 0x00 0 (sample_card PNP_STATE_SLEEP 0 0 0) None None),
        [ev_io_sethandler 0x203 h_read_data]).
Proof.
  destruct (set_rd_data_port
              (one_card_bus 0x00 0 (sample_card PNP_STATE_SLEEP 0 0 0) None None)
              0x80 eq_refl ltac:(unfold is_byte; lia)) as [H _].
  exact H.
Defined.

(** Wake[0] on the sample card: the CSN stays 0. *)
Lemma wake_selects_by_csn_witness :
  exists dev',
    isapnp_write_data 0x00
      (one_card_bus 0x03 0 (sample_card PNP_STATE_SLEEP 0 0 5) None None)
    = Ok (dev', [])
    /\ csn <$> first_card dev' = [0].
Proof.
  destruct (wake_selects_by_csn
              (one_card_bus 0x03 0 (sample_card PNP_STATE_SLEEP 0 0 5) None None)
              0x00 eq_refl) as (dev' & Hw & Hcsn & _).
  exists dev'. split; [exact Hw|exact Hcsn].
Defined.

(** Selecting logical device 0 of the sample card. *)
Lemma select_logical_device_witness :
  exists li,
    isapnp_write_data 0x00
      (one_card_bus 0x07 0 (sample_card PNP_STATE_CONFIG 1 0 0) None None)
    = Ok (dev_with_current_ld (Some (0%nat, li))
            (one_card_bus 0x07 0 (sample_card PNP_STATE_CONFIG 1 0 0) None None), []).
Proof.
  destruct (select_logical_device
              (one_card_bus 0x07 0 (sample_card PNP_STATE_CONFIG 1 0 0) None None)
              0x00 eq_refl) as [H _].
  destruct (H 0%nat (sample_card PNP_STATE_CONFIG 1 0 0) (only_card_first _ _ eq_refl))
    as [Hsel _].
  destruct Hsel as (li & ld & _ & _ & _ & Hw & _).
  - exists window_ld. split; [left|reflexivity].
  - exists li. exact Hw.
Defined.

(** Writing 0x03 to the I/O base register 0x60 reads back 0x03. *)
Lemma register_write_read_back_witness :
  exists dev' evs,
    isapnp_write_data 0x03
      (one_card_bus 0x60 0 (sample_card PNP_STATE_CONFIG 1 0 0) None (Some (0%nat, 0%nat)))
    = Ok (dev', evs)
    /\ isapnp_read_data dev' = Ok (0x03, dev').
Proof.
  destruct (register_write_read_back
              (one_card_bus 0x60 0 (sample_card PNP_STATE_CONFIG 1 0 0) None
                 (Some (0%nat, 0%nat)))
              0x03 (0%nat, 0%nat) (sample_card PNP_STATE_CONFIG 1 0 0) window_ld
              eq_refl eq_refl eq_refl) as [H _].
  destruct (H ltac:(right; right; simpl; lia)) as (dev' & evs & Hw & Hr).
  exists dev', evs. split; [exact Hw|exact Hr].
Defined.

(** Reading the Status register leaves the bus as it is. *)
Lemma read_data_only_looks_witness :
  isapnp_read_data (one_card_bus 0x05 0 (sample_card PNP_STATE_CONFIG 1 0 0) None None)
  = Ok (0x01, one_card_bus 0x05 0 (sample_card PNP_STATE_CONFIG 1 0 0) None None)
  /\ one_card_bus 0x05 0 (sample_card PNP_STATE_CONFIG 1 0 0) None None
     = one_card_bus 0x05 0 (sample_card PNP_STATE_CONFIG 1 0 0) None None.
Proof.
  split; [reflexivity|].
  apply (read_data_only_looks
           (one_card_bus 0x05 0 (sample_card PNP_STATE_CONFIG 1 0 0) None None)
           (one_card_bus 0x05 0 (sample_card PNP_STATE_CONFIG 1 0 0) None None) 0x01).
  - simpl. lia.
  - simpl. lia.
  - reflexivity.
Defined.

(** Config Control 0x04 clears CSN 5 of the sample card and reports it. *)
Lemma config_control_resets_csns_witness :
  exists dev',
    isapnp_write_data 0x04
      (one_card_bus 0x02 0 (sample_card PNP_STATE_CONFIG 5 0 0) None None)
    = Ok (dev', [ev_csn_changed 0 0])
    /\ csn <$> first_card dev' = [0].
Proof.
  destruct (config_control_resets_csns
              (one_card_bus 0x02 0 (sample_card PNP_STATE_CONFIG 5 0 0) None None)
              0x04 eq_refl ltac:(vm_compute; discriminate))
    as (dev' & evs0 & Hw & Hc & Hnil).
  rewrite (Hnil eq_refl) in Hw.
  exists dev'. split; [exact Hw|exact Hc].
Defined.

(** Config Control 0x01 on the sample card: the selection is dropped and
    the default configuration of its logical device is reported. *)
Lemma reset_command_resets_devices_witness :
  exists dev' evs,
    isapnp_write_data 0x01
      (one_card_bus 0x02 0 (sample_card PNP_STATE_CONFIG 1 0 0) None (Some (0%nat, 0%nat)))
    = Ok (dev', evs)
    /\ current_ld dev' = None
    /\ evs = [ev_config_changed 0 0 config_default].
Proof.
  destruct (reset_command_resets_devices
              (one_card_bus 0x02 0 (sample_card PNP_STATE_CONFIG 1 0 0) None
                 (Some (0%nat, 0%nat)))
              0x01 eq_refl eq_refl)
    as (dev' & evs & Hw & _ & _ & Hcur & _ & _ & Hev).
  exists dev', evs. split; [exact Hw|]. split; [exact Hcur|exact Hev].
Defined.

(** Config Control 0x05 twice on the sample card. *)
Lemma config_control_is_idempotent_witness :
  exists dev' evs,
    isapnp_write_data 0x05
      (one_card_bus 0x02 0 (sample_card PNP_STATE_CONFIG 5 0 0) None None)
    = Ok (dev', evs)
    /\ isapnp_write_data 0x05 dev'
       = Ok (dev', [ev_config_changed 0 0 config_default; ev_csn_changed 0 0]).
Proof.
  destruct (config_control_is_idempotent
              (one_card_bus 0x02 0 (sample_card PNP_STATE_CONFIG 5 0 0) None None)
              0x05 eq_refl) as (dev' & evs & Hw & Hw2 & _).
  exists dev', evs. split; [exact Hw|exact Hw2].
Defined.

(** A read of Resource Data moves the ROM cursor and nothing else of the
    card's frame. *)
Lemma session_keeps_cards_witness :
  Forall2 card_frame [sample_card PNP_STATE_CONFIG 1 0 9]
                     [sample_card PNP_STATE_CONFIG 1 0 10].
Proof.
  apply (session_keeps_cards [read_data]
           (one_card_bus 0x04 0 (sample_card PNP_STATE_CONFIG 1 0 9) None None)
           (one_card_bus 0x04 0 (sample_card PNP_STATE_CONFIG 1 0 10) None None)
           [returned 0x15]).
  vm_compute. reflexivity.
Defined.

(** The sample bus is memory safe. *)
Lemma reachable_is_memory_safe_witness :
  bus_safe sample_bus
  /\ run (unlock ++ [write_addr 0x04; read_data]) sample_bus <> Undefined.
Proof.
  destruct (reachable_is_memory_safe sample_bus sample_bus_reachable) as (H1 & H2 & _).
  split; [exact H1|apply H2].
Defined.

(** The sample ROM is its header, a logical-device item, a memory range
    descriptor and the end tag; attaching it to the initial controller
    gives the sample bus, whose card has one logical device, number 0. *)
Lemma attach_appends_card_witness :
  exists card,
    attach_sample isapnp_init.1
    = Some (Ok (dev_with_first_card [card] isapnp_init.1, 0%nat))
    /\ state card = PNP_STATE_WAIT_FOR_KEY
    /\ number <$> first_ld card = [0]
    /\ Forall (fun ld => isapnp_reset_ld_regs ld = ld) (first_ld card).
Proof.
  destruct (attach_appends_card (take 9 sample_rom)
              [small_item 0x02 [0x04; 0x96; 0x80; 0x01; 0x00];
               large_item 0x01 [0x04; 0x00; 0x00; 0x00; 0x00; 0x00; 0x00; 0x00; 0x00]]
              0x00 4 true true None false isapnp_init.1
              eq_refl
              ltac:(repeat constructor; simpl; lia)
              eq_refl
              ltac:(simpl; lia)
              ltac:(simpl; lia))
    as (card & c' & Hadd & Hst & _ & _ & _ & _ & _ & _ & _ & Hlen & Hnum & Hres & _).
  exists card. split; [exact Hadd|]. split; [exact Hst|]. split.
  - rewrite Hnum, Hlen. reflexivity.
  - eapply Forall_impl; [exact Hres|]. by intros ld [H _].
Defined.

(** A thousand rounds do not get the parser past the wrapping item. *)
Lemma attach_hangs_on_wrapping_item_witness :
  isapnp_add_card 1000 wrapping_rom 14 true true None false isapnp_init.1 = None.
Proof.
  destruct (attach_hangs_on_wrapping_item wrapping_rom 14 0x82
              ltac:(lia) ltac:(simpl; lia) eq_refl
              ltac:(vm_compute; discriminate) ltac:(vm_compute; discriminate))
    as [_ H].
  apply (H eq_refl eq_refl eq_refl).
Defined.

(** A ROM that opens with a memory range descriptor. *)
Lemma attach_needs_device_before_memory_witness :
  isapnp_add_card 1 orphan_memory_rom 23 true true None false isapnp_init.1
  = Some Undefined.
Proof.
  apply (attach_needs_device_before_memory orphan_memory_rom 23 0x81 0x09 0x00 0x04
           ltac:(lia) ltac:(simpl; lia) eq_refl eq_refl eq_refl eq_refl eq_refl
           (or_introl eq_refl)).
Defined.

(** A round on the sample card: its identifier 0x4433221101809604 has
    checksum 0xF4. *)
Lemma isolation_round_witness :
  id_checksum_after sample_rom 64 = 0xF4
  /\ exists dev' card',
       run (replicate 144 read_data)
         (one_card_bus 0x01 0 (sample_card PNP_STATE_ISOLATION 0 0 0) None None)
       = Ok (dev', returned <$> isolation_stream sample_rom 72)
       /\ rom card' = <[8%nat := id_checksum_after sample_rom 64]> sample_rom
       /\ rom_pos card' = 0x09.
Proof.
  split; [vm_compute; reflexivity|].
  destruct (isolation_round
              (one_card_bus 0x01 0 (sample_card PNP_STATE_ISOLATION 0 0 0) None None)
              0%nat (sample_card PNP_STATE_ISOLATION 0 0 0)
              eq_refl (only_card_first _ _ eq_refl) eq_refl eq_refl eq_refl
              ltac:(simpl; lia) sample_rom_bytes)
    as (dev' & card' & Hrun & _ & _ & _ & Hrom & Hpos & _).
  exists dev', card'. split; [exact Hrun|]. split; [exact Hrom|exact Hpos].
Defined.

(** Two key bytes followed by a wrong one and a fresh start. *)
Lemma no_unlock_without_key_witness :
  first_card
    (fold_left (fun d v => isapnp_write_addr v d) [0x6A; 0xB5; 0x00; 0x6A]
       (one_card_bus 0 0 (sample_card PNP_STATE_WAIT_FOR_KEY 0 0 0) None None))
  = [sample_card PNP_STATE_WAIT_FOR_KEY 0 0 0].
Proof.
  destruct (no_unlock_without_key [0x6A; 0xB5; 0x00; 0x6A]
              (one_card_bus 0 0 (sample_card PNP_STATE_WAIT_FOR_KEY 0 0 0) None None)
              (sample_card PNP_STATE_WAIT_FOR_KEY 0 0 0) [] eq_refl eq_refl eq_refl)
    as (H & _).
  - intros (l1 & l2 & Hvs). apply (f_equal length) in Hvs.
    rewrite !length_app in Hvs. simpl in Hvs. lia.
  - exact H.
Defined.

(** Wake[1] on the sample card, then three reads of Resource Data. *)
Lemma wake_then_read_resources_witness :
  exists dev' card',
    run (write_data 0x01 :: write_addr 0x04 :: replicate 3 read_data)
      (one_card_bus 0x03 0 (sample_card PNP_STATE_SLEEP 1 0 7) None None)
    = Ok (dev', [returned 0x04; returned 0x96; returned 0x80])
    /\ first_card dev' !! 0%nat = Some card'
    /\ rom_pos card' = 3.
Proof.
  destruct (wake_then_read_resources
              (one_card_bus 0x03 0 (sample_card PNP_STATE_SLEEP 1 0 7) None None)
              0%nat (sample_card PNP_STATE_SLEEP 1 0 7) 0x01 3
              eq_refl
              (only_card_unlocked 0x03 0 (sample_card PNP_STATE_SLEEP 1 0 7) None None
                 ltac:(simpl; discriminate))
              eq_refl eq_refl ltac:(lia) (or_introl eq_refl)
              ltac:(intros; lia) ltac:(simpl; lia) ltac:(simpl; lia)
              ltac:(simpl; lia))
    as (dev' & card' & Hrun & Hc & _ & Hpos & _).
  exists dev', card'. split; [exact Hrun|]. split; [exact Hc|exact Hpos].
Defined.

(** Switching range checking on for the sample device: eight handlers at
    its eight (zero) I/O bases, answering 0xAA. *)
Lemma io_range_check_witness :
  exists dev' card' ld',
    isapnp_write_data 0x02
      (one_card_bus 0x31 0 (sample_card PNP_STATE_CONFIG 1 0 0) None (Some (0%nat, 0%nat)))
    = Ok (dev', replicate 8 (ev_io_sethandler 0 (h_read_rangecheck 0 0)))
    /\ deref_ld dev' (0%nat, 0%nat) = Ok (card', ld')
    /\ isapnp_read_rangecheck ld' = 0xaa.
Proof.
  destruct (io_range_check
              (one_card_bus 0x31 0 (sample_card PNP_STATE_CONFIG 1 0 0) None
                 (Some (0%nat, 0%nat)))
              0x02 (0%nat, 0%nat) (sample_card PNP_STATE_CONFIG 1 0 0) window_ld
              eq_refl eq_refl window_ld_wf eq_refl)
    as (dev' & card' & ld' & Hw & Hd & _ & Hr & _).
  exists dev', card', ld'. split; [exact Hw|]. split; [exact Hd|exact Hr].
Defined.

(** Writing 0x01 to register 0xB4 of the sample device sets the flag that
    reset leaves clear. *)
Lemma mem32_flag_registers_disagree_witness :
  (exists dev' evs card' ld',
      isapnp_write_data 0x01
        (one_card_bus 0xb4 0 (sample_card PNP_STATE_CONFIG 1 0 0) None
           (Some (0%nat, 0%nat)))
      = Ok (dev', evs)
      /\ deref_ld dev' (0%nat, 0%nat) = Ok (card', ld')
      /\ reg_get (regs ld') 0xb4 = 0x01)
  /\ reg_get (regs (isapnp_reset_ld_regs window_ld)) 0xb4 = 0.
Proof.
  destruct (mem32_flag_registers_disagree
              (one_card_bus 0xb4 0 (sample_card PNP_STATE_CONFIG 1 0 0) None
                 (Some (0%nat, 0%nat)))
              0x01 (0%nat, 0%nat) (sample_card PNP_STATE_CONFIG 1 0 0) window_ld
              eq_refl eq_refl eq_refl eq_refl)
    as ((dev' & evs & card' & ld' & Hw & Hd & Hv & _) & Hreset & _).
  split; [|exact Hreset].
  exists dev', evs, card', ld'. split; [exact Hw|]. split; [exact Hd|exact Hv].
Defined.

(** The host gives the sample card CSN 5; the guest wakes it and reads the
    CSN back. *)
Lemma host_csn_round_trip_witness :
  exists dev1 dev2,
    isapnp_set_csn 0 0x05
      (one_card_bus 0x00 0 (sample_card PNP_STATE_SLEEP 0 0 0) None None)
    = Ok (dev1, [ev_csn_changed 0 0x05])
    /\ run [write_addr 0x03; write_data 0x05; write_addr 0x06; read_data] dev1
       = Ok (dev2, [returned 0x05]).
Proof.
  destruct (host_csn_round_trip
              (one_card_bus 0x00 0 (sample_card PNP_STATE_SLEEP 0 0 0) None None)
              0%nat (sample_card PNP_STATE_SLEEP 0 0 0) 0x05
              (only_card_unlocked 0x00 0 (sample_card PNP_STATE_SLEEP 0 0 0) None None
                 ltac:(simpl; discriminate))
              eq_refl eq_refl ltac:(lia))
    as (dev1 & dev2 & Hset & _ & Hrun & _).
  - intros j c Hj Hl. destruct j as [|j]; [lia|]. simpl in Hl. discriminate.
  - exists dev1, dev2. split; [exact Hset|exact Hrun].
Defined.

(** Enumerating the sample card with CSN 1. *)
Lemma enumeration_step_witness :
  exists dev' card',
    run (enumerate 0x01)
      (one_card_bus 0x00 0 (sample_card PNP_STATE_SLEEP 0 0 0) None None)
    = Ok (dev',
          (returned <$> isolation_stream sample_rom 72)
          ++ [called (ev_csn_changed 0 0x01)])
    /\ first_card dev' !! 0%nat = Some card'
    /\ state card' = PNP_STATE_CONFIG
    /\ csn card' = 0x01.
Proof.
  destruct (enumeration_step
              (one_card_bus 0x00 0 (sample_card PNP_STATE_SLEEP 0 0 0) None None)
              0%nat (sample_card PNP_STATE_SLEEP 0 0 0) 0x01
              (only_card_unlocked 0x00 0 (sample_card PNP_STATE_SLEEP 0 0 0) None None
                 ltac:(simpl; discriminate))
              eq_refl ltac:(intros; lia) eq_refl (or_introl eq_refl)
              eq_refl eq_refl ltac:(simpl; lia) sample_rom_bytes)
    as (dev' & card' & Hrun & Hc & Hst & Hcsn & _).
  exists dev', card'. split; [exact Hrun|]. split; [exact Hc|].
  split; [exact Hst|exact Hcsn].
Defined.

(** Moving the read-data port from 0x203 to 0x243 leaves one handler, on
    the new port. *)
Lemma read_data_port_bookkeeping_witness :
  installed h_read_data
    [called (ev_io_sethandler 0x203 h_read_data);
     called (ev_io_removehandler 0x203 h_read_data);
     called (ev_io_sethandler 0x243 h_read_data)] []
  = [0x243].
Proof.
  destruct (read_data_port_bookkeeping [write_data 0x80; write_data 0x90]
              (one_card_bus 0x00 0 (sample_card PNP_STATE_SLEEP 0 0 0) None None)
              (dev_with_read_data_addr 0x243
                 (one_card_bus 0x00 0 (sample_card PNP_STATE_SLEEP 0 0 0) None None))
              [called (ev_io_sethandler 0x203 h_read_data);
               called (ev_io_removehandler 0x203 h_read_data);
               called (ev_io_sethandler 0x243 h_read_data)]
              ltac:(vm_compute; reflexivity)) as [H _].
  exact H.
Defined.

(** A controller without cards whose read-data port was set to 0x243 and
    which is then closed: the handler on 0x243 stays. *)
Lemma close_leaves_read_data_port_witness :
  installed h_read_data
    (map called isapnp_init.2
     ++ [called (ev_io_sethandler 0x243 h_read_data)]
     ++ map called (isapnp_close (dev_with_read_data_addr 0x243 isapnp_init.1))) []
  = [0x243].
Proof.
  destruct (close_leaves_read_data_port [write_data 0x90] isapnp_init.1
              (dev_with_read_data_addr 0x243 isapnp_init.1)
              [called (ev_io_sethandler 0x243 h_read_data)]
              eq_refl ltac:(vm_compute; reflexivity)) as (_ & _ & H).
  exact H.
Defined.
